(** * TimeGuardian: the time-synchronisation engine

    A shallow embedding of [app/ntp_client.py], [app/time_utils.py],
    [elevated_time_setter.py] and the [NtpSyncManager] of [app/main.py],
    with the properties of the engine stated and proved over it.

    Conventions of the embedding.
    - Python [int] is [Z]; Python [float] is idealised as an exact rational
      [Q] (no rounding); [bytes] is [list Byte.byte]; [str] is [string];
      [Optional[T]] is [option T].
    - Every effect goes through an explicit [World]: the two clocks, the
      scripted answers of the network and of the spawned processes, the
      instant at which another thread calls [stop()], and a chronological
      log of what the program did to the outside.
    - A Python exception is the [Raise] constructor of [result], carrying the
      text [str(e)]. *)

From stdpp Require Import base list strings pretty gmap.
From Stdlib Require Import ZArith QArith Qround Qabs Lqa Lia.
From Stdlib Require Import Sorting.Permutation Sorting.Sorted.
From Stdlib Require Strings.Byte.
From Stdlib Require Import Strings.Ascii.
From coqutil Require Import Z.bitblast.

Local Open Scope string_scope.
Local Open Scope list_scope.

(** ** Python numerics *)

Module Py.

(** [int(x)] on a float: truncation toward zero. *)
Definition int_of_float (x : Q) : Z := Z.quot (Qnum x) (Zpos (Qden x)).

(** [float(n)] on an int. *)
Definition float_of_int (n : Z) : Q := inject_Z n.

(** [x < y] on floats. *)
Definition ltb (x y : Q) : bool := negb (Qle_bool y x).

(** [max(a, b)]: the first argument unless the second is strictly larger. *)
Definition max (a b : Q) : Q := if ltb a b then b else a.

(** [o or d] for an [Optional[str]]: [None] and the empty string are falsy. *)
Definition or_str (o : option string) (d : string) : string :=
  match o with
  | Some s => if String.eqb s "" then d else s
  | None => d
  end.

(** Truthiness of a [str]. *)
Definition truthy (s : string) : bool := negb (String.eqb s "").

End Py.

(** ** app/ntp_client.py: constants and [NtpResult] *)

Definition NTP_PORT : Z := 123.
Definition NTP_DELTA : Z := 2208988800.

Record NtpResult : Type := mkNtpResult {
  server : string;
  rtt_ms : Q;
  offset_ms : Q;
  success : bool;
  error : option string
}.

Definition _system_to_ntp_time (timestamp : Q) : Q :=
  (timestamp + inject_Z NTP_DELTA)%Q.

Definition _ntp_to_system_time (timestamp : Q) : Q :=
  (timestamp - inject_Z NTP_DELTA)%Q.

Definition _timestamp_to_parts (ts : Q) : Z * Z :=
  let seconds := Py.int_of_float ts in
  let fraction := Py.int_of_float ((ts - inject_Z seconds) * inject_Z (2 ^ 32))%Q in
  (seconds, fraction).

Definition _parts_to_timestamp (seconds fraction : Z) : Q :=
  (inject_Z seconds + inject_Z fraction / inject_Z (2 ^ 32))%Q.

(** ** The [struct] module, as far as the client uses it *)

Module Struct.

Definition u8 (b : Byte.byte) : Z := Z.of_N (Byte.to_N b).

(** Format [b]: a signed byte. *)
Definition i8 (b : Byte.byte) : Z :=
  if (u8 b <? 128)%Z then u8 b else (u8 b - 256)%Z.

(** Format [!I]: four bytes, most significant first. *)
Definition be32 (b0 b1 b2 b3 : Byte.byte) : Z :=
  Z.lor (Z.shiftl (u8 b0) 24)
    (Z.lor (Z.shiftl (u8 b1) 16) (Z.lor (Z.shiftl (u8 b2) 8) (u8 b3))).

Definition byte_of_Z (z : Z) : Byte.byte :=
  match Byte.of_N (Z.to_N (Z.land z 255)) with
  | Some b => b
  | None => Byte.x00
  end.

(** [struct.pack("!I", v)]; [None] is [struct.error] (value out of range). *)
Definition pack_I (v : Z) : option (list Byte.byte) :=
  if ((0 <=? v) && (v <? 2 ^ 32))%Z
  then Some [byte_of_Z (Z.shiftr v 24); byte_of_Z (Z.shiftr v 16);
             byte_of_Z (Z.shiftr v 8); byte_of_Z v]
  else None.

(** [struct.pack_into("!I", buf, off, v)] on a buffer long enough. *)
Definition pack_into_I (buf : list Byte.byte) (off : nat) (v : Z)
  : option (list Byte.byte) :=
  match pack_I v with
  | Some bs => Some (take off buf ++ bs ++ drop (off + 4) buf)
  | None => None
  end.

(** [k] consecutive [I] fields. *)
Fixpoint unpack_words (k : nat) (data : list Byte.byte) : option (list Z) :=
  match k with
  | O => match data with [] => Some [] | _ => None end
  | S k' =>
      match data with
      | b0 :: b1 :: b2 :: b3 :: rest =>
          match unpack_words k' rest with
          | Some ws => Some (be32 b0 b1 b2 b3 :: ws)
          | None => None
          end
      | _ => None
      end
  end.

(** [struct.unpack("!B B b b 11I", data)]: a tuple of 15 integers, or
    [None] ([struct.error]) when [data] is not exactly 48 bytes long. *)
Definition unpack_BBbb11I (data : list Byte.byte) : option (list Z) :=
  match data with
  | a :: b :: c :: d :: rest =>
      match unpack_words 11 rest with
      | Some ws => Some (u8 a :: u8 b :: i8 c :: i8 d :: ws)
      | None => None
      end
  | _ => None
  end.

(** The big-endian word found at byte offset [off] of a datagram. *)
Definition word_at (data : list Byte.byte) (off : nat) : option Z :=
  match drop off data with
  | b0 :: b1 :: b2 :: b3 :: _ => Some (be32 b0 b1 b2 b3)
  | _ => None
  end.

End Struct.

(** ** The outside world *)

(** What one UDP exchange ([sendto] then [recvfrom(48)]) does: it raises, or
    it delivers a datagram.  Either way [dperf] nanoseconds pass on the
    monotonic clock and the wall clock moves by [dwall] seconds. *)
Inductive UdpOutcome : Type :=
| UdpRaises (msg : string) (dperf : Z) (dwall : Q)
| UdpReply (data : list Byte.byte) (dperf : Z) (dwall : Q).

(** What [subprocess.run] does: it raises [TimeoutExpired], raises another
    exception of the given text, or completes with a return code and the
    captured streams.  The call lasts [dperf] nanoseconds. *)
Inductive RunOutcome : Type :=
| RunTimeout (dperf : Z)
| RunRaises (msg : string) (dperf : Z)
| RunCompleted (returncode : Z) (stdout stderr : string) (dperf : Z).

(** What the program does to the outside, in the order it does it. *)
Inductive Event : Type :=
| EvSleep (seconds : Q)
| EvStopPolled (seen : bool)
| EvStatusChanged
| EvBestServerChanged (srv : string) (rtt : Q)
| EvProgress (done total : Z)
| EvPing (host : string) (count timeout_w : Z)
| EvCorrectionRequest (target_epoch_ms : Z)
| EvElevate (helper : string) (target_epoch_ms : Z).

(** [SyncState] of app/main.py, shared with the tray; its [stop_requested]
    flag is written by other threads only and is read through [stop_at]. *)
Record SyncState : Type := mkSyncState {
  last_success_time : Q;
  last_result : option NtpResult;
  running : bool;
  last_best_server : string
}.

Record World : Type := mkWorld {
  wall : Q;                      (* time.time(), seconds since 1970 *)
  perf_ns : Z;                   (* time.perf_counter_ns() *)
  udp : nat -> string -> Z -> list Byte.byte -> UdpOutcome;
                                 (* the n-th exchange: server, timeout_ms, packet *)
  udp_n : nat;
  run : nat -> list string -> RunOutcome;
                                 (* the n-th subprocess.run: the command line *)
  run_n : nat;
  isfile : string -> bool;       (* os.path.isfile *)
  stop_at : option Z;            (* the perf_ns instant of stop(), if any *)
  state : SyncState;
  log : list Event
}.

Definition tell (e : Event) (w : World) : World :=
  mkWorld (wall w) (perf_ns w) (udp w) (udp_n w) (run w) (run_n w)
          (isfile w) (stop_at w) (state w) (log w ++ [e]).

Definition advance (dperf : Z) (dwall : Q) (w : World) : World :=
  mkWorld (wall w + dwall)%Q (perf_ns w + dperf)%Z (udp w) (udp_n w)
          (run w) (run_n w) (isfile w) (stop_at w) (state w) (log w).

Definition next_udp (w : World) : World :=
  mkWorld (wall w) (perf_ns w) (udp w) (S (udp_n w)) (run w) (run_n w)
          (isfile w) (stop_at w) (state w) (log w).

Definition next_run (w : World) : World :=
  mkWorld (wall w) (perf_ns w) (udp w) (udp_n w) (run w) (S (run_n w))
          (isfile w) (stop_at w) (state w) (log w).

Definition set_state (st : SyncState) (w : World) : World :=
  mkWorld (wall w) (perf_ns w) (udp w) (udp_n w) (run w) (run_n w)
          (isfile w) (stop_at w) st (log w).

Definition run_dperf (o : RunOutcome) : Z :=
  match o with
  | RunTimeout d => d
  | RunRaises _ d => d
  | RunCompleted _ _ _ d => d
  end.

(** Seconds of the monotonic clock, as nanoseconds. *)
Definition ns_of_seconds (d : Q) : Z := Qfloor (d * inject_Z 1000000000)%Q.

(** ** Computations that read and change the world and may raise *)

Inductive result (A : Type) : Type :=
| Ok (a : A)
| Raise (e : string).
Arguments Ok {A} a.
Arguments Raise {A} e.

Definition M (A : Type) : Type := World -> result A * World.

Definition ret {A} (a : A) : M A := fun w => (Ok a, w).

Definition bind {A B} (c : M A) (k : A -> M B) : M B :=
  fun w => match c w with
           | (Ok a, w') => k a w'
           | (Raise e, w') => (Raise e, w')
           end.

Definition raise {A} (e : string) : M A := fun w => (Raise e, w).

(** [try: c  except Exception as e: h(str(e))]. *)
Definition try_except {A} (c : M A) (h : string -> M A) : M A :=
  fun w => match c w with
           | (Ok a, w') => (Ok a, w')
           | (Raise e, w') => h e w'
           end.

Definition get {A} (f : World -> A) : M A := fun w => (Ok (f w), w).
Definition modify (f : World -> World) : M unit := fun w => (Ok tt, f w).

Notation "'do' x <- c ;; k" := (bind c (fun x => k))
  (at level 10, x name, c at level 99, k at level 200, only parsing).

(** [time.sleep(d)]: [ValueError] on a negative length. *)
Definition sleep (d : Q) : M unit :=
  fun w => if Py.ltb d 0
           then (Raise "sleep length must be non-negative", w)
           else (Ok tt, advance (ns_of_seconds d) d (tell (EvSleep d) w)).

(** Reading [state.stop_requested], which [stop()] sets from another thread. *)
Definition stop_requested_now (w : World) : bool :=
  match stop_at w with
  | Some s => (s <=? perf_ns w)%Z
  | None => false
  end.

Definition poll_stop : M bool :=
  fun w => let b := stop_requested_now w in (Ok b, tell (EvStopPolled b) w).

(** ** [query_ntp_once] *)

(** Lines 71-75: [recv_sec], [recv_frac], [tx_sec], [tx_frac]. *)
Definition reply_fields (data : list Byte.byte) : option (Z * Z * Z * Z) :=
  match Struct.unpack_BBbb11I data with
  | Some unpacked =>
      match unpacked !! 9%nat, unpacked !! 10%nat,
            unpacked !! 11%nat, unpacked !! 12%nat with
      | Some recv_sec, Some recv_frac, Some tx_sec, Some tx_frac =>
          Some (recv_sec, recv_frac, tx_sec, tx_frac)
      | _, _, _, _ => None
      end
  | None => None
  end.

(** Lines 77-81: the server's two instants [t2] and [t3]. *)
Definition reply_timestamps (data : list Byte.byte) : option (Q * Q) :=
  match reply_fields data with
  | Some (recv_sec, recv_frac, tx_sec, tx_frac) =>
      let t2_ntp := _parts_to_timestamp recv_sec recv_frac in
      let t3_ntp := _parts_to_timestamp tx_sec tx_frac in
      Some (_ntp_to_system_time t2_ntp, _ntp_to_system_time t3_ntp)
  | None => None
  end.

(** Lines 83-93: round trip and offset from the six instants. *)
Definition sample_of_instants (srv : string)
    (p1_ns p4_ns : Z) (t1_sys t4_sys t2 t3 : Q) : NtpResult :=
  let local_rtt := (inject_Z (p4_ns - p1_ns) / inject_Z 1000000000)%Q in
  let rtt := (local_rtt - (t3 - t2))%Q in
  let rtt := if Py.ltb rtt 0 then ((t4_sys - t1_sys) - (t3 - t2))%Q else rtt in
  let offset := (((t2 - t1_sys) + (t3 - t4_sys)) / 2)%Q in
  mkNtpResult srv (Py.max 0 (rtt * 1000)) (offset * 1000)%Q true None.

Definition query_ntp_once (srv : string) (timeout_ms : Z) : M NtpResult :=
  fun w =>
    let first_byte := Z.lor (Z.shiftl 0 6) (Z.lor (Z.shiftl 4 3) 3) in
    let packet := Struct.byte_of_Z first_byte :: replicate 47 Byte.x00 in
    let p1_ns := perf_ns w in
    let t1_sys := wall w in
    let t1_ntp := _system_to_ntp_time t1_sys in
    let '(t1_sec, t1_frac) := _timestamp_to_parts t1_ntp in
    match Struct.pack_into_I packet 40 t1_sec with
    | None => (Raise "'I' format requires 0 <= number <= 4294967295", w)
    | Some packet =>
    match Struct.pack_into_I packet 44 t1_frac with
    | None => (Raise "'I' format requires 0 <= number <= 4294967295", w)
    | Some packet =>
        if (timeout_ms <? 0)%Z
        then (Raise "Timeout value out of range", w)
        else
          match udp w (udp_n w) srv timeout_ms packet with
          | UdpRaises msg dperf dwall =>
              (Ok (mkNtpResult srv 0 0 false (Some msg)),
               advance dperf dwall (next_udp w))
          | UdpReply datagram dperf dwall =>
              let w' := advance dperf dwall (next_udp w) in
              let data := take 48 datagram in
              let p4_ns := perf_ns w' in
              let t4_sys := wall w' in
              if (length data <? 48)%nat
              then (Ok (mkNtpResult srv 0 0 false (Some "Short NTP response")), w')
              else
                match reply_timestamps data with
                | Some (t2, t3) =>
                    (Ok (sample_of_instants srv p1_ns p4_ns t1_sys t4_sys t2 t3), w')
                | None => (Raise "unpack requires a buffer of 48 bytes", w')
                end
          end
    end
    end.

(** ** [sorted] and [statistics.median] *)

Module Statistics.

Fixpoint insert (x : Q) (l : list Q) : list Q :=
  match l with
  | [] => [x]
  | y :: l' => if Qle_bool x y then x :: l else y :: insert x l'
  end.

(** [sorted(data)]: the values of [data] in ascending order. *)
Fixpoint sorted (data : list Q) : list Q :=
  match data with
  | [] => []
  | x :: l => insert x (sorted l)
  end.

(** [statistics.median(data)]; [None] is [StatisticsError] on empty data. *)
Definition median (data : list Q) : option Q :=
  let data := sorted data in
  let n := length data in
  if (n =? 0)%nat then None
  else if (n mod 2 =? 1)%nat then data !! (n / 2)%nat
  else
    let i := (n / 2)%nat in
    match data !! (i - 1)%nat, data !! i with
    | Some a, Some b => Some ((a + b) / 2)%Q
    | _, _ => None
    end.

End Statistics.

(** ** [query_ntp] *)

(** The [for _ in range(samples)] loop, with [k] rounds left. *)
Fixpoint query_ntp_loop (k : nat) (srv : string) (timeout_ms : Z)
    (results : list NtpResult) (last_err : option string)
  : M (list NtpResult * option string) :=
  match k with
  | O => ret (results, last_err)
  | S k' =>
      do res <- query_ntp_once srv timeout_ms ;;
      if success res
      then query_ntp_loop k' srv timeout_ms (results ++ [res]) last_err
      else query_ntp_loop k' srv timeout_ms results (error res)
  end.

Definition query_ntp (srv : string) (timeout_ms samples : Z) : M NtpResult :=
  let samples := Z.max 1 samples in
  do acc <- query_ntp_loop (Z.to_nat samples) srv timeout_ms [] None ;;
  let '(results, last_err) := acc in
  match results with
  | _ :: _ =>
      let rtts := map rtt_ms results in
      let offsets := map offset_ms results in
      match Statistics.median rtts, Statistics.median offsets with
      | Some r, Some o => ret (mkNtpResult srv r o true None)
      | _, _ => raise "no median for empty data"
      end
  | [] =>
      ret (mkNtpResult srv 0 0 false (Some (Py.or_str last_err "NTP failed")))
  end.

(** ** The two patterns of [_icmp_ping_windows], on ASCII text

    [re.finditer(r"time[=<]\s*(\d+)\s*ms", out, re.IGNORECASE)] and
    [re.search(r"Average\s*=\s*(\d+)\s*ms", out, re.IGNORECASE)].  Both
    patterns are deterministic (a digit is neither a space nor [m]), so the
    greedy left-to-right match below is the match [re] finds. *)

Module Re.

Definition lower (c : ascii) : ascii :=
  let n := nat_of_ascii c in
  if ((65 <=? n) && (n <=? 90))%nat then ascii_of_nat (n + 32) else c.

(** [\s] *)
Definition is_space (c : ascii) : bool :=
  let n := nat_of_ascii c in
  ((9 <=? n) && (n <=? 13) || (28 <=? n) && (n <=? 32))%nat.

(** [\d] *)
Definition is_digit (c : ascii) : bool :=
  let n := nat_of_ascii c in ((48 <=? n) && (n <=? 57))%nat.

(** A literal, ignoring case: what is left of [s] after it. *)
Fixpoint lit (p s : list ascii) : option (list ascii) :=
  match p, s with
  | [], _ => Some s
  | a :: p', c :: s' =>
      if Ascii.eqb (lower a) (lower c) then lit p' s' else None
  | _ :: _, [] => None
  end.

(** [\s*] *)
Fixpoint spaces (s : list ascii) : list ascii :=
  match s with
  | c :: s' => if is_space c then spaces s' else s
  | [] => []
  end.

(** [(\d+)] read as [int(...)], continuing the number [acc]. *)
Fixpoint digits (acc : N) (s : list ascii) : N * list ascii :=
  match s with
  | c :: s' =>
      if is_digit c
      then digits (acc * 10 + N.of_nat (nat_of_ascii c - 48))%N s'
      else (acc, s)
  | [] => (acc, [])
  end.

(** [\s*(\d+)\s*ms] *)
Definition number_ms (s : list ascii) : option (N * list ascii) :=
  let s := spaces s in
  match s with
  | c :: _ =>
      if is_digit c then
        let '(v, s) := digits 0 s in
        match lit (String.list_ascii_of_string "ms") (spaces s) with
        | Some rest => Some (v, rest)
        | None => None
        end
      else None
  | [] => None
  end.

(** [time[=<]\s*(\d+)\s*ms] at the head of [s]. *)
Definition time_here (s : list ascii) : option (N * list ascii) :=
  match lit (String.list_ascii_of_string "time") s with
  | Some (c :: s') =>
      if Ascii.eqb c "=" || Ascii.eqb c "<" then number_ms s' else None
  | _ => None
  end.

(** [Average\s*=\s*(\d+)\s*ms] at the head of [s]. *)
Definition average_here (s : list ascii) : option (N * list ascii) :=
  match lit (String.list_ascii_of_string "Average") s with
  | Some s' =>
      match spaces s' with
      | c :: s'' => if Ascii.eqb c "=" then number_ms s'' else None
      | [] => None
      end
  | None => None
  end.

(** [finditer]: the matches from left to right, none overlapping; [skip]
    characters of the last match are still to be passed over. *)
Fixpoint finditer_time (skip : nat) (s : list ascii) : list N :=
  match s with
  | [] => []
  | _ :: s' =>
      match skip with
      | S k => finditer_time k s'
      | O =>
          match time_here s with
          | Some (v, rest) => v :: finditer_time (length s - length rest - 1) s'
          | None => finditer_time 0 s'
          end
      end
  end.

(** [search]: the leftmost match. *)
Fixpoint search_average (s : list ascii) : option N :=
  match s with
  | [] => None
  | _ :: s' =>
      match average_here s with
      | Some (v, _) => Some v
      | None => search_average s'
      end
  end.

End Re.

(** ** [_icmp_ping_windows] *)

(** [str(n)] for an int. *)
Definition str_of_int (n : Z) : string := pretty.pretty n.

(** The body of the [try], after [subprocess.run] has completed. *)
Definition parse_ping_output (stdout stderr : string) : option Q :=
  let out := String.list_ascii_of_string (stdout ++ String "010" "" ++ stderr)%string in
  let times := Re.finditer_time 0 out in
  match times with
  | _ :: _ => Statistics.median (map (fun t => Py.float_of_int (Z.of_N t)) times)
  | [] =>
      match Re.search_average out with
      | Some a => Some (Py.float_of_int (Z.of_N a))
      | None => None
      end
  end.

Definition _icmp_ping_windows (host : string) (timeout_ms samples : Z)
  : M (option Q) :=
  fun w =>
    let count := Z.max 1 samples in
    let wait := Z.max 1 timeout_ms in
    let cmd := ["ping"; "-n"; str_of_int count; "-w"; str_of_int wait; host] in
    let o := run w (run_n w) cmd in
    let w' := advance (run_dperf o) (inject_Z (run_dperf o) / inject_Z 1000000000)
                (next_run (tell (EvPing host count wait) w)) in
    match o with
    | RunCompleted _ stdout stderr _ => (Ok (parse_ping_output stdout stderr), w')
    | RunTimeout _ => (Ok None, w')
    | RunRaises _ _ => (Ok None, w')
    end.

(** ** [ping_servers] *)

(** How a call that starts threads ends. *)
Inductive Call (A : Type) : Type :=
| Returns (a : A)
| Raises (e : string)
| Hangs.
Arguments Returns {A} a.
Arguments Raises {A} e.
Arguments Hangs {A}.

(** The body of [worker] under [with sem:] (lines 159-167): the value stored
    into [results[idx]]. *)
Definition worker (srv : string) (timeout_ms samples : Z) : M NtpResult :=
  do ntp_res <- query_ntp srv timeout_ms samples ;;
  if success ntp_res then ret ntp_res
  else
    do icmp_rtt <- _icmp_ping_windows srv timeout_ms (Z.max 2 samples) ;;
    match icmp_rtt with
    | Some r => ret (mkNtpResult srv r 0 false (Some "ICMP fallback"))
    | None =>
        ret (mkNtpResult srv 0 0 false
               (Some (Py.or_str (error ntp_res) "NTP failed")))
    end.

(** The shared variables of the threads: the slots, the completion counter
    and what [progress_cb] was told. *)
Record Pool : Type := mkPool {
  results : list (option NtpResult);
  done_count : Z;
  progress : list Event
}.

(** Thread [idx] runs to its end in the world it sees.  A thread whose body
    raises dies there: its slot and the counter are left as they were. *)
Definition run_thread (servers : list string) (timeout_ms samples : Z)
    (progress_cb : bool) (view : nat -> World) (p : Pool) (idx : nat) : Pool :=
  match servers !! idx with
  | None => p
  | Some srv =>
      match worker srv timeout_ms samples (view idx) with
      | (Ok r, _) =>
          let done := (done_count p + 1)%Z in
          mkPool (<[idx := Some r]> (results p)) done
                 (if progress_cb
                  then progress p ++ [EvProgress done (Z.of_nat (length servers))]
                  else progress p)
      | (Raise _, _) => p
      end
  end.

Definition unknown (srv : string) : NtpResult :=
  mkNtpResult srv 0 0 false (Some "Unknown").

(** [order] lists the threads in the order in which they finish; thread
    [idx] sees the world [view idx].  With a semaphore of zero permits no
    thread ever enters its body and [join] does not return. *)
Definition ping_servers (servers : list string) (timeout_ms max_workers samples : Z)
    (progress_cb : bool) (view : nat -> World) (order : list nat)
  : Call (list NtpResult * list Event) :=
  let n := length servers in
  if (max_workers <? 0)%Z then Raises "semaphore initial value must be >= 0"
  else if (max_workers =? 0)%Z && negb (n =? 0)%nat then Hangs
  else
    let p := foldl (run_thread servers timeout_ms samples progress_cb view)
                   (mkPool (replicate n None) 0 []) order in
    Returns (imap (fun i r => match r with
                              | Some r => r
                              | None => unknown (servers !!! i)
                              end) (results p),
             progress p).

(** ** app/time_utils.py: [set_system_time_utc_via_helper] *)

(** Where the process was started from: the helper next to [sys.argv[0]],
    the helper next to the package, and [sys.executable]. *)
Record Install : Type := mkInstall {
  argv0_helper : string;
  package_helper : string;
  python_exe : string
}.

Definition elevation_command (python helper : string) (target_epoch_ms : Z)
  : list string :=
  ["powershell"; "-ExecutionPolicy"; "Bypass"; "-Command";
   ("Start-Process -FilePath '" ++ python ++ "' -ArgumentList @('" ++ helper
    ++ "', '--set-utc-epoch-ms', '" ++ str_of_int target_epoch_ms
    ++ "') -Verb RunAs -WindowStyle Hidden")%string].

Definition set_system_time_utc_via_helper (inst : Install) (target_epoch_ms : Z)
  : M (bool * string) :=
  fun w =>
    let w := tell (EvCorrectionRequest target_epoch_ms) w in
    let helper := argv0_helper inst in
    let helper :=
      if negb (isfile w helper)
      then (if isfile w (package_helper inst) then package_helper inst else helper)
      else helper in
    if negb (isfile w helper) then (Ok (false, "Elevated helper not found."), w)
    else
      let cmd := elevation_command (python_exe inst) helper target_epoch_ms in
      let o := run w (run_n w) cmd in
      let w' := advance (run_dperf o) (inject_Z (run_dperf o) / inject_Z 1000000000)
                  (next_run (tell (EvElevate helper target_epoch_ms) w)) in
      match o with
      | RunCompleted _ _ _ _ => (Ok (true, "Elevation invoked (verification pending)."), w')
      | RunTimeout _ => (Ok (false, "Timed out requesting elevation."), w')
      | RunRaises e _ => (Ok (false, ("Failed to invoke elevation: " ++ e)%string), w')
      end.

(** ** elevated_time_setter.py *)

Module Helper.

Record datetime : Type := mkDatetime {
  year : Z; month : Z; day : Z;
  hour : Z; minute : Z; second : Z; microsecond : Z
}.

Record SYSTEMTIME : Type := mkSYSTEMTIME {
  wYear : Z; wMonth : Z; wDayOfWeek : Z; wDay : Z;
  wHour : Z; wMinute : Z; wSecond : Z; wMilliseconds : Z
}.

(** The elevated process as the helper meets it: the [datetime] library and
    the Win32 calls, each answering with its BOOL. *)
Record Platform : Type := mkPlatform {
  utcfromtimestamp : Q -> option datetime;   (* [None]: it raises *)
  weekday : datetime -> Z;
  OpenProcessToken : Z;
  LookupPrivilegeValueW : Z;
  AdjustTokenPrivileges : Z;
  SetSystemTime : SYSTEMTIME -> Z
}.

Definition dt_to_systemtime (os : Platform) (dt : datetime) : SYSTEMTIME :=
  mkSYSTEMTIME (year dt) (month dt) (weekday os dt) (day dt)
               (hour dt) (minute dt) (second dt)
               (Py.int_of_float (inject_Z (microsecond dt) / 1000)).

Definition enable_set_time_privilege (os : Platform) : bool :=
  if (OpenProcessToken os =? 0)%Z then false
  else if (LookupPrivilegeValueW os =? 0)%Z then false
  else if (AdjustTokenPrivileges os =? 0)%Z then false
  else true.

(** [None]: the conversion of the instant raised. *)
Definition set_system_time_utc (os : Platform) (epoch_ms : Z) : option bool :=
  match utcfromtimestamp os (inject_Z epoch_ms / 1000) with
  | None => None
  | Some dt =>
      let st := dt_to_systemtime os dt in
      let _ := enable_set_time_privilege os in
      let ok := SetSystemTime os st in
      Some (negb (ok =? 0)%Z)
  end.

(** The exit status of [main] once [argparse] has read [--set-utc-epoch-ms];
    an exception that nobody catches ends the interpreter with status 1. *)
Definition main (os : Platform) (set_utc_epoch_ms : Z) : Z :=
  match set_system_time_utc os set_utc_epoch_ms with
  | Some true => 0
  | Some false => 2
  | None => 1
  end.

End Helper.

(** ** app/config.py: the settings the engine reads *)

Record Settings : Type := mkSettings {
  auto_sync_enabled : bool;
  check_interval_sec : Z;
  drift_threshold_ms : Z;
  ntp_servers : list string;
  ntp_timeout_ms : Z;
  auto_select_server : bool;
  preferred_server : string
}.

(** ** app/main.py: [NtpSyncManager] *)

(** What [_verify_and_apply_time] puts into its message. *)
Inductive ApplyMessage : Type :=
| WithinThreshold (drift : Q) (threshold_ms : Z)
| CorrectionRequested (drift : Q) (msg : string).

(** How the [try] block of one round of [_run_loop] is left. *)
Inductive TickExit : Type :=
| TickContinue      (* the [continue] after "No server available" *)
| TickDone.         (* falls through to the wait between rounds *)

Section NtpSyncManager.

(** The fields of the manager: [self.cfg.settings], whether the two
    callbacks are set, and where the process is installed. *)
Variable settings : Settings.
Variable on_status_changed : bool.
Variable on_best_server_changed : bool.
Variable inst : Install.

Definition update_state (f : SyncState -> SyncState) : M unit :=
  modify (fun w => set_state (f (state w)) w).

Definition set_last_result (r : NtpResult) (st : SyncState) : SyncState :=
  mkSyncState (last_success_time st) (Some r) (running st) (last_best_server st).

Definition set_last_success_time (t : Q) (st : SyncState) : SyncState :=
  mkSyncState t (last_result st) (running st) (last_best_server st).

Definition set_running (b : bool) (st : SyncState) : SyncState :=
  mkSyncState (last_success_time st) (last_result st) b (last_best_server st).

Definition set_last_best_server (s : string) (st : SyncState) : SyncState :=
  mkSyncState (last_success_time st) (last_result st) (running st) s.

Definition notify_status : M unit :=
  if on_status_changed then modify (tell EvStatusChanged) else ret tt.

(** The [for host in servers] loop of [_choose_server]. *)
Fixpoint choose_loop (servers : list string) (timeout_ms : Z)
    (best : option NtpResult) : M (option NtpResult) :=
  match servers with
  | [] => ret best
  | host :: servers' =>
      do res <- query_ntp host timeout_ms 3 ;;
      if success res
      then match best with
           | None => choose_loop servers' timeout_ms (Some res)
           | Some b =>
               if Py.ltb (rtt_ms res) (rtt_ms b)
               then choose_loop servers' timeout_ms (Some res)
               else choose_loop servers' timeout_ms best
           end
      else choose_loop servers' timeout_ms best
  end.

(** Lines 65-80: the automatic choice and its announcement. *)
Definition choose_auto (servers : list string) (timeout_ms : Z)
  : M (option NtpResult) :=
  do best <- choose_loop servers timeout_ms None ;;
  do last <- get (fun w => last_best_server (state w)) ;;
  match best with
  | Some b =>
      if auto_select_server settings && negb (String.eqb (server b) last)
      then
        do u <- update_state (set_last_best_server (server b)) ;;
        do v <- (if on_best_server_changed
                 then modify (tell (EvBestServerChanged (server b) (rtt_ms b)))
                 else ret tt) ;;
        ret best
      else ret best
  | None => ret best
  end.

Definition _choose_server (timeout_ms : Z) : M (option NtpResult) :=
  let s := settings in
  let servers := ntp_servers s in
  match servers with
  | [] => ret None
  | _ :: _ =>
      if negb (auto_select_server s) && Py.truthy (preferred_server s)
      then
        do res <- query_ntp (preferred_server s) timeout_ms 3 ;;
        if success res then ret (Some res)
        else choose_auto servers timeout_ms
      else choose_auto servers timeout_ms
  end.

Definition _verify_and_apply_time (selected : NtpResult)
  : M (bool * ApplyMessage) :=
  let threshold_ms := drift_threshold_ms settings in
  let drift := offset_ms selected in
  if Py.ltb (Qabs drift) (inject_Z threshold_ms)
  then ret (false, WithinThreshold drift threshold_ms)
  else
    do now_epoch <- get wall ;;
    let target_epoch_ms := Py.int_of_float ((now_epoch + drift / 1000) * 1000)%Q in
    do r <- set_system_time_utc_via_helper inst target_epoch_ms ;;
    let '(ok, msg) := r in
    ret (ok, CorrectionRequested drift msg).

Definition none_result : NtpResult :=
  mkNtpResult "(none)" 0 0 false (Some "No server available").

Definition error_result (e : string) : NtpResult :=
  mkNtpResult "(error)" 0 0 false (Some e).

Definition mark_success : M unit :=
  do now <- get wall ;;
  update_state (set_last_success_time now).

(** Lines 103-107: no server could be selected. *)
Definition on_no_server : M TickExit :=
  do u <- update_state (set_last_result none_result) ;;
  do v <- notify_status ;;
  do x <- sleep (inject_Z (check_interval_sec settings)) ;;
  ret TickContinue.

(** Lines 109-122: the selected sample is published, the drift is decided
    on and the success is booked. *)
Definition on_selected (selected : NtpResult) : M TickExit :=
  do u <- update_state (set_last_result selected) ;;
  do v <- notify_status ;;
  do r <- _verify_and_apply_time selected ;;
  let '(changed, message) := r in
  if changed
  then
    do x <- sleep 3 ;;
    do recheck <- query_ntp (server selected) (ntp_timeout_ms settings) 2 ;;
    if success recheck
       && Py.ltb (Qabs (offset_ms recheck)) (inject_Z (drift_threshold_ms settings))
    then do y <- mark_success ;; ret TickDone
    else do y <- mark_success ;; ret TickDone
  else do y <- mark_success ;; ret TickDone.

(** Lines 101-122: the body of the [try]. *)
Definition tick_try : M TickExit :=
  do selected <- _choose_server (ntp_timeout_ms settings) ;;
  match selected with
  | None => on_no_server
  | Some selected => on_selected selected
  end.

(** Lines 100-125: the [try] with its [except Exception as e]. *)
Definition tick : M TickExit :=
  try_except tick_try
    (fun e => do u <- update_state (set_last_result (error_result e)) ;;
              ret TickDone).

(** Lines 132-134: the wait between rounds; [None] when [fuel] runs out. *)
Fixpoint wait_loop (fuel : nat) (interval : Z) (slept : Q) (w : World)
  : option World :=
  match fuel with
  | O => None
  | S fuel' =>
      if Py.ltb slept (inject_Z interval)
      then
        match poll_stop w with
        | (Ok false, w1) =>
            match sleep (1 # 2) w1 with
            | (Ok _, w2) => wait_loop fuel' interval (slept + (1 # 2))%Q w2
            | (Raise _, w2) => Some w2
            end
        | (_, w1) => Some w1
        end
      else Some w
  end.

(** Lines 127-134, with fuel enough for the whole interval. *)
Definition after_tick (w : World) : option World :=
  match notify_status w with
  | (_, w1) =>
      let interval := Z.max 15 (check_interval_sec settings) in
      wait_loop (S (Z.to_nat (2 * interval))) interval 0 w1
  end.

(** Lines 95-134: the [while not self.state.stop_requested] loop; [None]
    when [fuel] rounds were not enough to see it end. *)
Fixpoint rounds (fuel : nat) (w : World) : option World :=
  match fuel with
  | O => None
  | S fuel' =>
      match poll_stop w with
      | (Ok false, w0) =>
          if negb (auto_sync_enabled settings)
          then match sleep 1 w0 with (_, w1) => rounds fuel' w1 end
          else
            match tick w0 with
            | (Ok TickContinue, w1) => rounds fuel' w1
            | (_, w1) =>
                match after_tick w1 with
                | Some w2 => rounds fuel' w2
                | None => None
                end
            end
      | (_, w0) => Some w0
      end
  end.

(** [_run_loop]: [running] is set, the rounds run, and the [finally] clears
    [running]. *)
Definition _run_loop (fuel : nat) (w : World) : option World :=
  let w := set_state (set_running true (state w)) w in
  match rounds fuel w with
  | Some w' => Some (set_state (set_running false (state w')) w')
  | None => None
  end.

End NtpSyncManager.

(** * The rest of the engine's code *)

(** ** app/ntp_client.py: the request of [query_ntp_once] *)

(** Lines 41-52: the 48-byte client packet stamped with the wall-clock
    instant [t1_sys]; [None] is the [struct.error] of [pack_into]. *)
Definition request_packet (t1_sys : Q) : option (list Byte.byte) :=
  let first_byte := Z.lor (Z.shiftl 0 6) (Z.lor (Z.shiftl 4 3) 3) in
  let packet := Struct.byte_of_Z first_byte :: replicate 47 Byte.x00 in
  let '(t1_sec, t1_frac) := _timestamp_to_parts (_system_to_ntp_time t1_sys) in
  match Struct.pack_into_I packet 40 t1_sec with
  | None => None
  | Some packet => Struct.pack_into_I packet 44 t1_frac
  end.

(** The world [w] with another network. *)
Definition with_udp (net : nat -> string -> Z -> list Byte.byte -> UdpOutcome)
    (w : World) : World :=
  mkWorld (wall w) (perf_ns w) net (udp_n w) (run w) (run_n w)
          (isfile w) (stop_at w) (state w) (log w).

(** ** app/main.py: what the settings dialog shows of a ping (lines 388-394) *)

(** The ["method"] of the payload entry built for a sample. *)
Definition payload_method (r : NtpResult) : string :=
  if success r then "NTP"
  else if Py.ltb 0 (rtt_ms r) then "ICMP"
  else "fail".

(** The ["rtt"] of that entry; [None] is Python's [None]. *)
Definition payload_rtt (r : NtpResult) : option Q :=
  if success r then Some (rtt_ms r)
  else if Py.ltb 0 (rtt_ms r) then Some (rtt_ms r)
  else None.

(** An entry of the payload: its ["server"], ["rtt"] and ["method"]. *)
Definition payload_entry (r : NtpResult) : string * option Q * string :=
  (server r, payload_rtt r, payload_method r).

(** Lines 379-394 of [SettingsDialog._ping_servers]: the work done for the
    servers read from the list, up to the payload that is emitted, with what
    the progress signal was given. *)
Definition _ping_servers (servers : list string) (view : nat -> World)
    (order : list nat) : Call (list Event * list (string * option Q * string)) :=
  match servers with
  | [] => Returns ([], [])
  | _ :: _ =>
      let max_workers := Z.min 8 (Z.max 1 (Z.of_nat (length servers))) in
      match ping_servers servers 1000 max_workers 5 true view order with
      | Returns (results, progress) => Returns (progress, map payload_entry results)
      | Raises e => Raises e
      | Hangs => Hangs
      end
  end.

(** ** app/main.py: the tray's "Sync now" and its connection status *)

(** What [sync_now] hands to [_notify] at its end. *)
Inductive Notice : Type :=
| NoNotice                                  (* the [return] of line 674 *)
| NoticeApplied (msg : ApplyMessage)        (* [self._notify(msg)] *)
| NoticeFailed (e : string).                (* [self._notify(f"Sync failed: {e}", ...)] *)

(** Lines 668-686: the body of [work], run by the thread that [sync_now]
    starts.  The manager it calls was built with both of its callbacks
    (lines 494-499), and [self._on_status_changed()] is the status callback
    itself. *)
Definition sync_now (settings : Settings) (inst : Install) : M Notice :=
  try_except
    (do res <- _choose_server settings true (ntp_timeout_ms settings) ;;
     match res with
     | None =>
         do u <- update_state
                   (set_last_result
                      (mkNtpResult "(none)" 0 0 false (Some "All servers failed"))) ;;
         do v <- modify (tell EvStatusChanged) ;;
         ret NoNotice
     | Some res =>
         do u <- update_state (set_last_result res) ;;
         do v <- modify (tell EvStatusChanged) ;;
         do r <- _verify_and_apply_time settings inst res ;;
         let '(changed, msg) := r in
         do x <- (if changed then sleep 2 else ret tt) ;;
         do y <- mark_success ;;
         do z <- modify (tell EvStatusChanged) ;;
         ret (NoticeApplied msg)
     end)
    (fun e =>
       do u <- update_state (set_last_result (error_result e)) ;;
       do v <- modify (tell EvStatusChanged) ;;
       ret (NoticeFailed e)).

(** Lines 617-621: [_is_connected], with [ttl] the
    [connected_status_ttl_sec] of the settings. *)
Definition _is_connected (ttl : Z) (w : World) : bool :=
  if negb (Py.ltb 0 (last_success_time (state w))) then false
  else Py.ltb (wall w - last_success_time (state w)) (inject_Z ttl).

(** ** Python's [str] methods and [int()], on strings of ASCII characters *)

Module Str.

(** [s.startswith(p)] *)
Definition startswith (s p : string) : bool := String.prefix p s.

(** [s.index(c)] for a character [c]; [None] is its [ValueError], and
    [c in s] is [index c s] being [Some]. *)
Fixpoint index (c : ascii) (s : string) : option nat :=
  match s with
  | EmptyString => None
  | String a s' => if Ascii.eqb a c then Some 0%nat else option_map S (index c s')
  end.

Definition contains (c : ascii) (s : string) : bool :=
  match index c s with Some _ => true | None => false end.

(** [s[n:]] and [s[:n]] *)
Fixpoint drop (n : nat) (s : string) : string :=
  match n, s with
  | O, _ => s
  | S n', String _ s' => drop n' s'
  | S _, EmptyString => EmptyString
  end.

Fixpoint take (n : nat) (s : string) : string :=
  match n, s with
  | S n', String a s' => String a (take n' s')
  | _, _ => EmptyString
  end.

(** [s[lo:hi]] *)
Definition slice (lo hi : nat) (s : string) : string := take (hi - lo) (drop lo s).

(** [s.split(c)] *)
Fixpoint split (c : ascii) (s : string) : list string :=
  match s with
  | EmptyString => [EmptyString]
  | String a s' =>
      if Ascii.eqb a c then EmptyString :: split c s'
      else match split c s' with
           | p :: ps => String a p :: ps
           | [] => [String a EmptyString]
           end
  end.

(** [s.split(c, 1)] when [c] is in [s]: what is before the first [c] and
    what is after it. *)
Fixpoint split_once (c : ascii) (s : string) : option (string * string) :=
  match s with
  | EmptyString => None
  | String a s' =>
      if Ascii.eqb a c then Some (EmptyString, s')
      else match split_once c s' with
           | Some (p, q) => Some (String a p, q)
           | None => None
           end
  end.

(** Stripping the characters that satisfy [p] from both ends. *)
Fixpoint lstrip (p : ascii -> bool) (s : string) : string :=
  match s with
  | String a s' => if p a then lstrip p s' else s
  | EmptyString => EmptyString
  end.

Fixpoint rstrip (p : ascii -> bool) (s : string) : string :=
  match s with
  | String a s' =>
      match rstrip p s' with
      | EmptyString => if p a then EmptyString else String a EmptyString
      | r => String a r
      end
  | EmptyString => EmptyString
  end.

(** [s.strip()]: the whitespace of [str] is that of [\s]. *)
Definition strip (s : string) : string := rstrip Re.is_space (lstrip Re.is_space s).

(** [s.upper()] *)
Definition upper_char (c : ascii) : ascii :=
  let n := nat_of_ascii c in
  if ((97 <=? n) && (n <=? 122))%nat then ascii_of_nat (n - 32) else c.

Fixpoint upper (s : string) : string :=
  match s with
  | String a s' => String (upper_char a) (upper s')
  | EmptyString => EmptyString
  end.

(** The digits of [int()]: one digit at least, single underscores between
    digits only. *)
Fixpoint int_digits (acc : Z) (after_digit : bool) (s : string) : option Z :=
  match s with
  | EmptyString => if after_digit then Some acc else None
  | String c s' =>
      if Re.is_digit c
      then int_digits (acc * 10 + Z.of_nat (nat_of_ascii c - 48)) true s'
      else if Ascii.eqb c "_" && after_digit then int_digits acc false s'
      else None
  end.

(** The whitespace that [int()] skips at both ends: tab to carriage return,
    and the space. *)
Definition is_int_space (c : ascii) : bool :=
  let n := nat_of_ascii c in
  ((9 <=? n) && (n <=? 13) || (n =? 32))%nat.

(** [int(s)]; [None] is its [ValueError]. *)
Definition int (s : string) : option Z :=
  match rstrip is_int_space (lstrip is_int_space s) with
  | String "+" r => int_digits 0 false r
  | String "-" r => option_map Z.opp (int_digits 0 false r)
  | r => int_digits 0 false r
  end.

(** [f"{n:02d}"] *)
Definition format_02d (n : Z) : string :=
  let s := str_of_int n in
  if (String.length s <? 2)%nat then ("0" ++ s)%string else s.

(** [sorted(keys)[0]], the least of the strings [keys]. *)
Definition least (keys : list string) : option string :=
  foldr (fun k acc =>
           match acc with
           | Some m => if String.leb k m then Some k else Some m
           | None => Some k
           end) None keys.

End Str.

(** ** app/time_utils.py: UTC offsets and time zones *)

Definition _format_utc_offset (minutes : Z) (with_space : bool) : string :=
  let sign := if (0 <=? minutes)%Z then "+" else "-" in
  let m := Z.abs minutes in
  let hh := (m / 60)%Z in
  let mm := (m mod 60)%Z in
  if with_space
  then ("UTC " ++ sign ++ Str.format_02d hh ++ ":" ++ Str.format_02d mm)%string
  else ("UTC" ++ sign ++ Str.format_02d hh ++ ":" ++ Str.format_02d mm)%string.

(** [None] is Python's [None], returned by a guard or by the [except]. *)
Definition _parse_display_utc_prefix (display : string) : option Z :=
  if negb (Str.startswith display "(UTC") || negb (Str.contains ")" display)
  then None
  else
    match Str.index ")" display with
    | None => None
    | Some close =>
        let prefix := Str.slice 1 close display in
        if negb (Str.startswith prefix "UTC") then None
        else
          match Str.drop 3 prefix with
          | EmptyString => None                      (* [s[0]]: IndexError *)
          | String c s =>
              let sign := if Ascii.eqb c "+" then 1%Z else (-1)%Z in
              let '(hh, mm) :=
                match Str.split_once ":" s with
                | Some parts => parts
                | None =>
                    (Str.take 2 s,
                     if (4 <=? String.length s)%nat then Str.slice 2 4 s else "00")
                end in
              match Str.int hh, Str.int mm with
              | Some h, Some m => Some (sign * (h * 60 + m))%Z
              | _, _ => None
              end
          end
    end.

(** An entry of [_enum_windows_time_zones_registry]. *)
Record Zone : Type := mkZone {
  key : string;
  display : string;
  offset_minutes : Z;
  has_dst : bool
}.

(** [_best_zone_for_offset], over the zones that the registry lists. *)
Definition _best_zone_for_offset (zones : list Zone) (offset : Z) : option string :=
  let candidates_utc :=
    List.filter (fun z => negb (has_dst z) && (offset_minutes z =? offset)%Z
                          && Str.startswith (Str.upper (key z)) "UTC") zones in
  match candidates_utc with
  | _ :: _ => Str.least (map key candidates_utc)
  | [] =>
      let candidates :=
        List.filter (fun z => negb (has_dst z) && (offset_minutes z =? offset)%Z) zones in
      match candidates with
      | _ :: _ => Str.least (map key candidates)
      | [] =>
          let any_candidates :=
            List.filter (fun z => (offset_minutes z =? offset)%Z) zones in
          match any_candidates with
          | _ :: _ => Str.least (map key any_candidates)
          | [] => None
          end
      end
  end.

(** How [set_timezone_by_utc_label] ends: with a refusal and its message,
    or by handing a key to [set_windows_timezone] and returning its answer. *)
Inductive LabelOutcome : Type :=
| Refused (msg : string)
| SetZone (tz_standard_name : string).

(** Lines 299-303: the minutes of a label; [None] is the exception that the
    [except] catches. *)
Definition label_minutes (label : string) : option Z :=
  match Str.strip (Str.drop 3 label) with
  | EmptyString => None                              (* [s[0]]: IndexError *)
  | String c s =>
      let sign := if Ascii.eqb c "+" then 1%Z else (-1)%Z in
      match Str.split ":" s with
      | [hh; mm] =>
          match Str.int hh, Str.int mm with
          | Some h, Some m => Some (sign * (h * 60 + m))%Z
          | _, _ => None
          end
      | _ => None                                    (* unpacking: ValueError *)
      end
  end.

Definition set_timezone_by_utc_label (zones : list Zone) (label : string)
  : LabelOutcome :=
  if negb (Str.startswith (Str.upper label) "UTC") then Refused "Invalid UTC label."
  else
    match label_minutes label with
    | None => Refused "Invalid UTC label format."
    | Some minutes =>
        match _best_zone_for_offset zones minutes with
        | Some key =>
            if Py.truthy key then SetZone key
            else Refused ("No timezone found for UTC" ++ Str.drop 3 label ++ ".")
        | None => Refused ("No timezone found for UTC" ++ Str.drop 3 label ++ ".")
        end
    end.

(** ** app/time_utils.py: the zones of the registry *)

(** [struct] formats that begin with [<]: little-endian, no padding. *)
Module StructLE.

(** Format [H]: two bytes, least significant first. *)
Definition le16 (b0 b1 : Byte.byte) : Z :=
  Z.lor (Struct.u8 b0) (Z.shiftl (Struct.u8 b1) 8).

(** Format [l]: four bytes, least significant first, two's complement. *)
Definition le32s (b0 b1 b2 b3 : Byte.byte) : Z :=
  let v := Z.lor (Struct.u8 b0)
             (Z.lor (Z.shiftl (Struct.u8 b1) 8)
                (Z.lor (Z.shiftl (Struct.u8 b2) 16) (Z.shiftl (Struct.u8 b3) 24))) in
  if (v <? 2 ^ 31)%Z then v else (v - 2 ^ 32)%Z.

(** [k] consecutive [l] fields, and the bytes that follow them. *)
Fixpoint unpack_l (k : nat) (data : list Byte.byte)
  : option (list Z * list Byte.byte) :=
  match k with
  | O => Some ([], data)
  | S k' =>
      match data with
      | b0 :: b1 :: b2 :: b3 :: rest =>
          match unpack_l k' rest with
          | Some (vs, rest') => Some (le32s b0 b1 b2 b3 :: vs, rest')
          | None => None
          end
      | _ => None
      end
  end.

(** [k] consecutive [H] fields, and the bytes that follow them. *)
Fixpoint unpack_H (k : nat) (data : list Byte.byte)
  : option (list Z * list Byte.byte) :=
  match k with
  | O => Some ([], data)
  | S k' =>
      match data with
      | b0 :: b1 :: rest =>
          match unpack_H k' rest with
          | Some (vs, rest') => Some (le16 b0 b1 :: vs, rest')
          | None => None
          end
      | _ => None
      end
  end.

(** [struct.unpack("<3l8H8H", data)]: 19 integers, or [None]
    ([struct.error]) when [data] is not exactly 44 bytes long. *)
Definition unpack_3l8H8H (data : list Byte.byte) : option (list Z) :=
  match unpack_l 3 data with
  | Some (ls, rest) =>
      match unpack_H 16 rest with
      | Some (hs, []) => Some (ls ++ hs)
      | _ => None
      end
  | None => None
  end.

End StructLE.

(** What the registry holds under one time-zone key: its ["Display"] and
    ["TZI"] values, [None] where [QueryValueEx] raises. *)
Record ZoneKey : Type := mkZoneKey {
  Display : option string;
  TZI : option (list Byte.byte)
}.

(** Lines 116-137: the entry built for the key [key_name]. *)
Definition zone_entry (key_name : string) (k : ZoneKey) : Zone :=
  let display := match Display k with Some d => d | None => "" end in
  let unpacked :=
    match TZI k with
    | Some tzi_bytes => StructLE.unpack_3l8H8H tzi_bytes
    | None => None
    end in
  match unpacked with
  | Some (bias :: std_bias :: dlt_bias :: rest) =>
      let daylight_month := nth 8 rest 0%Z in
      let standard_month := nth 0 rest 0%Z in
      let has_dst := negb (daylight_month =? 0)%Z || negb (standard_month =? 0)%Z in
      mkZone key_name display (- bias) has_dst
  | _ =>
      let offset_minutes :=
        match _parse_display_utc_prefix display with
        | Some m => if (m =? 0)%Z then 0%Z else m
        | None => 0%Z
        end in
      mkZone key_name display offset_minutes false
  end.

(** [_enum_windows_time_zones_registry]: [registry] is what is found under
    the "Time Zones" key, in the order of [EnumKey]; it is [None] when that
    key cannot be opened, and a subkey that cannot be opened is [None]. *)
Definition _enum_windows_time_zones_registry (is_windows : bool)
    (registry : option (list (string * option ZoneKey))) : list Zone :=
  if negb is_windows then []
  else
    match registry with
    | None => []
    | Some keys =>
        omap (fun '(key_name, k) =>
                match k with
                | Some k => Some (zone_entry key_name k)
                | None => None
                end) keys
    end.

(** ** app/time_utils.py: the zones offered in the time-zone dialog *)

Definition WIN_TO_IANA : list (string * string) :=
  [("UTC", "Etc/UTC"); ("Iran Standard Time", "Asia/Tehran")].

(** [WIN_TO_IANA.get(key)] *)
Definition windows_key_to_iana (key : string) : option string :=
  match List.find (fun p => String.eqb (fst p) key) WIN_TO_IANA with
  | Some p => Some (snd p)
  | None => None
  end.

(** [s.replace("_", " ")] *)
Fixpoint underscores_to_spaces (s : string) : string :=
  match s with
  | String a s' =>
      String (if Ascii.eqb a "_" then " "%char else a) (underscores_to_spaces s')
  | EmptyString => EmptyString
  end.

Definition iana_city_region (iana : string) : string * string :=
  match Str.split_once "/" iana with
  | Some (area, city) => (underscores_to_spaces city, area)
  | None => (iana, "")
  end.

(** Lines 164-175: the label of the zone [z]. *)
Definition choice_label (z : Zone) : string :=
  let label_off := _format_utc_offset (offset_minutes z) true in
  let from_display :=
    let disp := display z in
    let city_part :=
      match Str.split_once ")" disp with
      | Some (_, after) => Str.strip after
      | None => disp
      end in
    ("(UTC " ++ Str.drop 4 label_off ++ ") " ++ city_part)%string in
  match windows_key_to_iana (key z) with
  | Some iana =>
      if Py.truthy iana
      then
        let '(city, area) := iana_city_region iana in
        if Py.truthy area
        then ("(UTC " ++ Str.drop 4 label_off ++ ") " ++ city ++ "/" ++ area)%string
        else ("(UTC " ++ Str.drop 4 label_off ++ ") " ++ city)%string
      else from_display
  | None => from_display
  end.

(** Lines 163-178: the [for z in zones] loop, [seen] being the keys met. *)
Fixpoint choice_items (zones : list Zone) (seen : gset string)
  : list (string * string) :=
  match zones with
  | [] => []
  | z :: zones' =>
      if decide (key z ∈ seen) then choice_items zones' seen
      else (choice_label z, key z) :: choice_items zones' ({[key z]} ∪ seen)
  end.

(** Lines 179-183: [offset_for_key]. *)
Fixpoint offset_for_key (zones : list Zone) (k : string) : Z :=
  match zones with
  | [] => 0
  | z :: zones' => if String.eqb (key z) k then offset_minutes z else offset_for_key zones' k
  end.

(** [a <= b] on the sort keys [(offset_for_key(x[1]), x[0])] of two items. *)
Definition choice_le (zones : list Zone) (a b : string * string) : bool :=
  let oa := offset_for_key zones (snd a) in
  let ob := offset_for_key zones (snd b) in
  (oa <? ob)%Z || ((oa =? ob)%Z && String.leb (fst a) (fst b)).

(** [list.sort(key=...)], which is stable: an item goes in front of the
    first item of the sorted rest that is not below it. *)
Fixpoint insert_by {A} (le : A -> A -> bool) (x : A) (l : list A) : list A :=
  match l with
  | [] => [x]
  | y :: l' => if le x y then x :: l else y :: insert_by le x l'
  end.

Fixpoint sort_by {A} (le : A -> A -> bool) (l : list A) : list A :=
  match l with
  | [] => []
  | x :: l' => insert_by le x (sort_by le l')
  end.

(** [list_timezone_choices_labels], over the zones of the registry. *)
Definition list_timezone_choices_labels (zones : list Zone)
  : list (string * string) :=
  sort_by (choice_le zones) (choice_items zones ∅).

(** ** app/time_utils.py: [register_startup] *)

(** The value written for the application: the path of the executable in
    double quotes, and the [--startup] flag. *)
Definition startup_value (exe_path : string) : string :=
  String "034" (exe_path ++ String "034" " --startup").

(** [run_key] is what opening the "Run" key of the current user gives: the
    text of the exception it raises, or the values found under the key, which
    the call then changes.  The answer comes with the values it leaves. *)
Definition register_startup (is_windows winreg_available : bool)
    (run_key : string + gmap string string)
    (app_name exe_path : string) (enable : bool)
  : (bool * string) * (string + gmap string string) :=
  if negb is_windows
  then ((false, "Startup registration is only available on Windows."), run_key)
  else if negb winreg_available then ((false, "winreg not available."), run_key)
  else
    match run_key with
    | inl e => ((false, ("Failed to update startup: " ++ e)%string), run_key)
    | inr values =>
        if enable
        then ((true, "Startup enabled."),
              inr (<[app_name := startup_value exe_path]> values))
        else
          (* [DeleteValue]; its [FileNotFoundError] is passed over *)
          ((true, "Startup disabled."), inr (delete app_name values))
    end.

(** ** app/config.py: [Config.load] and [Config.save] *)

(** The fields of the [Settings] dataclass. *)
Definition SETTINGS_FIELDS : list string :=
  ["auto_sync_enabled"; "check_interval_sec"; "drift_threshold_ms"; "ntp_servers";
   "ntp_timeout_ms"; "auto_select_server"; "preferred_server"; "launch_at_startup";
   "allow_timezone_from_ip"; "allow_region_from_ip"; "show_welcome_on_launch";
   "notifications_enabled"; "log_level"; "connected_status_ttl_sec";
   "last_ping_results"].

Section Config.

(** The values that JSON holds. *)
Variable Json : Type.

(** [load]: a settings object is the dict that [asdict] makes of it;
    [defaults] is [asdict(Settings())].  [file] is [None] when there is no
    file at the path; what it holds is [None] when reading it raises, and
    otherwise the dict that [merged.update(data)] takes.  Building the
    [Settings] from the keys of [merged] raises on a key that is not a
    field, and the [except] leaves the settings as they are. *)
Definition load (defaults settings : gmap string Json)
    (file : option (option (gmap string Json))) : gmap string Json :=
  match file with
  | Some (Some data) =>
      let merged := data ∪ defaults in
      if decide (dom merged ⊆ list_to_set SETTINGS_FIELDS) then merged else settings
  | _ => settings
  end.

(** [save]: the file then holds [asdict(self.settings)], unless it cannot
    be opened for writing. *)
Definition save (settings : gmap string Json) (writable : bool)
    (file : option (option (gmap string Json))) : option (option (gmap string Json)) :=
  if writable then Some (Some settings) else file.

End Config.

(** * Vocabulary of the specification *)

(** The statistical median of a batch of values: with the values put in
    ascending order, the middle one when their number is odd, and the mean
    of the two middle ones when it is even. *)
Definition is_median (m : Q) (l : list Q) : Prop :=
  exists s, Permutation l s /\ StronglySorted Qle s /\
    let n := length s in
    (Nat.Odd n /\ s !! (n / 2)%nat = Some m) \/
    (Nat.Even n /\
     exists a b, s !! (n / 2 - 1)%nat = Some a /\ s !! (n / 2)%nat = Some b /\
                 (m == (a + b) / 2)%Q).

(** How many values of [l] lie strictly below, and strictly above, [m]. *)
Definition count_below (m : Q) (l : list Q) : nat :=
  length (List.filter (fun x => Py.ltb x m) l).
Definition count_above (m : Q) (l : list Q) : nat :=
  length (List.filter (fun x => Py.ltb m x) l).

(** The invariant of a sample: a round trip that is not negative, and no
    error on a success.  ([offset_ms] is a number by its type.) *)
Definition sample_ok (r : NtpResult) : Prop :=
  (0 <= rtt_ms r)%Q /\ (success r = false \/ error r = None).

(** The samples of [k] transactions in a row with one server. *)
Fixpoint probes (k : nat) (srv : string) (timeout_ms : Z) : M (list NtpResult) :=
  match k with
  | O => ret []
  | S k' =>
      do r <- query_ntp_once srv timeout_ms ;;
      do rs <- probes k' srv timeout_ms ;;
      ret (r :: rs)
  end.

(** The error of the last failed sample of a run, [init] when none failed. *)
Definition last_error (init : option string) (rs : list NtpResult) : option string :=
  foldl (fun acc r => if success r then acc else error r) init rs.

(** A computation that only talks to the network and lets time pass: the
    shared state, the log, the file system and the processes are as before. *)
Definition quiet (w w' : World) : Prop :=
  state w' = state w /\ log w' = log w /\ isfile w' = isfile w /\
  run w' = run w /\ run_n w' = run_n w /\ udp w' = udp w /\ stop_at w' = stop_at w.

(** What thread [i] leaves in its slot once it has finished: the sample of
    its [worker], or nothing when the worker raised. *)
Definition slot_of (servers : list string) (timeout_ms samples : Z)
    (view : nat -> World) (i : nat) : option NtpResult :=
  match servers !! i with
  | Some srv =>
      match worker srv timeout_ms samples (view i) with
      | (Ok r, _) => Some r
      | (Raise _, _) => None
      end
  | None => None
  end.

(** The correction requests of a stretch of the log, in order. *)
Fixpoint requests (l : list Event) : list Z :=
  match l with
  | [] => []
  | EvCorrectionRequest target :: l' => target :: requests l'
  | _ :: l' => requests l'
  end.

(** The samples of one run of the Aggregator (three transactions) with each
    server, in the order of the list. *)
Fixpoint probe_each (servers : list string) (timeout_ms : Z) : M (list NtpResult) :=
  match servers with
  | [] => ret []
  | host :: servers' =>
      do r <- query_ntp host timeout_ms 3 ;;
      do rs <- probe_each servers' timeout_ms ;;
      ret (r :: rs)
  end.

(** One round of the [for host in servers] loop, on the sample it got. *)
Definition keep_best (best : option NtpResult) (res : NtpResult) : option NtpResult :=
  if success res
  then match best with
       | None => Some res
       | Some b => if Py.ltb (rtt_ms res) (rtt_ms b) then Some res else best
       end
  else best.

(** [best] is the choice among the samples [rs]: nothing when none is a
    success; otherwise a success whose round trip no success undercuts, and
    the first such (every success before it has a longer round trip). *)
Definition lowest_rtt_first (rs : list NtpResult) (best : option NtpResult) : Prop :=
  match best with
  | None => Forall (fun r => success r = false) rs
  | Some b =>
      exists i, rs !! i = Some b /\ success b = true /\
        (forall j r, rs !! j = Some r -> success r = true -> (rtt_ms b <= rtt_ms r)%Q) /\
        (forall j r, (j < i)%nat -> rs !! j = Some r -> success r = true ->
                     (rtt_ms b < rtt_ms r)%Q)
  end.

(** The success of a round is booked: [last_success_time] is the present
    wall-clock time and the sample published is [selected]. *)
Definition success_booked (selected : NtpResult) (w : World) : Prop :=
  last_success_time (state w) = wall w /\ last_result (state w) = Some selected.

(** The log of a wait made of half-second sleeps, the stop flag being read
    before each of them: it ends when the time is up or when the flag is
    seen set. *)
Inductive polled_wait : list Event -> Prop :=
| polled_over : polled_wait []
| polled_stop : polled_wait [EvStopPolled true]
| polled_sleep (l : list Event) :
    polled_wait l -> polled_wait (EvStopPolled false :: EvSleep (1 # 2) :: l).

(** Whether thread [i] runs to its end (its worker does not raise). *)
Definition completes (servers : list string) (timeout_ms samples : Z)
    (view : nat -> World) (i : nat) : bool :=
  match slot_of servers timeout_ms samples view i with
  | Some _ => true
  | None => false
  end.

(** What the progress callback is told when [m] threads end one after the
    other with [done] already counted: [done + 1], ..., [done + m] of [total]. *)
Definition progress_reports (done : Z) (m : nat) (total : Z) : list Event :=
  map (fun k => EvProgress (done + Z.of_nat k) total) (seq 1 m).

(** How a sample that [worker] stored came about. *)
Definition stored_by_worker (r : NtpResult) : Prop :=
  success r = true \/
  (success r = false /\ error r = Some "ICMP fallback" /\ (0 <= rtt_ms r)%Q) \/
  (success r = false /\ rtt_ms r = 0%Q).

(** Every character of [s] satisfies [p]. *)
Fixpoint all_chars (p : ascii -> bool) (s : string) : bool :=
  match s with
  | String a s' => p a && all_chars p s'
  | EmptyString => true
  end.

(** The class of a zone in the choice of [_best_zone_for_offset]: 0 for a
    zone without daylight saving whose key begins with "UTC", 1 for another
    zone without daylight saving, 2 for a zone with daylight saving. *)
Definition zone_rank (z : Zone) : nat :=
  if has_dst z then 2
  else if Str.startswith (Str.upper (key z)) "UTC" then 0 else 1.

(** * Concrete runs

    Worlds and settings on which the properties below are exercised. *)

Module Scenario.

Definition bytes_of (v : Z) : list Byte.byte := default [] (Struct.pack_I v).

(** A 48-byte reply: [orig], [recv] and [xmit] are the seconds of its
    originate (bytes 24-27), receive (bytes 32-35) and transmit (bytes
    40-43) timestamps; [frac] is the fraction of all three. *)
Definition reply (orig recv xmit frac : Z) : list Byte.byte :=
  replicate 24 Byte.x00
  ++ bytes_of orig ++ bytes_of frac
  ++ bytes_of recv ++ bytes_of frac
  ++ bytes_of xmit ++ bytes_of frac.

(** A server reply whose three timestamps are one second apart. *)
Definition distinct_reply : list Byte.byte :=
  reply 3900000000 3900000001 3900000002 0.

Definition idle_state : SyncState := mkSyncState 0 None false "".

Definition no_process : nat -> list string -> RunOutcome :=
  fun _ _ => RunRaises "[WinError 2] The system cannot find the file specified" 0.

(** A world at wall-clock instant [t] whose network answers through [net]. *)
Definition world_at (t : Q)
    (net : nat -> string -> Z -> list Byte.byte -> UdpOutcome) : World :=
  mkWorld t 0 net 0 no_process 0 (fun _ => false) None idle_state [].

(** Every datagram sent is answered by [distinct_reply] after 20 ms. *)
Definition distinct_world : World :=
  world_at 1691011200 (fun _ _ _ _ => UdpReply distinct_reply 20000000 (1 # 50)).

(** The first exchange times out; the second is answered after 20 ms and
    the later ones after 30 ms, by a reply whose originate and receive
    timestamps are both 1 691 011 201.25 s. *)
Definition flaky_world : World :=
  world_at 1691011200
    (fun n _ _ _ =>
       match n with
       | O => UdpRaises "timed out" 800000000 (4 # 5)
       | 1%nat => UdpReply (reply 3900000001 3900000001 3900000002 1073741824)
                           20000000 (1 # 50)
       | _ => UdpReply (reply 3900000001 3900000001 3900000002 1073741824)
                       30000000 (3 # 100)
       end).

Definition flaky_samples : list NtpResult :=
  match fst (probes 3 "time.example" 800 flaky_world) with
  | Ok rs => rs
  | Raise _ => []
  end.

Definition flaky_after : World := snd (probes 3 "time.example" 800 flaky_world).

(** Every exchange raises an exception whose text is empty. *)
Definition mute_world : World :=
  world_at 1691011200 (fun _ _ _ _ => UdpRaises "" 0 0).

(** Three servers seen by three threads: the first is answered, the second
    times out and its ping is not available, the third is answered. *)
Definition pool_servers : list string := ["a.example"; "b.example"; "c.example"].

Definition pool_view (i : nat) : World :=
  match i with
  | 1%nat => world_at 1691011200 (fun _ _ _ _ => UdpRaises "timed out" 800000000 (4 # 5))
  | _ => flaky_world
  end.

(** No time server answers; [ping] reports replies of 14 ms, 30 ms and
    under 1 ms. *)
Definition ping_output : string :=
  "Reply from 192.0.2.1: bytes=32 time=14ms TTL=57 Reply from 192.0.2.1: bytes=32 time=30ms TTL=57 Reply from 192.0.2.1: bytes=32 time<1ms TTL=57".

Definition ping_world : World :=
  mkWorld 1691011200 0
    (fun _ _ _ _ => UdpRaises "timed out" 800000000 (4 # 5)) 0
    (fun _ _ => RunCompleted 0 ping_output "" 2100000000) 0
    (fun _ => false) None idle_state [].

Definition ping_ntp_result : NtpResult :=
  mkNtpResult "time.example" 0 0 false (Some "timed out").

Definition ping_world_after_ntp : World :=
  snd (query_ntp "time.example" 800 1 ping_world).

(** An installation whose helper lies next to the package, where the
    elevation prompt is answered and PowerShell ends with status 1. *)
Definition install : Install :=
  mkInstall "C:\Apps\TimeGuardian\elevated_time_setter.py"
            "C:\Apps\TimeGuardian\src\elevated_time_setter.py"
            "C:\Python312\python.exe".

Definition elevating_world : World :=
  mkWorld 1691011200 0
    (fun _ _ _ _ => UdpRaises "timed out" 800000000 (4 # 5)) 0
    (fun _ _ => RunCompleted 1 "" "Start-Process : The operation was canceled by the user." 1500000000) 0
    (fun f => String.eqb f "C:\Apps\TimeGuardian\src\elevated_time_setter.py")
    None idle_state [].

(** An elevated process in which [SetSystemTime] succeeds exactly for the
    years from 1601 to 30827. *)
Definition platform : Helper.Platform :=
  Helper.mkPlatform
    (fun _ => Some (Helper.mkDatetime 2023 8 2 21 20 0 0))
    (fun _ => 2%Z) 1%Z 1%Z 1%Z
    (fun st => if ((1601 <=? Helper.wYear st) && (Helper.wYear st <=? 30827))%Z
               then 1%Z else 0%Z).

(** The default settings of app/config.py with two servers. *)
Definition default_settings : Settings :=
  mkSettings true 300 200 ["a.example"; "b.example"] 800 true "".

Definition sample_with_offset (offset : Q) : NtpResult :=
  mkNtpResult "a.example" 20 offset true None.

(** Manual mode with a preferred server and no server configured. *)
Definition manual_no_servers : Settings :=
  mkSettings true 300 200 [] 800 false "time.example".

(** Manual mode with a preferred server that is down and two configured
    servers that answer, [b.example] faster than [a.example]. *)
Definition manual_settings : Settings :=
  mkSettings true 300 200 ["a.example"; "b.example"] 800 false "down.example".

Definition two_server_world : World :=
  world_at 1691011200
    (fun _ srv _ _ =>
       if String.eqb srv "down.example"
       then UdpRaises "timed out" 800000000 (4 # 5)
       else if String.eqb srv "a.example"
       then UdpReply (reply 3900000001 3900000001 3900000002 1073741824)
                     30000000 (3 # 100)
       else UdpReply (reply 3900000001 3900000001 3900000002 1073741824)
                     20000000 (1 # 50)).

(** Two seconds before the seconds of an NTP timestamp no longer fit in 32
    bits (7 February 2036, 06:28:16 UTC): one server, which answers with a
    clock half a second ahead; the helper is installed and the elevation is
    spawned in 1.5 s. *)
Definition one_server : Settings :=
  mkSettings true 300 200 ["a.example"] 800 true "".

Definition rollover_world : World :=
  mkWorld 2085978494 0
    (fun _ _ _ _ => UdpReply (reply 4294967294 4294967294 4294967295 2147483648)
                             20000000 (1 # 50)) 0
    (fun _ _ => RunCompleted 0 "" "" 1500000000) 0
    (fun _ => true) None idle_state [].

(** The same server and installation on 2 August 2023. *)
Definition correcting_world : World :=
  mkWorld 1691011200 0
    (fun _ _ _ _ => UdpReply (reply 3900000000 3900000000 3900000001 2147483648)
                             20000000 (1 # 50)) 0
    (fun _ _ => RunCompleted 0 "" "" 1500000000) 0
    (fun _ => true) None idle_state [].

Definition correcting_selected : NtpResult :=
  match fst (_choose_server one_server true 800 correcting_world) with
  | Ok (Some r) => r
  | _ => unknown ""
  end.

Definition correcting_world_selected : World :=
  snd (_choose_server one_server true 800 correcting_world).

(** Automatic synchronisation switched off; [stop()] is called one
    nanosecond after the loop has read the flag for the first time. *)
Definition sync_disabled : Settings :=
  mkSettings false 300 200 ["a.example"] 800 true "".

Definition stop_early_world : World :=
  mkWorld 1691011200 0
    (fun _ _ _ _ => UdpRaises "timed out" 800000000 (4 # 5)) 0
    no_process 0 (fun _ => false) (Some 1%Z) idle_state [].

(** A wait between rounds during which [stop()] is called after 1.2 s. *)
Definition stop_during_wait_world : World :=
  mkWorld 1691011200 0
    (fun _ _ _ _ => UdpRaises "timed out" 800000000 (4 # 5)) 0
    no_process 0 (fun _ => false) (Some 1200000000%Z) idle_state [].

End Scenario.

(** * Properties *)

(** ** Python numerics *)

Lemma ltb_lt (x y : Q) : Py.ltb x y = true <-> (x < y)%Q.
Proof.
  unfold Py.ltb. rewrite negb_true_iff.
  split; intros H.
  - apply Qnot_le_lt. intros Hle. apply Qle_bool_iff in Hle. congruence.
  - destruct (Qle_bool y x) eqn:E; [|reflexivity].
    apply Qle_bool_iff in E. exfalso. apply (Qlt_not_le _ _ H E).
Qed.

Lemma ltb_ge (x y : Q) : Py.ltb x y = false <-> (y <= x)%Q.
Proof.
  unfold Py.ltb. rewrite negb_false_iff. apply Qle_bool_iff.
Qed.

Lemma max_zero_nonneg (x : Q) : (0 <= Py.max 0 x)%Q.
Proof.
  unfold Py.max. destruct (Py.ltb 0 x) eqn:E.
  - apply ltb_lt in E. apply Qlt_le_weak, E.
  - apply Qle_refl.
Qed.

(** [int(x)] is within one of [x]. *)
Lemma int_of_float_near (x : Q) : (Qabs (inject_Z (Py.int_of_float x) - x) < 1)%Q.
Proof.
  destruct x as [n d]. unfold Py.int_of_float. simpl Qnum. simpl Qden.
  pose proof (Z.quot_rem' n (Zpos d)) as Hqr.
  pose proof (Z.rem_bound_abs n (Zpos d) ltac:(lia)) as Hb.
  set (q := Z.quot n (Zpos d)) in *. set (r := Z.rem n (Zpos d)) in *.
  assert (E : (inject_Z q - (n # d) == (- r) # d)%Q).
  { unfold Qeq, Qminus, Qplus, Qopp, inject_Z. simpl. nia. }
  rewrite E. unfold Qabs, Qlt. simpl. lia.
Qed.

(** ** The reply parser of [query_ntp_once] *)

(** Whatever the 48 bytes are, [recv_sec], [recv_frac], [tx_sec] and
    [tx_frac] are the words at byte offsets 24, 28, 32 and 36. *)
Lemma reply_fields_offsets (data : list Byte.byte) :
  length data = 48%nat ->
  exists a b c d,
    Struct.word_at data 24 = Some a /\ Struct.word_at data 28 = Some b /\
    Struct.word_at data 32 = Some c /\ Struct.word_at data 36 = Some d /\
    reply_fields data = Some (a, b, c, d).
Proof.
  intros H.
  do 48 (destruct data as [|? data]; [simpl in H; lia|]).
  destruct data; [|simpl in H; lia].
  do 4 eexists. repeat split.
Qed.

(** C1 (as the code has it): on a reply whose originate, receive and
    transmit timestamps hold the seconds 3900000000, 3900000001 and
    3900000002, the parser takes [recv_sec] from the originate timestamp
    (bytes 24-27) and [tx_sec] from the receive timestamp (bytes 32-35);
    the transmit timestamp at bytes 40-47, which is where the client itself
    stamps its own transmit time, is never read, and neither word comes from
    the offsets 36 and 44 either. *)
Theorem query_ntp_once_reads_originate_and_receive :
  length Scenario.distinct_reply = 48%nat /\
  reply_fields Scenario.distinct_reply
    = Some (3900000000, 0, 3900000001, 0)%Z /\
  Struct.word_at Scenario.distinct_reply 24 = Some 3900000000%Z /\
  Struct.word_at Scenario.distinct_reply 32 = Some 3900000001%Z /\
  Struct.word_at Scenario.distinct_reply 40 = Some 3900000002%Z /\
  Struct.word_at Scenario.distinct_reply 36 = Some 0%Z /\
  Struct.word_at Scenario.distinct_reply 44 = Some 0%Z /\
  (exists r w', query_ntp_once "time.example" 800 Scenario.distinct_world = (Ok r, w')
     /\ success r = true
     /\ (offset_ms r == ((3900000000 - 2208988800 - 1691011200)
                         + (3900000001 - 2208988800 - (1691011200 + (1 # 50)))) / 2 * 1000)%Q).
Proof.
  repeat split; try (vm_compute; reflexivity).
  eexists _, _. split; [vm_compute; reflexivity|].
  split; vm_compute; reflexivity.
Qed.

(** ** [sorted] and [statistics.median] *)

Lemma insert_perm (x : Q) (l : list Q) : Permutation (x :: l) (Statistics.insert x l).
Proof.
  induction l as [|y l IH]; simpl.
  - reflexivity.
  - destruct (Qle_bool x y).
    + reflexivity.
    + rewrite perm_swap. constructor. exact IH.
Qed.

Lemma sorted_perm (l : list Q) : Permutation l (Statistics.sorted l).
Proof.
  induction l as [|x l IH]; simpl.
  - reflexivity.
  - rewrite <- insert_perm. constructor. exact IH.
Qed.

Lemma sorted_length (l : list Q) : length (Statistics.sorted l) = length l.
Proof. symmetry. apply Permutation_length, sorted_perm. Qed.

Lemma insert_sorted (x : Q) (l : list Q) :
  StronglySorted Qle l -> StronglySorted Qle (Statistics.insert x l).
Proof.
  induction 1 as [|y l Hl IH Hy]; simpl.
  - repeat constructor.
  - destruct (Qle_bool x y) eqn:E.
    + apply Qle_bool_iff in E.
      constructor; [constructor; assumption|].
      constructor; [exact E|].
      eapply Forall_impl; [exact Hy|].
      intros z Hz. eapply Qle_trans; eassumption.
    + assert (Hyx : (y <= x)%Q).
      { apply Qlt_le_weak, Qnot_le_lt. intros H. apply Qle_bool_iff in H. congruence. }
      constructor; [exact IH|].
      eapply Permutation_Forall; [apply insert_perm|].
      constructor; assumption.
Qed.

Lemma sorted_sorted (l : list Q) : StronglySorted Qle (Statistics.sorted l).
Proof.
  induction l as [|x l IH]; simpl.
  - constructor.
  - apply insert_sorted, IH.
Qed.

(** On data that is not empty, [statistics.median] returns. *)
Lemma median_total (l : list Q) : l <> [] -> exists m, Statistics.median l = Some m.
Proof.
  intros Hne. unfold Statistics.median.
  rewrite sorted_length.
  assert (Hn : (0 < length l)%nat) by (destruct l; [congruence | simpl; lia]).
  destruct (Nat.eqb_spec (length l) 0); [lia|].
  pose proof (Nat.div_mod_eq (length l) 2) as Hdm.
  pose proof (Nat.mod_upper_bound (length l) 2 ltac:(lia)) as Hm.
  destruct (Nat.eqb_spec (length l mod 2) 1).
  - destruct (lookup_lt_is_Some_2 (Statistics.sorted l) (length l / 2)) as [m Hm'].
    + rewrite sorted_length. lia.
    + eauto.
  - destruct (lookup_lt_is_Some_2 (Statistics.sorted l) (length l / 2 - 1)) as [a Ha].
    { rewrite sorted_length. lia. }
    destruct (lookup_lt_is_Some_2 (Statistics.sorted l) (length l / 2)) as [b Hb].
    { rewrite sorted_length. lia. }
    rewrite Ha, Hb. eauto.
Qed.

(** What [statistics.median] returns is the statistical median. *)
Lemma median_is_median (l : list Q) (m : Q) :
  Statistics.median l = Some m -> is_median m l.
Proof.
  unfold Statistics.median. intros H.
  exists (Statistics.sorted l).
  split; [apply sorted_perm|]. split; [apply sorted_sorted|].
  cbv zeta.
  pose proof (Nat.div_mod_eq (length (Statistics.sorted l)) 2) as Hdm.
  pose proof (Nat.mod_upper_bound (length (Statistics.sorted l)) 2 ltac:(lia)) as Hm.
  destruct (Nat.eqb_spec (length (Statistics.sorted l)) 0); [discriminate|].
  destruct (Nat.eqb_spec (length (Statistics.sorted l) mod 2) 1).
  - left. split; [|exact H].
    exists (length (Statistics.sorted l) / 2)%nat. lia.
  - right. split.
    + exists (length (Statistics.sorted l) / 2)%nat. lia.
    + destruct (Statistics.sorted l !! _) as [a|] eqn:Ha; [|discriminate].
      destruct (Statistics.sorted l !! (length (Statistics.sorted l) / 2)%nat)
        as [b|] eqn:Hb; [|discriminate].
      injection H as <-. exists a, b. repeat split; reflexivity.
Qed.

(** The median splits the batch: at most half of the values lie strictly
    below it and at most half strictly above. *)

Lemma filter_length_perm (f : Q -> bool) (l s : list Q) :
  Permutation l s -> length (List.filter f l) = length (List.filter f s).
Proof.
  induction 1 as [|x l s _ IH|x y l|l s t _ IH1 _ IH2]; simpl.
  - reflexivity.
  - destruct (f x); simpl; congruence.
  - destruct (f x), (f y); reflexivity.
  - congruence.
Qed.

Lemma filter_length_le (f : Q -> bool) (l : list Q) :
  (length (List.filter f l) <= length l)%nat.
Proof.
  induction l as [|x l IH]; simpl; [lia|]. destruct (f x); simpl; lia.
Qed.

Lemma filter_none (f : Q -> bool) (l : list Q) :
  (forall x, In x l -> f x = false) -> List.filter f l = [].
Proof.
  induction l as [|x l IH]; simpl; intros H; [reflexivity|].
  rewrite (H x) by (left; reflexivity). apply IH. intros y Hy. apply H. right. exact Hy.
Qed.

Lemma sorted_lookup_le (s : list Q) (i j : nat) (a b : Q) :
  StronglySorted Qle s -> s !! i = Some a -> s !! j = Some b ->
  (i <= j)%nat -> (a <= b)%Q.
Proof.
  intros Hs. revert i j. induction Hs as [|x s Hs IH Hx]; intros i j Ha Hb Hij.
  - discriminate.
  - destruct i as [|i], j as [|j]; simpl in *.
    + injection Ha as <-. injection Hb as <-. apply Qle_refl.
    + injection Ha as <-. rewrite Forall_forall in Hx. apply Hx.
      eapply list_elem_of_lookup_2. exact Hb.
    + lia.
    + eapply IH; eauto. lia.
Qed.

Lemma count_below_bound (m : Q) (s : list Q) (k : nat) :
  (forall j x, (k <= j)%nat -> s !! j = Some x -> (m <= x)%Q) ->
  (count_below m s <= k)%nat.
Proof.
  intros H. unfold count_below.
  rewrite <- (take_drop k s) at 1. rewrite List.filter_app, length_app.
  rewrite (filter_none _ (drop k s)).
  - pose proof (filter_length_le (fun x => Py.ltb x m) (take k s)).
    rewrite length_take in H0. simpl. lia.
  - intros x Hx. apply ltb_ge.
    apply list_elem_of_In, list_elem_of_lookup in Hx. destruct Hx as [j Hj].
    rewrite lookup_drop in Hj. eapply H; [|exact Hj]. lia.
Qed.

Lemma count_above_bound (m : Q) (s : list Q) (k : nat) :
  (forall j x, (j < k)%nat -> s !! j = Some x -> (x <= m)%Q) ->
  (count_above m s <= length s - k)%nat.
Proof.
  intros H. unfold count_above.
  rewrite <- (take_drop k s) at 1. rewrite List.filter_app, length_app.
  rewrite (filter_none _ (take k s)).
  - pose proof (filter_length_le (fun x => Py.ltb m x) (drop k s)).
    rewrite length_drop in H0. simpl. lia.
  - intros x Hx. apply ltb_ge.
    apply list_elem_of_In, list_elem_of_lookup in Hx. destruct Hx as [j Hj].
    apply lookup_take_Some in Hj. destruct Hj as [Hj Hlt]. eapply H; eauto.
Qed.

Lemma is_median_balanced (m : Q) (l : list Q) :
  is_median m l ->
  (2 * count_below m l <= length l)%nat /\ (2 * count_above m l <= length l)%nat.
Proof.
  intros (s & Hp & Hs & Hm).
  unfold count_below, count_above.
  rewrite !(filter_length_perm _ l s Hp), (Permutation_length Hp).
  fold (count_below m s). fold (count_above m s).
  cbv zeta in Hm.
  destruct Hm as [[[k Hk] Hm] | [[k Hk] (a & b & Ha & Hb & Hm)]].
  - assert (Hdiv : (length s / 2 = k)%nat).
    { rewrite Hk. replace (2 * k + 1)%nat with (1 + k * 2)%nat by lia.
      rewrite Nat.div_add by lia. reflexivity. }
    rewrite Hdiv in Hm.
    pose proof (count_below_bound m s k) as Hb.
    pose proof (count_above_bound m s (S k)) as Ha.
    split.
    + enough (count_below m s <= k)%nat by lia. apply Hb.
      intros j x Hj Hx. eapply (sorted_lookup_le s k j); eauto.
    + enough (count_above m s <= length s - S k)%nat by lia. apply Ha.
      intros j x Hj Hx. eapply (sorted_lookup_le s j k); eauto. lia.
  - assert (Hdiv : (length s / 2 = k)%nat).
    { rewrite Hk. replace (2 * k)%nat with (k * 2)%nat by lia.
      apply Nat.div_mul. lia. }
    rewrite Hdiv in Ha, Hb.
    assert (Hk0 : (0 < k)%nat).
    { destruct k; [|lia]. simpl in Ha. apply lookup_lt_Some in Ha. lia. }
    assert (Hab : (a <= b)%Q) by (eapply (sorted_lookup_le s (k - 1) k); eauto; lia).
    assert (Ham : (a <= m)%Q).
    { rewrite Hm. unfold Qdiv. change (/ 2)%Q with (1 # 2)%Q. lra. }
    assert (Hmb : (m <= b)%Q).
    { rewrite Hm. unfold Qdiv. change (/ 2)%Q with (1 # 2)%Q. lra. }
    split.
    + enough (count_below m s <= k)%nat by lia. apply count_below_bound.
      intros j x Hj Hx. eapply Qle_trans; [exact Hmb|].
      eapply (sorted_lookup_le s k j); eauto.
    + enough (count_above m s <= length s - k)%nat by lia. apply count_above_bound.
      intros j x Hj Hx. eapply Qle_trans; [|exact Ham].
      eapply (sorted_lookup_le s j (k - 1)); eauto. lia.
Qed.

(** ** The Transactor and the Aggregator leave the rest of the world alone *)

Lemma quiet_refl (w : World) : quiet w w.
Proof. repeat split. Qed.

Lemma quiet_trans (w1 w2 w3 : World) : quiet w1 w2 -> quiet w2 w3 -> quiet w1 w3.
Proof.
  unfold quiet. intros (?&?&?&?&?&?&?) (?&?&?&?&?&?&?).
  repeat split; congruence.
Qed.

Lemma query_ntp_once_quiet (srv : string) (t : Z) (w : World) :
  quiet w (snd (query_ntp_once srv t w)).
Proof.
  unfold query_ntp_once.
  repeat case_match; simpl; repeat split.
Qed.

(** A sample of the Transactor names the server it was asked about, and
    satisfies the invariant of samples. *)
Lemma query_ntp_once_sample (srv : string) (t : Z) (w w' : World) (r : NtpResult) :
  query_ntp_once srv t w = (Ok r, w') ->
  server r = srv /\ sample_ok r /\ (success r = false -> error r <> None).
Proof.
  unfold query_ntp_once.
  repeat case_match; intros Hq; try discriminate; injection Hq as <- <-;
    unfold sample_ok, sample_of_instants; simpl;
    (split; [reflexivity|]); (split; [split|]);
    try apply max_zero_nonneg; try apply Qle_refl; auto; try discriminate.
Qed.

Lemma probes_quiet (k : nat) (srv : string) (t : Z) (w : World) :
  quiet w (snd (probes k srv t w)).
Proof.
  revert w. induction k as [|k IH]; intros w; simpl.
  - apply quiet_refl.
  - unfold bind.
    pose proof (query_ntp_once_quiet srv t w) as H1.
    destruct (query_ntp_once srv t w) as [[r|e] w1]; simpl in *; [|exact H1].
    pose proof (IH w1) as H2.
    destruct (probes k srv t w1) as [[rs|e] w2]; simpl in *;
      eapply quiet_trans; eauto.
Qed.

Lemma probes_samples (k : nat) (srv : string) (t : Z) (w w' : World) (rs : list NtpResult) :
  probes k srv t w = (Ok rs, w') ->
  length rs = k /\
  Forall (fun r => server r = srv /\ sample_ok r /\ (success r = false -> error r <> None)) rs.
Proof.
  revert w rs. induction k as [|k IH]; intros w rs; simpl.
  - intros H. injection H as <- <-. split; [reflexivity | constructor].
  - unfold bind.
    destruct (query_ntp_once srv t w) as [[r|e] w1] eqn:E1; [|discriminate].
    destruct (probes k srv t w1) as [[rs'|e] w2] eqn:E2; [|discriminate].
    intros H. injection H as <- <-.
    destruct (IH _ _ E2) as [Hl Hf].
    split; [simpl; congruence|].
    constructor; [eapply query_ntp_once_sample; eauto | exact Hf].
Qed.

(** The loop of [query_ntp] keeps the successful samples, in order, and the
    error of the last failed one. *)
Lemma query_ntp_loop_probes (k : nat) (srv : string) (t : Z)
    (results : list NtpResult) (last_err : option string) (w : World) :
  query_ntp_loop k srv t results last_err w =
  match probes k srv t w with
  | (Ok rs, w') => (Ok (results ++ List.filter success rs, last_error last_err rs), w')
  | (Raise e, w') => (Raise e, w')
  end.
Proof.
  revert results last_err w. induction k as [|k IH]; intros results last_err w; simpl.
  - unfold ret. rewrite app_nil_r. reflexivity.
  - unfold bind.
    destruct (query_ntp_once srv t w) as [[r|e] w1]; [|reflexivity].
    destruct (success r) eqn:Hs; rewrite IH;
      destruct (probes k srv t w1) as [[rs|e] w2]; try reflexivity;
      unfold ret, last_error; simpl; rewrite Hs; [rewrite <- app_assoc|]; reflexivity.
Qed.

(** ** The Aggregator *)

Lemma is_median_nonneg (m : Q) (l : list Q) :
  Forall (Qle 0) l -> is_median m l -> (0 <= m)%Q.
Proof.
  intros Hl (s & Hp & _ & Hm). cbv zeta in Hm.
  assert (Hs : forall i x, s !! i = Some x -> (0 <= x)%Q).
  { intros i x Hx. rewrite Forall_forall in Hl. apply Hl.
    rewrite list_elem_of_In. apply (Permutation_in x (Permutation_sym Hp)).
    rewrite <- list_elem_of_In. eapply list_elem_of_lookup_2. exact Hx. }
  destruct Hm as [[_ Hm] | [_ (a & b & Ha & Hb & Hm)]].
  - eapply Hs. exact Hm.
  - rewrite Hm. pose proof (Hs _ _ Ha). pose proof (Hs _ _ Hb).
    unfold Qdiv. change (/ 2)%Q with (1 # 2)%Q. lra.
Qed.

(** C5 (amended): when the [max(1, samples)] transactions of a run return
    the samples [rs], [query_ntp] returns; if some of them succeeded the
    result is a success without error whose [rtt_ms] is the statistical
    median of the successful round trips and whose [offset_ms] is, on its
    own, the statistical median of the successful offsets; if none succeeded
    the result is a failure with zero [rtt_ms] and [offset_ms] that carries
    the error of the last failed sample when that text is not empty, and the
    generic text "NTP failed" otherwise. *)
Theorem query_ntp_median_or_last_error
    (srv : string) (t samples : Z) (w w' : World) (rs : list NtpResult) :
  probes (Z.to_nat (Z.max 1 samples)) srv t w = (Ok rs, w') ->
  exists r, query_ntp srv t samples w = (Ok r, w') /\ server r = srv /\
    let good := List.filter success rs in
    (good <> [] /\ success r = true /\ error r = None /\
     is_median (rtt_ms r) (map rtt_ms good) /\
     is_median (offset_ms r) (map offset_ms good))
    \/
    (good = [] /\ success r = false /\ rtt_ms r = 0%Q /\ offset_ms r = 0%Q /\
     ((exists e, last_error None rs = Some e /\ e <> "" /\ error r = Some e) \/
      ((last_error None rs = None \/ last_error None rs = Some "") /\
       error r = Some "NTP failed"))).
Proof.
  intros Hp. unfold query_ntp, bind.
  rewrite query_ntp_loop_probes, Hp.
  change ([] ++ List.filter success rs) with (List.filter success rs).
  destruct (List.filter success rs) as [|g good] eqn:Hg.
  - eexists. split; [reflexivity|]. split; [reflexivity|].
    right. simpl. repeat (split; [reflexivity|]).
    destruct (last_error None rs) as [e|]; simpl.
    + destruct (String.eqb_spec e "") as [->|Hne].
      * right. split; [right|]; reflexivity.
      * left. exists e. repeat split; assumption.
    + right. split; [left|]; reflexivity.
  - destruct (median_total (map rtt_ms (g :: good))) as [mr Hmr]; [discriminate|].
    destruct (median_total (map offset_ms (g :: good))) as [mo Hmo]; [discriminate|].
    cbv zeta. rewrite Hmr, Hmo.
    eexists. split; [reflexivity|]. split; [reflexivity|].
    left. simpl. split; [discriminate|].
    repeat (split; [reflexivity|]).
    split; apply median_is_median; assumption.
Qed.

Lemma query_ntp_median_or_last_error_witness :
  exists r,
    query_ntp "time.example" 800 3 Scenario.flaky_world = (Ok r, Scenario.flaky_after) /\
    server r = "time.example" /\
    let good := List.filter success Scenario.flaky_samples in
    (good <> [] /\ success r = true /\ error r = None /\
     is_median (rtt_ms r) (map rtt_ms good) /\
     is_median (offset_ms r) (map offset_ms good))
    \/
    (good = [] /\ success r = false /\ rtt_ms r = 0%Q /\ offset_ms r = 0%Q /\
     ((exists e, last_error None Scenario.flaky_samples = Some e /\ e <> ""
                 /\ error r = Some e) \/
      ((last_error None Scenario.flaky_samples = None
        \/ last_error None Scenario.flaky_samples = Some "") /\
       error r = Some "NTP failed"))).
Proof.
  apply (query_ntp_median_or_last_error "time.example" 800 3
           Scenario.flaky_world Scenario.flaky_after Scenario.flaky_samples).
  vm_compute. reflexivity.
Defined.

(** C5 (as stated) fails: a single transaction that fails with an empty
    error text is reported as "NTP failed", which is neither the error that
    was observed nor the text "probe failed". *)
Lemma query_ntp_generic_error_counterexample :
  exists r w',
    probes 1 "time.example" 800 Scenario.mute_world
      = (Ok [mkNtpResult "time.example" 0 0 false (Some "")], w') /\
    query_ntp "time.example" 800 1 Scenario.mute_world = (Ok r, w') /\
    success r = false /\
    error r = Some "NTP failed" /\
    error r <> Some "" /\
    error r <> Some "probe failed".
Proof.
  eexists _, _. split; [vm_compute; reflexivity|].
  split; [vm_compute; reflexivity|].
  repeat split; simpl; discriminate.
Qed.

Lemma query_ntp_quiet (srv : string) (t samples : Z) (w : World) :
  quiet w (snd (query_ntp srv t samples w)).
Proof.
  unfold query_ntp, bind. rewrite query_ntp_loop_probes.
  pose proof (probes_quiet (Z.to_nat (Z.max 1 samples)) srv t w) as H.
  destruct (probes _ srv t w) as [[rs|e] w1]; simpl in *; [|exact H].
  repeat case_match; exact H.
Qed.

(** A sample of the Aggregator names the server it was asked about and
    satisfies the invariant of samples. *)
Lemma query_ntp_sample (srv : string) (t samples : Z) (w w' : World) (r : NtpResult) :
  query_ntp srv t samples w = (Ok r, w') ->
  server r = srv /\ sample_ok r.
Proof.
  unfold query_ntp, bind. rewrite query_ntp_loop_probes.
  destruct (probes _ srv t w) as [[rs|e] w1] eqn:Hp; [|discriminate].
  change ([] ++ List.filter success rs) with (List.filter success rs).
  destruct (probes_samples _ _ _ _ _ _ Hp) as [_ Hrs].
  destruct (List.filter success rs) as [|g good] eqn:Hg.
  - intros H. injection H as <- <-. split; [reflexivity|].
    split; [apply Qle_refl | left; reflexivity].
  - cbv zeta.
    destruct (Statistics.median (map rtt_ms (g :: good))) as [mr|] eqn:Hmr; [|discriminate].
    destruct (Statistics.median (map offset_ms (g :: good))) as [mo|]; [|discriminate].
    intros H. injection H as <- <-. split; [reflexivity|].
    split; [|right; reflexivity]. simpl.
    apply (is_median_nonneg mr (map rtt_ms (g :: good))); [|apply median_is_median, Hmr].
    rewrite <- Hg. apply Forall_forall. intros x Hx.
    apply list_elem_of_In, in_map_iff in Hx. destruct Hx as (s & <- & Hs).
    apply filter_In in Hs. destruct Hs as [Hs _].
    rewrite Forall_forall in Hrs. apply list_elem_of_In, Hrs in Hs.
    destruct Hs as (_ & [Hs _] & _). exact Hs.
Qed.

(** ** The ICMP fallback *)

Lemma parse_ping_output_nonneg (stdout stderr : string) (q : Q) :
  parse_ping_output stdout stderr = Some q -> (0 <= q)%Q.
Proof.
  unfold parse_ping_output.
  set (out := String.list_ascii_of_string _).
  destruct (Re.finditer_time 0 out) as [|t0 times] eqn:Ht.
  - destruct (Re.search_average out) as [a|]; [|discriminate].
    intros H. injection H as <-. unfold Py.float_of_int.
    change 0%Q with (inject_Z 0). rewrite <- Zle_Qle. lia.
  - intros H. apply median_is_median in H.
    eapply is_median_nonneg; [|exact H].
    apply Forall_forall. intros x Hx.
    apply list_elem_of_In, in_map_iff in Hx. destruct Hx as (n & <- & _).
    unfold Py.float_of_int. change 0%Q with (inject_Z 0). rewrite <- Zle_Qle. lia.
Qed.

(** What [worker] stores names its server and satisfies the invariant. *)
Lemma worker_sample (srv : string) (t samples : Z) (w w' : World) (r : NtpResult) :
  worker srv t samples w = (Ok r, w') -> server r = srv /\ sample_ok r.
Proof.
  unfold worker, bind.
  destruct (query_ntp srv t samples w) as [[n|e] w1] eqn:Hq; [|discriminate].
  destruct (success n) eqn:Hs.
  - intros H. injection H as <- <-. eapply query_ntp_sample; eauto.
  - unfold _icmp_ping_windows.
    destruct (run w1 (run_n w1) _) as [d|e d|rc so se d] eqn:Hr;
      try (intros H; injection H as <- <-; split; [reflexivity|];
           split; [apply Qle_refl | left; reflexivity]).
    destruct (parse_ping_output so se) as [q|] eqn:Hpp;
      intros H; injection H as <- <-; (split; [reflexivity|]);
      (split; [|left; reflexivity]); simpl.
    + eapply parse_ping_output_nonneg; eauto.
    + apply Qle_refl.
Qed.


(** ** The ProbePool *)

Lemma run_thread_length servers t samples cb view (p : Pool) (idx : nat) :
  length (results (run_thread servers t samples cb view p idx)) = length (results p).
Proof.
  unfold run_thread.
  destruct (servers !! idx) as [srv|]; [|reflexivity].
  destruct (worker srv t samples (view idx)) as [[r|e] w']; [|reflexivity].
  simpl. apply length_insert.
Qed.

Lemma run_thread_slot servers t samples cb view (p : Pool) (idx i : nat) :
  length (results p) = length servers ->
  results (run_thread servers t samples cb view p idx) !! i =
  if decide (i = idx)
  then match slot_of servers t samples view i with
       | Some r => Some (Some r)
       | None => results p !! i
       end
  else results p !! i.
Proof.
  intros Hlen. unfold run_thread, slot_of.
  destruct (decide (i = idx)) as [->|Hne].
  - destruct (servers !! idx) as [srv|] eqn:Hs; [|reflexivity].
    destruct (worker srv t samples (view idx)) as [[r|e] w']; [|reflexivity].
    simpl. apply list_lookup_insert_eq.
    rewrite Hlen. eapply lookup_lt_Some; eauto.
  - destruct (servers !! idx) as [srv|]; [|reflexivity].
    destruct (worker srv t samples (view idx)) as [[r|e] w']; [|reflexivity].
    simpl. apply list_lookup_insert_ne. congruence.
Qed.

(** Whatever the order in which the threads finish, slot [i] holds what
    thread [i] left there, if it is among the finished ones. *)
Lemma pool_slots servers t samples cb view (order : list nat) (p : Pool) (i : nat) :
  length (results p) = length servers ->
  let p' := foldl (run_thread servers t samples cb view) p order in
  length (results p') = length servers /\
  results p' !! i =
  if decide (i ∈ order)
  then match slot_of servers t samples view i with
       | Some r => Some (Some r)
       | None => results p !! i
       end
  else results p !! i.
Proof.
  revert p. induction order as [|a order IH]; intros p Hlen; cbn [foldl].
  - split; [exact Hlen|].
    destruct (decide (i ∈ [])) as [Hin|_]; [inversion Hin | reflexivity].
  - assert (Hlen' : length (results (run_thread servers t samples cb view p a))
                    = length servers) by (rewrite run_thread_length; exact Hlen).
    destruct (IH _ Hlen') as [Hl Hs]. split; [exact Hl|].
    cbv zeta in Hs. rewrite Hs, (run_thread_slot _ _ _ _ _ _ _ _ Hlen).
    destruct (decide (i ∈ order)) as [Hin|Hnin];
      destruct (decide (i = a)) as [->|Hne];
      destruct (decide (_ ∈ a :: order)) as [Hin'|Hnin'];
      try reflexivity;
      try (exfalso; apply Hnin'; (left || (right; exact Hin)));
      try (destruct (slot_of servers t samples view _); reflexivity).
    exfalso. apply elem_of_cons in Hin'. tauto.
Qed.

Lemma slot_of_sample servers t samples view (i : nat) (s : string) (r : NtpResult) :
  servers !! i = Some s -> slot_of servers t samples view i = Some r ->
  server r = s /\ sample_ok r.
Proof.
  unfold slot_of. intros ->.
  destruct (worker s t samples (view i)) as [[r'|e] w'] eqn:Hw; [|discriminate].
  intros H. injection H as <-. eapply worker_sample; eauto.
Qed.

(** The list [ping_servers] returns, slot by slot. *)
Lemma ping_servers_slots servers t max_workers samples cb view (order : list nat) :
  (0 < max_workers)%Z ->
  exists out prog,
    ping_servers servers t max_workers samples cb view order = Returns (out, prog) /\
    length out = length servers /\
    forall i s, servers !! i = Some s ->
      out !! i = Some (if decide (i ∈ order)
                       then default (unknown s) (slot_of servers t samples view i)
                       else unknown s).
Proof.
  intros Hmw. unfold ping_servers.
  destruct (Z.ltb_spec max_workers 0); [lia|].
  destruct (Z.eqb_spec max_workers 0); [lia|]. simpl.
  eexists _, _. split; [reflexivity|].
  set (p0 := mkPool (replicate (length servers) None) 0 []).
  assert (Hlen : length (results p0) = length servers) by apply length_replicate.
  split.
  - rewrite length_imap. apply (pool_slots servers t samples cb view order p0 0 Hlen).
  - intros i s Hs. rewrite list_lookup_imap.
    destruct (pool_slots servers t samples cb view order p0 i Hlen) as [_ Hslot].
    cbv zeta in Hslot. rewrite Hslot.
    assert (Hi : (i < length servers)%nat) by (eapply lookup_lt_Some; eauto).
    assert (Hnone : results p0 !! i = Some None).
    { simpl. apply lookup_replicate_2. exact Hi. }
    assert (Htot : servers !!! i = s) by (apply list_lookup_total_correct; exact Hs).
    destruct (decide (i ∈ order)).
    + destruct (slot_of servers t samples view i); [reflexivity|].
      rewrite Hnone. simpl. rewrite Htot. reflexivity.
    + rewrite Hnone. simpl. rewrite Htot. reflexivity.
Qed.

(** C4: with a positive worker limit, [ping_servers] returns one sample
    per server of its input, the sample at index [i] naming the server at
    index [i], whatever the order in which the threads finish; a slot whose
    thread never completed (it is not among the finished ones, or its worker
    raised) holds a failure with the error "Unknown". *)
Theorem ping_servers_keeps_input_order
    (servers : list string) (t max_workers samples : Z) (cb : bool)
    (view : nat -> World) (order : list nat) :
  (0 < max_workers)%Z ->
  exists out prog,
    ping_servers servers t max_workers samples cb view order = Returns (out, prog) /\
    length out = length servers /\
    (forall i s, servers !! i = Some s ->
       exists r, out !! i = Some r /\ server r = s) /\
    (forall i s, servers !! i = Some s ->
       (i ∉ order \/ exists e w', worker s t samples (view i) = (Raise e, w')) ->
       out !! i = Some (mkNtpResult s 0 0 false (Some "Unknown"))).
Proof.
  intros Hmw.
  destruct (ping_servers_slots servers t max_workers samples cb view order Hmw)
    as (out & prog & Hret & Hlen & Hslots).
  exists out, prog. split; [exact Hret|]. split; [exact Hlen|]. split.
  - intros i s Hs. rewrite (Hslots i s Hs). eexists. split; [reflexivity|].
    destruct (decide (i ∈ order)); [|reflexivity].
    destruct (slot_of servers t samples view i) as [r|] eqn:Hr; [|reflexivity].
    simpl. eapply slot_of_sample; eauto.
  - intros i s Hs Hnever. rewrite (Hslots i s Hs).
    destruct (decide (i ∈ order)) as [Hin|]; [|reflexivity].
    destruct Hnever as [Hnin | (e & w' & Hw)]; [contradiction|].
    unfold slot_of. rewrite Hs, Hw. reflexivity.
Qed.

Lemma ping_servers_keeps_input_order_witness :
  exists out prog,
    ping_servers Scenario.pool_servers 800 8 3 true Scenario.pool_view [2; 0; 1]%nat
      = Returns (out, prog) /\
    length out = length Scenario.pool_servers /\
    (forall i s, Scenario.pool_servers !! i = Some s ->
       exists r, out !! i = Some r /\ server r = s) /\
    (forall i s, Scenario.pool_servers !! i = Some s ->
       (i ∉ [2; 0; 1]%nat
        \/ exists e w', worker s 800 3 (Scenario.pool_view i) = (Raise e, w')) ->
       out !! i = Some (mkNtpResult s 0 0 false (Some "Unknown"))).
Proof.
  apply (ping_servers_keeps_input_order Scenario.pool_servers 800 8 3 true
           Scenario.pool_view [2; 0; 1]%nat).
  lia.
Defined.

(** ** The invariant of samples *)

Lemma unknown_ok (s : string) : sample_ok (unknown s).
Proof. split; [apply Qle_refl | left; reflexivity]. Qed.

Lemma ping_servers_samples_ok servers t max_workers samples cb view (order : list nat) :
  match ping_servers servers t max_workers samples cb view order with
  | Returns (out, _) => Forall sample_ok out
  | _ => True
  end.
Proof.
  destruct (Z.lt_trichotomy max_workers 0) as [Hneg | [-> | Hpos]].
  - unfold ping_servers. destruct (Z.ltb_spec max_workers 0); [exact I | lia].
  - unfold ping_servers. simpl.
    destruct (Nat.eqb_spec (length servers) 0) as [H0|]; [|exact I]. simpl.
    set (p0 := mkPool (replicate (length servers) None) 0 []).
    assert (Hlen : length (results p0) = length servers) by apply length_replicate.
    destruct (pool_slots servers t samples cb view order p0 0 Hlen) as [Hl _].
    cbv zeta in Hl. rewrite H0 in Hl. apply nil_length_inv in Hl. rewrite Hl.
    constructor.
  - destruct (ping_servers_slots servers t max_workers samples cb view order Hpos)
      as (out & prog & -> & Hlen & Hslots).
    apply Forall_lookup. intros i x Hx.
    assert (Hi : (i < length servers)%nat) by (rewrite <- Hlen; eapply lookup_lt_Some; eauto).
    destruct (lookup_lt_is_Some_2 servers i Hi) as [s Hs].
    rewrite (Hslots i s Hs) in Hx. injection Hx as <-.
    destruct (decide (i ∈ order)); [|apply unknown_ok].
    destruct (slot_of servers t samples view i) as [r|] eqn:Hr; [|apply unknown_ok].
    simpl. eapply slot_of_sample; eauto.
Qed.

(** C7: every sample that the Transactor, the Aggregator and the ProbePool
    produce (the samples of the ICMP fallback and the "Unknown" ones
    included, and the two failure samples of the scheduler) has a round trip
    that is not negative, whatever the six instants of the exchange are, and
    a success has no error; its offset is a number by its type. *)
Theorem every_sample_satisfies_invariant :
  (forall srv p1_ns p4_ns t1_sys t4_sys t2 t3,
     sample_ok (sample_of_instants srv p1_ns p4_ns t1_sys t4_sys t2 t3)) /\
  (forall srv t w,
     match fst (query_ntp_once srv t w) with
     | Ok r => sample_ok r
     | Raise _ => True
     end) /\
  (forall srv t samples w,
     match fst (query_ntp srv t samples w) with
     | Ok r => sample_ok r
     | Raise _ => True
     end) /\
  (forall srv t samples w,
     match fst (worker srv t samples w) with
     | Ok r => sample_ok r
     | Raise _ => True
     end) /\
  (forall servers t max_workers samples cb view order,
     match ping_servers servers t max_workers samples cb view order with
     | Returns (out, _) => Forall sample_ok out
     | _ => True
     end) /\
  (forall srv, sample_ok (unknown srv)) /\
  sample_ok none_result /\
  (forall e, sample_ok (error_result e)).
Proof.
  split.
  { intros. split; [apply max_zero_nonneg | right; reflexivity]. }
  split.
  { intros srv t w. destruct (query_ntp_once srv t w) as [[r|e] w'] eqn:E; [|exact I].
    simpl. eapply query_ntp_once_sample; eauto. }
  split.
  { intros srv t samples w.
    destruct (query_ntp srv t samples w) as [[r|e] w'] eqn:E; [|exact I].
    simpl. eapply query_ntp_sample; eauto. }
  split.
  { intros srv t samples w.
    destruct (worker srv t samples w) as [[r|e] w'] eqn:E; [|exact I].
    simpl. eapply worker_sample; eauto. }
  split; [apply ping_servers_samples_ok|].
  split; [apply unknown_ok|].
  split; [|intros e]; (split; [apply Qle_refl | left; reflexivity]).
Qed.

(** A run of the Transactor whose first round-trip figure, 20 ms of local
    time less the 1 s between the two server instants, is negative, as is
    the figure recomputed from the wall clock: the sample has [rtt_ms] 0. *)
Example negative_round_trip_is_clamped :
  exists r w',
    query_ntp_once "time.example" 800 Scenario.distinct_world = (Ok r, w') /\
    success r = true /\ (rtt_ms r == 0)%Q.
Proof.
  eexists _, _. split; [vm_compute; reflexivity|].
  split; vm_compute; reflexivity.
Qed.

(** ** The ICMP fallback of the ProbePool *)

(** C8 (amended): when the Aggregator fails for a server, [worker] runs one
    [ping] command that asks for [max(2, samples)] echo requests with a
    per-reply timeout of [max(1, timeout_ms)] milliseconds.  When the
    command completes and a latency is read from its output, the sample
    stored has that latency as [rtt_ms], offset 0, [success] false and the
    error "ICMP fallback"; the latency is the median of the reply times
    found in the output or, when there is none, the average it reports.  In
    every other case the sample stored is a failure with the error of the
    Aggregator. *)
Theorem icmp_fallback_after_failed_aggregation
    (srv : string) (t samples : Z) (w w1 : World) (ntp_res : NtpResult) :
  query_ntp srv t samples w = (Ok ntp_res, w1) ->
  success ntp_res = false ->
  let cmd := ["ping"; "-n"; str_of_int (Z.max 2 samples);
              "-w"; str_of_int (Z.max 1 t); srv] in
  exists r w2,
    worker srv t samples w = (Ok r, w2) /\
    log w2 = log w1 ++ [EvPing srv (Z.max 2 samples) (Z.max 1 t)] /\
    run_n w2 = S (run_n w1) /\
    match run w1 (run_n w1) cmd with
    | RunCompleted _ stdout stderr _ =>
        match parse_ping_output stdout stderr with
        | Some q =>
            r = mkNtpResult srv q 0 false (Some "ICMP fallback") /\
            let out := String.list_ascii_of_string
                         (stdout ++ String "010" "" ++ stderr)%string in
            let times := map (fun n => inject_Z (Z.of_N n)) (Re.finditer_time 0 out) in
            (times <> [] /\ is_median q times) \/
            (times = [] /\ exists a, Re.search_average out = Some a
                                     /\ q = inject_Z (Z.of_N a))
        | None =>
            r = mkNtpResult srv 0 0 false (Some (Py.or_str (error ntp_res) "NTP failed"))
        end
    | _ => r = mkNtpResult srv 0 0 false (Some (Py.or_str (error ntp_res) "NTP failed"))
    end.
Proof.
  intros Hq Hs cmd. unfold worker, bind. rewrite Hq, Hs.
  unfold _icmp_ping_windows.
  replace (Z.max 1 (Z.max 2 samples)) with (Z.max 2 samples) by lia.
  fold cmd.
  destruct (run w1 (run_n w1) cmd) as [d|e d|rc so se d] eqn:Hr;
    try (eexists _, _; split; [reflexivity|]; repeat split; reflexivity).
  destruct (parse_ping_output so se) as [q|] eqn:Hpp.
  - eexists _, _. split; [reflexivity|]. repeat split.
    unfold parse_ping_output, Py.float_of_int in Hpp. cbv zeta in Hpp.
    destruct (Re.finditer_time 0 _) as [|t0 times] eqn:Ht.
    + right. split; [reflexivity|].
      destruct (Re.search_average _) as [a|]; [|discriminate].
      injection Hpp as <-. exists a. split; reflexivity.
    + left. split; [discriminate|]. apply median_is_median. exact Hpp.
  - eexists _, _. split; [reflexivity|]. repeat split.
Qed.

Lemma icmp_fallback_after_failed_aggregation_witness :
  let cmd := ["ping"; "-n"; str_of_int (Z.max 2 1);
              "-w"; str_of_int (Z.max 1 800); "time.example"] in
  exists r w2,
    worker "time.example" 800 1 Scenario.ping_world = (Ok r, w2) /\
    log w2 = log Scenario.ping_world_after_ntp
             ++ [EvPing "time.example" (Z.max 2 1) (Z.max 1 800)] /\
    run_n w2 = S (run_n Scenario.ping_world_after_ntp) /\
    match run Scenario.ping_world_after_ntp (run_n Scenario.ping_world_after_ntp) cmd with
    | RunCompleted _ stdout stderr _ =>
        match parse_ping_output stdout stderr with
        | Some q =>
            r = mkNtpResult "time.example" q 0 false (Some "ICMP fallback") /\
            let out := String.list_ascii_of_string
                         (stdout ++ String "010" "" ++ stderr)%string in
            let times := map (fun n => inject_Z (Z.of_N n)) (Re.finditer_time 0 out) in
            (times <> [] /\ is_median q times) \/
            (times = [] /\ exists a, Re.search_average out = Some a
                                     /\ q = inject_Z (Z.of_N a))
        | None =>
            r = mkNtpResult "time.example" 0 0 false
                  (Some (Py.or_str (error Scenario.ping_ntp_result) "NTP failed"))
        end
    | _ => r = mkNtpResult "time.example" 0 0 false
                 (Some (Py.or_str (error Scenario.ping_ntp_result) "NTP failed"))
    end.
Proof.
  apply (icmp_fallback_after_failed_aggregation "time.example" 800 1
           Scenario.ping_world Scenario.ping_world_after_ntp Scenario.ping_ntp_result).
  - vm_compute. reflexivity.
  - reflexivity.
Defined.

(** C8 (as stated) fails: asked for one sample, the fallback asks [ping]
    for two echo requests. *)
Lemma icmp_fallback_ping_count_counterexample :
  exists r w',
    worker "time.example" 800 1 Scenario.ping_world = (Ok r, w') /\
    error r = Some "ICMP fallback" /\ success r = false /\ (rtt_ms r == 14)%Q /\
    log w' = [EvPing "time.example" 2 800] /\
    (2 <> 1)%Z.
Proof.
  eexists _, _. split; [vm_compute; reflexivity|].
  repeat split; try (vm_compute; reflexivity). discriminate.
Qed.

(** ** The ClockSetter *)

(** The helper that [set_system_time_utc_via_helper] settles on, if any. *)
Lemma helper_found_cases (inst : Install) (w : World) :
  let helper :=
    if negb (isfile w (argv0_helper inst))
    then (if isfile w (package_helper inst) then package_helper inst
          else argv0_helper inst)
    else argv0_helper inst in
  isfile w helper = isfile w (argv0_helper inst) || isfile w (package_helper inst).
Proof.
  simpl.
  destruct (isfile w (argv0_helper inst)) eqn:E1; simpl; [exact E1|].
  destruct (isfile w (package_helper inst)) eqn:E2; simpl; assumption.
Qed.

(** C9: the requester answers with an error exactly when no helper file is
    found, when the shell-out times out, or when spawning it raises;
    otherwise, whatever return code and output the shell-out ends with, it
    answers success with the message "Elevation invoked (verification
    pending)."  The helper ends with status 0 when [SetSystemTime] reports
    success and with status 2 when it reports failure. *)
Theorem requester_reports_invocation_only (inst : Install) (target : Z) (w : World) :
  (exists ok msg w' helper,
     set_system_time_utc_via_helper inst target w = (Ok (ok, msg), w') /\
     let found := isfile w (argv0_helper inst) || isfile w (package_helper inst) in
     let outcome := run w (run_n w) (elevation_command (python_exe inst) helper target) in
     (found = true -> isfile w helper = true /\
                      (helper = argv0_helper inst \/ helper = package_helper inst)) /\
     (ok = false <->
        found = false \/
        (exists d, outcome = RunTimeout d) \/
        (exists e d, outcome = RunRaises e d)) /\
     (ok = true <->
        found = true /\ exists rc so se d, outcome = RunCompleted rc so se d) /\
     (ok = true -> msg = "Elevation invoked (verification pending).")) /\
  (forall os epoch_ms dt,
     Helper.utcfromtimestamp os (inject_Z epoch_ms / 1000) = Some dt ->
     (Helper.SetSystemTime os (Helper.dt_to_systemtime os dt) <> 0%Z ->
      Helper.main os epoch_ms = 0%Z) /\
     (Helper.SetSystemTime os (Helper.dt_to_systemtime os dt) = 0%Z ->
      Helper.main os epoch_ms = 2%Z)).
Proof.
  split.
  - unfold set_system_time_utc_via_helper.
    pose proof (helper_found_cases inst w) as Hf. cbv zeta in Hf.
    cbn [isfile tell run run_n].
    set (helper := if negb (isfile w (argv0_helper inst)) then _ else _) in *.
    assert (Hh : helper = argv0_helper inst \/ helper = package_helper inst).
    { subst helper. destruct (isfile w (argv0_helper inst)); simpl; [left; reflexivity|].
      destruct (isfile w (package_helper inst)); [right | left]; reflexivity. }
    destruct (isfile w helper) eqn:Hfile; simpl negb; cbv iota.
    + destruct (run w (run_n w) (elevation_command (python_exe inst) helper target))
        as [d|e d|rc so se d] eqn:Hr;
        eexists _, _, _, helper; (split; [reflexivity|]); cbv zeta;
        rewrite <- Hf, Hr; (split; [intros _; split; [exact Hfile | exact Hh]|]).
      * split; [split; [intros _; right; left; eauto | reflexivity]|].
        split; [split; [discriminate | intros [_ (?&?&?&?&?)]; discriminate]|discriminate].
      * split; [split; [intros _; right; right; eauto | reflexivity]|].
        split; [split; [discriminate | intros [_ (?&?&?&?&?)]; discriminate]|discriminate].
      * split; [split; [discriminate | intros [?|[[? ?]|(?&?&?)]]; discriminate]|].
        split; [split; [intros _; split; [reflexivity | eauto] | reflexivity]|reflexivity].
    + eexists _, _, _, helper. split; [reflexivity|]. cbv zeta. rewrite <- Hf.
      split; [discriminate|].
      split; [split; [intros _; left; reflexivity | reflexivity]|].
      split; [split; [discriminate | intros [? _]; discriminate]|discriminate].
  - intros os epoch_ms dt Hdt. unfold Helper.main, Helper.set_system_time_utc.
    rewrite Hdt. split; intros H.
    + destruct (Z.eqb_spec (Helper.SetSystemTime os (Helper.dt_to_systemtime os dt)) 0);
        [contradiction | reflexivity].
    + rewrite H. reflexivity.
Qed.

Lemma requester_reports_invocation_only_witness :
  (exists w',
     set_system_time_utc_via_helper Scenario.install 1691011200250
       Scenario.elevating_world
     = (Ok (true, "Elevation invoked (verification pending)."), w')) /\
  Helper.main Scenario.platform 1691011200250 = 0%Z.
Proof.
  destruct (requester_reports_invocation_only Scenario.install 1691011200250
              Scenario.elevating_world)
    as [(ok & msg & w' & helper & Hrun & _ & _ & Hok & Hmsg) Hhelper].
  cbv zeta in Hok.
  assert (Htrue : ok = true).
  { apply Hok. split; [reflexivity|]. do 4 eexists. reflexivity. }
  split.
  - exists w'. rewrite Hrun, Htrue, (Hmsg Htrue). reflexivity.
  - apply (Hhelper Scenario.platform 1691011200250%Z
             (Helper.mkDatetime 2023 8 2 21 20 0 0) eq_refl).
    vm_compute. discriminate.
Defined.

(** ** The drift decision *)

Lemma requests_app (l1 l2 : list Event) : requests (l1 ++ l2) = requests l1 ++ requests l2.
Proof.
  induction l1 as [|e l1 IH]; simpl; [reflexivity|].
  destruct e; simpl; congruence.
Qed.

(** What the requester adds to the log: its request, then the elevation it
    spawned if a helper was found. *)
Lemma requester_log (inst : Install) (target : Z) (w : World) :
  exists r w' tail,
    set_system_time_utc_via_helper inst target w = (Ok r, w') /\
    log w' = log w ++ EvCorrectionRequest target :: tail /\
    requests tail = [] /\ state w' = state w.
Proof.
  unfold set_system_time_utc_via_helper.
  cbn [isfile tell run run_n].
  set (helper := if negb (isfile w (argv0_helper inst)) then _ else _).
  destruct (isfile w helper); simpl negb; cbv iota.
  - destruct (run w (run_n w) (elevation_command (python_exe inst) helper target));
      eexists _, _, [EvElevate helper target]; (split; [reflexivity|]); simpl;
      rewrite <- app_assoc; repeat split.
  - eexists _, _, []. split; [reflexivity|]. repeat split.
Qed.

(** C2: for every selected sample, either its offset is below the
    threshold in absolute value and nothing is requested, or it is not and
    exactly one correction request is issued, whose target is
    [int((now + offset_ms / 1000) * 1000)], an integer less than one
    millisecond away from [now_ms + offset_ms]. *)
Theorem drift_decision (settings : Settings) (inst : Install)
    (selected : NtpResult) (w : World) :
  exists changed msg w' new,
    _verify_and_apply_time settings inst selected w = (Ok (changed, msg), w') /\
    log w' = log w ++ new /\
    (((Qabs (offset_ms selected) < inject_Z (drift_threshold_ms settings))%Q /\
      new = [] /\ changed = false)
     \/
     ((inject_Z (drift_threshold_ms settings) <= Qabs (offset_ms selected))%Q /\
      exists target,
        requests new = [target] /\
        target = Py.int_of_float ((wall w + offset_ms selected / 1000) * 1000)%Q /\
        (Qabs (inject_Z target - (wall w * 1000 + offset_ms selected)) < 1)%Q)).
Proof.
  unfold _verify_and_apply_time.
  destruct (Py.ltb (Qabs (offset_ms selected)) (inject_Z (drift_threshold_ms settings)))
    eqn:Hlt.
  - apply ltb_lt in Hlt.
    eexists _, _, _, []. split; [reflexivity|]. split; [symmetry; apply app_nil_r|].
    left. repeat split. exact Hlt.
  - apply ltb_ge in Hlt. unfold bind, get.
    set (target := Py.int_of_float ((wall w + offset_ms selected / 1000) * 1000)%Q).
    destruct (requester_log inst target w) as ([ok msg] & w' & tail & Hr & Hlog & Htail & _).
    rewrite Hr. unfold ret.
    eexists _, _, _, _. split; [reflexivity|]. split; [exact Hlog|].
    right. split; [exact Hlt|]. exists target.
    split; [simpl; rewrite Htail; reflexivity|]. split; [reflexivity|].
    assert (E : (wall w * 1000 + offset_ms selected
                 == (wall w + offset_ms selected / 1000) * 1000)%Q) by field.
    rewrite E. apply int_of_float_near.
Qed.

(** With a threshold of 200 ms, an offset of 150 ms requests nothing ... *)
Example drift_150_requests_nothing :
  exists r w',
    _verify_and_apply_time Scenario.default_settings Scenario.install
      (Scenario.sample_with_offset 150) Scenario.elevating_world = (Ok r, w') /\
    fst r = false /\ log w' = [].
Proof. eexists _, _. repeat split. Qed.

(** ... and an offset of 250 ms requests the instant 250 ms after now. *)
Example drift_250_requests_one_correction :
  exists r w',
    _verify_and_apply_time Scenario.default_settings Scenario.install
      (Scenario.sample_with_offset 250) Scenario.elevating_world = (Ok r, w') /\
    fst r = true /\
    requests (log w') = [1691011200250]%Z /\
    (wall Scenario.elevating_world * 1000 + 250 == inject_Z 1691011200250)%Q.
Proof.
  eexists _, _. split; [vm_compute; reflexivity|].
  repeat split; vm_compute; reflexivity.
Qed.

(** ** The SelectionPolicy *)

Lemma choose_loop_probe_each (servers : list string) (t : Z)
    (best : option NtpResult) (w : World) :
  choose_loop servers t best w =
  match probe_each servers t w with
  | (Ok rs, w') => (Ok (foldl keep_best best rs), w')
  | (Raise e, w') => (Raise e, w')
  end.
Proof.
  revert best w. induction servers as [|host servers IH]; intros best w; simpl.
  - reflexivity.
  - unfold bind.
    destruct (query_ntp host t 3 w) as [[r|e] w1]; [|reflexivity].
    assert (H : (if success r
                 then match best with
                      | Some b => if Py.ltb (rtt_ms r) (rtt_ms b)
                                  then choose_loop servers t (Some r)
                                  else choose_loop servers t best
                      | None => choose_loop servers t (Some r)
                      end
                 else choose_loop servers t best) w1
                = choose_loop servers t (keep_best best r) w1).
    { unfold keep_best. destruct (success r); [|reflexivity].
      destruct best as [b|]; [|reflexivity].
      destruct (Py.ltb (rtt_ms r) (rtt_ms b)); reflexivity. }
    rewrite H, IH.
    destruct (probe_each servers t w1) as [[rs|e] w2]; reflexivity.
Qed.

Lemma probe_each_aligned (servers : list string) (t : Z) (w w' : World)
    (rs : list NtpResult) :
  probe_each servers t w = (Ok rs, w') ->
  Forall2 (fun s r => server r = s) servers rs.
Proof.
  revert w rs. induction servers as [|host servers IH]; intros w rs; simpl.
  - intros H. injection H as <- <-. constructor.
  - unfold bind.
    destruct (query_ntp host t 3 w) as [[r|e] w1] eqn:Hq; [|discriminate].
    destruct (probe_each servers t w1) as [[rs'|e] w2] eqn:Hp; [|discriminate].
    intros H. injection H as <- <-. constructor.
    + eapply query_ntp_sample; eauto.
    + eapply IH; eauto.
Qed.

Lemma keep_best_step (pre : list NtpResult) (best : option NtpResult) (r : NtpResult) :
  lowest_rtt_first pre best -> lowest_rtt_first (pre ++ [r]) (keep_best best r).
Proof.
  intros Hb. unfold keep_best.
  assert (Hlast : forall j x, (pre ++ [r]) !! j = Some x ->
            pre !! j = Some x \/ (j = length pre /\ x = r)).
  { intros j x Hx. apply lookup_app_Some in Hx.
    destruct Hx as [Hx | [Hj Hx]]; [left; exact Hx|].
    right. apply list_lookup_singleton_Some in Hx. destruct Hx as [Hx ->].
    split; [lia | reflexivity]. }
  destruct (success r) eqn:Hs.
  - destruct best as [b|].
    + destruct Hb as (i & Hi & Hsb & Hmin & Hfirst).
      assert (Hilt : (i < length pre)%nat) by (eapply lookup_lt_Some; eauto).
      destruct (Py.ltb (rtt_ms r) (rtt_ms b)) eqn:Hlt.
      * apply ltb_lt in Hlt.
        exists (length pre). split.
        { rewrite lookup_app_r by lia. rewrite Nat.sub_diag. reflexivity. }
        split; [exact Hs|]. split.
        { intros j x Hx Hsx. destruct (Hlast _ _ Hx) as [Hp | [_ ->]].
          - apply Qlt_le_weak. eapply Qlt_le_trans; [exact Hlt|]. eapply Hmin; eauto.
          - apply Qle_refl. }
        { intros j x Hj Hx Hsx. destruct (Hlast _ _ Hx) as [Hp | [-> _]]; [|lia].
          eapply Qlt_le_trans; [exact Hlt|]. eapply Hmin; eauto. }
      * apply ltb_ge in Hlt.
        exists i. split; [apply lookup_app_l_Some; exact Hi|].
        split; [exact Hsb|]. split.
        { intros j x Hx Hsx. destruct (Hlast _ _ Hx) as [Hp | [_ ->]].
          - eapply Hmin; eauto.
          - exact Hlt. }
        { intros j x Hj Hx Hsx. destruct (Hlast _ _ Hx) as [Hp | [-> _]]; [|lia].
          eapply Hfirst; eauto. }
    + simpl in Hb. exists (length pre). split.
      { rewrite lookup_app_r by lia. rewrite Nat.sub_diag. reflexivity. }
      split; [exact Hs|]. rewrite Forall_forall in Hb. split.
      { intros j x Hx Hsx. destruct (Hlast _ _ Hx) as [Hp | [_ ->]].
        - apply list_elem_of_lookup_2, Hb in Hp. congruence.
        - apply Qle_refl. }
      { intros j x Hj Hx Hsx. destruct (Hlast _ _ Hx) as [Hp | [-> _]]; [|lia].
        apply list_elem_of_lookup_2, Hb in Hp. congruence. }
  - destruct best as [b|].
    + destruct Hb as (i & Hi & Hsb & Hmin & Hfirst).
      exists i. split; [apply lookup_app_l_Some; exact Hi|].
      split; [exact Hsb|]. split.
      { intros j x Hx Hsx. destruct (Hlast _ _ Hx) as [Hp | [_ ->]]; [|congruence].
        eapply Hmin; eauto. }
      { intros j x Hj Hx Hsx. destruct (Hlast _ _ Hx) as [Hp | [_ ->]]; [|congruence].
        eapply Hfirst; eauto. }
    + simpl in *. apply Forall_app. split; [exact Hb|]. constructor; [exact Hs|constructor].
Qed.

Lemma keep_best_fold (rs pre : list NtpResult) (best : option NtpResult) :
  lowest_rtt_first pre best -> lowest_rtt_first (pre ++ rs) (foldl keep_best best rs).
Proof.
  revert pre best. induction rs as [|r rs IH]; intros pre best Hb; simpl.
  - rewrite app_nil_r. exact Hb.
  - replace (pre ++ r :: rs) with ((pre ++ [r]) ++ rs) by (rewrite <- app_assoc; reflexivity).
    apply IH, keep_best_step, Hb.
Qed.

(** The automatic path returns the choice among the samples of all the
    configured servers. *)
Lemma choose_auto_lowest settings cb (servers : list string) (t : Z)
    (w w1 : World) (rs : list NtpResult) :
  probe_each servers t w = (Ok rs, w1) ->
  exists best w2,
    choose_auto settings cb servers t w = (Ok best, w2) /\ lowest_rtt_first rs best.
Proof.
  intros Hp. unfold choose_auto, bind. rewrite choose_loop_probe_each, Hp.
  pose proof (keep_best_fold rs [] None ltac:(constructor)) as Hbest.
  simpl in Hbest. unfold get.
  destruct (foldl keep_best None rs) as [b|].
  - destruct (auto_select_server settings && _); [destruct cb|];
      eexists _, _; (split; [reflexivity | exact Hbest]).
  - eexists _, _. split; [reflexivity | exact Hbest].
Qed.

(** C6 (amended): with a server list that is not empty, [_choose_server]
    in manual mode (automatic selection off and a preferred server set)
    returns the preferred server's sample when its probe succeeds and goes
    on with the automatic path when it fails; outside manual mode it is the
    automatic path.  The automatic path probes every configured server in
    order and returns the success with the lowest [rtt_ms], the first of
    them in the order of the list on a tie, and nothing when no server
    succeeds. *)
Theorem choose_server_policy (settings : Settings) (cb : bool) (t : Z) (w : World) :
  ntp_servers settings <> [] ->
  let servers := ntp_servers settings in
  let preferred := preferred_server settings in
  let manual := negb (auto_select_server settings) && Py.truthy preferred in
  (manual = true ->
   forall res w1, query_ntp preferred t 3 w = (Ok res, w1) ->
     (success res = true -> _choose_server settings cb t w = (Ok (Some res), w1)) /\
     (success res = false ->
      _choose_server settings cb t w = choose_auto settings cb servers t w1)) /\
  (manual = false -> _choose_server settings cb t w = choose_auto settings cb servers t w) /\
  (forall w0 rs w1, probe_each servers t w0 = (Ok rs, w1) ->
     Forall2 (fun s r => server r = s) servers rs /\
     exists best w2,
       choose_auto settings cb servers t w0 = (Ok best, w2) /\
       lowest_rtt_first rs best /\
       (best = None <-> Forall (fun r => success r = false) rs)).
Proof.
  intros Hne servers preferred manual. unfold _choose_server.
  fold servers. destruct servers as [|s0 servers'] eqn:Hsrv; [contradiction|].
  fold preferred. fold manual.
  split; [|split].
  - intros -> res w1 Hq. unfold bind. rewrite Hq.
    split; intros ->; reflexivity.
  - intros ->. reflexivity.
  - intros w0 rs w1 Hp. split; [eapply probe_each_aligned; eauto|].
    destruct (choose_auto_lowest settings cb _ _ _ _ _ Hp) as (best & w2 & Hc & Hb).
    exists best, w2. split; [exact Hc|]. split; [exact Hb|].
    split.
    + intros ->. exact Hb.
    + intros Hall. destruct best as [b|]; [|reflexivity].
      destruct Hb as (i & Hi & Hsb & _).
      rewrite Forall_forall in Hall.
      apply list_elem_of_lookup_2, Hall in Hi. congruence.
Qed.

Lemma choose_server_policy_witness :
  let settings := Scenario.manual_settings in
  let w := Scenario.two_server_world in
  let servers := ntp_servers settings in
  let preferred := preferred_server settings in
  let manual := negb (auto_select_server settings) && Py.truthy preferred in
  (manual = true ->
   forall res w1, query_ntp preferred 800 3 w = (Ok res, w1) ->
     (success res = true -> _choose_server settings true 800 w = (Ok (Some res), w1)) /\
     (success res = false ->
      _choose_server settings true 800 w = choose_auto settings true servers 800 w1)) /\
  (manual = false ->
   _choose_server settings true 800 w = choose_auto settings true servers 800 w) /\
  (forall w0 rs w1, probe_each servers 800 w0 = (Ok rs, w1) ->
     Forall2 (fun s r => server r = s) servers rs /\
     exists best w2,
       choose_auto settings true servers 800 w0 = (Ok best, w2) /\
       lowest_rtt_first rs best /\
       (best = None <-> Forall (fun r => success r = false) rs)).
Proof.
  apply (choose_server_policy Scenario.manual_settings true 800 Scenario.two_server_world).
  simpl. discriminate.
Defined.

(** In that world the preferred server is down and the choice falls on
    [b.example], whose median round trip is 20 ms against 30 ms. *)
Example manual_mode_falls_back_to_lowest_rtt :
  exists b w',
    _choose_server Scenario.manual_settings true 800 Scenario.two_server_world
      = (Ok (Some b), w') /\
    server b = "b.example" /\ success b = true /\ (rtt_ms b == 20)%Q.
Proof.
  eexists _, _. split; [vm_compute; reflexivity|].
  repeat split; vm_compute; reflexivity.
Qed.

(** C6 (as stated) fails: in manual mode with an empty server list the
    preferred server is never probed, and nothing is returned although a
    probe of it succeeds in that world. *)
Lemma choose_server_empty_list_counterexample :
  auto_select_server Scenario.manual_no_servers = false /\
  preferred_server Scenario.manual_no_servers = "time.example" /\
  (exists res w1,
     query_ntp "time.example" 800 3 Scenario.flaky_world = (Ok res, w1) /\
     success res = true) /\
  _choose_server Scenario.manual_no_servers true 800 Scenario.flaky_world
    = (Ok None, Scenario.flaky_world).
Proof.
  split; [reflexivity|]. split; [reflexivity|]. split; [|reflexivity].
  eexists _, _. split; [vm_compute; reflexivity | reflexivity].
Qed.

(** ** One round of the scheduler *)

Lemma bind_ok {A B} (c : M A) (k : A -> M B) (w w' : World) (a : A) :
  c w = (Ok a, w') -> bind c k w = k a w'.
Proof. intros H. unfold bind. rewrite H. reflexivity. Qed.

Lemma bind_raise {A B} (c : M A) (k : A -> M B) (w w' : World) (e : string) :
  c w = (Raise e, w') -> bind c k w = (Raise e, w').
Proof. intros H. unfold bind. rewrite H. reflexivity. Qed.

Lemma sleep_3 (w : World) : sleep 3 w = (Ok tt, snd (sleep 3 w)) /\ state (snd (sleep 3 w)) = state w.
Proof. split; reflexivity. Qed.

Lemma probe_each_quiet (servers : list string) (t : Z) (w : World) :
  quiet w (snd (probe_each servers t w)).
Proof.
  revert w. induction servers as [|host servers IH]; intros w; simpl.
  - apply quiet_refl.
  - unfold bind.
    pose proof (query_ntp_quiet host t 3 w) as H1.
    destruct (query_ntp host t 3 w) as [[r|e] w1]; simpl in *; [|exact H1].
    pose proof (IH w1) as H2.
    destruct (probe_each servers t w1) as [[rs|e] w2]; simpl in *;
      eapply quiet_trans; eauto.
Qed.

(** Selecting a server leaves [last_success_time] as it was. *)
Lemma choose_server_keeps_success_time settings cb (t : Z) (w : World) :
  last_success_time (state (snd (_choose_server settings cb t w)))
  = last_success_time (state w).
Proof.
  assert (Hauto : forall servers w0,
            last_success_time (state (snd (choose_auto settings cb servers t w0)))
            = last_success_time (state w0)).
  { intros servers w0. unfold choose_auto, bind. rewrite choose_loop_probe_each.
    pose proof (probe_each_quiet servers t w0) as (Hst & _).
    destruct (probe_each servers t w0) as [[rs|e] w1]; simpl in *;
      [|rewrite Hst; reflexivity].
    unfold get. destruct (foldl keep_best None rs) as [b|];
      [|simpl; rewrite Hst; reflexivity].
    destruct (auto_select_server settings && _); [destruct cb|];
      simpl; rewrite Hst; reflexivity. }
  unfold _choose_server.
  destruct (ntp_servers settings) as [|s0 servers]; [reflexivity|].
  destruct (negb (auto_select_server settings) && _); [|apply Hauto].
  unfold bind.
  pose proof (query_ntp_quiet (preferred_server settings) t 3 w) as (Hst & _).
  destruct (query_ntp (preferred_server settings) t 3 w) as [[r|e] w1]; simpl in *;
    [|rewrite Hst; reflexivity].
  destruct (success r); simpl; [rewrite Hst; reflexivity|].
  rewrite Hauto, Hst. reflexivity.
Qed.

(** The drift decision always returns and leaves the shared state alone. *)
Lemma verify_and_apply_returns settings inst (selected : NtpResult) (w : World) :
  exists changed msg w',
    _verify_and_apply_time settings inst selected w = (Ok (changed, msg), w') /\
    state w' = state w.
Proof.
  unfold _verify_and_apply_time.
  destruct (Py.ltb _ _).
  - eexists _, _, _. split; reflexivity.
  - unfold bind, get.
    destruct (requester_log inst
                (Py.int_of_float ((wall w + offset_ms selected / 1000) * 1000)%Q) w)
      as ([ok msg] & w' & tail & Hr & _ & _ & Hst).
    rewrite Hr. eexists _, _, _. split; [reflexivity | exact Hst].
Qed.

(** What [on_selected] does from the world [w1] in which a sample has just
    been selected. *)
Lemma on_selected_cases settings cb1 inst (selected : NtpResult) (w1 : World) :
  let wa := snd (notify_status cb1
                   (set_state (set_last_result selected (state w1)) w1)) in
  exists changed msg wb,
    _verify_and_apply_time settings inst selected wa = (Ok (changed, msg), wb) /\
    (changed = false ->
     exists w2, on_selected settings cb1 inst selected w1 = (Ok TickDone, w2) /\
                success_booked selected w2) /\
    (changed = true ->
     match query_ntp (server selected) (ntp_timeout_ms settings) 2 (snd (sleep 3 wb)) with
     | (Ok recheck, wd) =>
         exists w2, on_selected settings cb1 inst selected w1 = (Ok TickDone, w2) /\
                    success_booked selected w2
     | (Raise e, wd) =>
         on_selected settings cb1 inst selected w1 = (Raise e, wd) /\
         last_success_time (state wd) = last_success_time (state w1)
     end).
Proof.
  intros wa.
  destruct (verify_and_apply_returns settings inst selected wa)
    as (changed & msg & wb & Hv & Hst).
  assert (Hwa : state wa = set_last_result selected (state w1)).
  { subst wa. unfold notify_status. destruct cb1; reflexivity. }
  assert (Hon : on_selected settings cb1 inst selected w1 =
                (if changed
                 then do x <- sleep 3 ;;
                      do recheck <- query_ntp (server selected) (ntp_timeout_ms settings) 2 ;;
                      if success recheck
                         && Py.ltb (Qabs (offset_ms recheck))
                                   (inject_Z (drift_threshold_ms settings))
                      then do y <- mark_success ;; ret TickDone
                      else do y <- mark_success ;; ret TickDone
                 else do y <- mark_success ;; ret TickDone) wb).
  { unfold on_selected, bind at 1 2 3, update_state, modify.
    assert (Hn : notify_status cb1 (set_state (set_last_result selected (state w1)) w1)
                 = (Ok tt, wa)).
    { subst wa. unfold notify_status. destruct cb1; reflexivity. }
    rewrite Hn, Hv. reflexivity. }
  exists changed, msg, wb. split; [exact Hv|]. split.
  - intros ->. rewrite Hon. eexists. split; [reflexivity|].
    unfold success_booked. split; simpl; [reflexivity|].
    rewrite Hst, Hwa. reflexivity.
  - intros ->. rewrite Hon. clear Hon.
    destruct (sleep_3 wb) as [Hs Hsl].
    rewrite (bind_ok _ _ _ _ _ Hs).
    pose proof (query_ntp_quiet (server selected) (ntp_timeout_ms settings) 2
                  (snd (sleep 3 wb))) as (Hq & _).
    destruct (query_ntp (server selected) (ntp_timeout_ms settings) 2 (snd (sleep 3 wb)))
      as [[recheck|e] wd] eqn:Hr; cbn [snd] in Hq.
    + assert (Hwd : state wd = set_last_result selected (state w1)) by congruence.
      rewrite (bind_ok _ _ _ _ _ Hr).
      destruct (success recheck && _);
        (eexists; split; [reflexivity|]); unfold success_booked;
        (split; simpl; [reflexivity|]); rewrite Hwd; reflexivity.
    + rewrite (bind_raise _ _ _ _ _ Hr). split; [reflexivity|].
      assert (Hwd : state wd = set_last_result selected (state w1)) by congruence.
      rewrite Hwd. reflexivity.
Qed.

(** C10 (amended): on every round in which a sample is selected, the
    success is booked before the round ends -- [last_success_time] becomes
    the present time -- when no correction was requested, when the
    escalation itself failed, and when the re-probe after a correction
    returns, be it a failed sample or one whose drift is still above the
    threshold.  When the re-probe raises, the round ends as an "(error)"
    result and [last_success_time] is what it was before the round. *)
Theorem tick_books_success_unless_reprobe_raises
    (settings : Settings) (cb1 cb2 : bool) (inst : Install)
    (w w1 : World) (selected : NtpResult) :
  _choose_server settings cb2 (ntp_timeout_ms settings) w = (Ok (Some selected), w1) ->
  let wa := snd (notify_status cb1
                   (set_state (set_last_result selected (state w1)) w1)) in
  exists changed msg wb,
    _verify_and_apply_time settings inst selected wa = (Ok (changed, msg), wb) /\
    (changed = false ->
     exists w2, tick settings cb1 cb2 inst w = (Ok TickDone, w2) /\
                success_booked selected w2) /\
    (changed = true ->
     match query_ntp (server selected) (ntp_timeout_ms settings) 2 (snd (sleep 3 wb)) with
     | (Ok recheck, wd) =>
         exists w2, tick settings cb1 cb2 inst w = (Ok TickDone, w2) /\
                    success_booked selected w2
     | (Raise e, wd) =>
         exists w2, tick settings cb1 cb2 inst w = (Ok TickDone, w2) /\
                    last_result (state w2) = Some (error_result e) /\
                    last_success_time (state w2) = last_success_time (state w)
     end).
Proof.
  intros Hc wa.
  pose proof (choose_server_keeps_success_time settings cb2 (ntp_timeout_ms settings) w)
    as Hkeep.
  rewrite Hc in Hkeep. cbn [snd] in Hkeep.
  assert (Htick : tick settings cb1 cb2 inst w =
                  try_except (on_selected settings cb1 inst selected)
                    (fun e => do u <- update_state (set_last_result (error_result e)) ;;
                              ret TickDone) w1).
  { unfold tick, try_except, tick_try. rewrite (bind_ok _ _ _ _ _ Hc). reflexivity. }
  destruct (on_selected_cases settings cb1 inst selected w1)
    as (changed & msg & wb & Hv & Hfalse & Htrue).
  exists changed, msg, wb. split; [exact Hv|]. split.
  - intros Hch. destruct (Hfalse Hch) as (w2 & Hon & Hb).
    exists w2. split; [|exact Hb].
    rewrite Htick. unfold try_except. rewrite Hon. reflexivity.
  - intros Hch. specialize (Htrue Hch).
    destruct (query_ntp (server selected) (ntp_timeout_ms settings) 2 (snd (sleep 3 wb)))
      as [[recheck|e] wd].
    + destruct Htrue as (w2 & Hon & Hb).
      exists w2. split; [|exact Hb].
      rewrite Htick. unfold try_except. rewrite Hon. reflexivity.
    + destruct Htrue as [Hon Hsame].
      eexists. split.
      * rewrite Htick. unfold try_except. rewrite Hon. reflexivity.
      * split; [reflexivity|]. simpl. rewrite Hsame. exact Hkeep.
Qed.

Lemma tick_books_success_unless_reprobe_raises_witness :
  let settings := Scenario.one_server in
  let w := Scenario.correcting_world in
  let w1 := Scenario.correcting_world_selected in
  let selected := Scenario.correcting_selected in
  let wa := snd (notify_status true
                   (set_state (set_last_result selected (state w1)) w1)) in
  exists changed msg wb,
    _verify_and_apply_time settings Scenario.install selected wa
      = (Ok (changed, msg), wb) /\
    (changed = false ->
     exists w2, tick settings true true Scenario.install w = (Ok TickDone, w2) /\
                success_booked selected w2) /\
    (changed = true ->
     match query_ntp (server selected) (ntp_timeout_ms settings) 2 (snd (sleep 3 wb)) with
     | (Ok recheck, wd) =>
         exists w2, tick settings true true Scenario.install w = (Ok TickDone, w2) /\
                    success_booked selected w2
     | (Raise e, wd) =>
         exists w2, tick settings true true Scenario.install w = (Ok TickDone, w2) /\
                    last_result (state w2) = Some (error_result e) /\
                    last_success_time (state w2) = last_success_time (state w)
     end).
Proof.
  apply (tick_books_success_unless_reprobe_raises Scenario.one_server true true
           Scenario.install Scenario.correcting_world
           Scenario.correcting_world_selected Scenario.correcting_selected).
  vm_compute. reflexivity.
Defined.

(** On 2 August 2023 the round requests a correction, re-probes and books
    the success at the time the re-probe ended. *)
Example round_books_success_after_correction :
  exists w2,
    tick Scenario.one_server true true Scenario.install Scenario.correcting_world
      = (Ok TickDone, w2) /\
    requests (log w2) <> [] /\
    last_success_time (state w2) = wall w2 /\
    (0 < last_success_time (state w2))%Q.
Proof.
  eexists. split; [vm_compute; reflexivity|].
  split; [vm_compute; discriminate|]. split; vm_compute; reflexivity.
Qed.

(** C10 (as stated) fails: two seconds before the seconds of an NTP
    timestamp overflow 32 bits, the round selects a sample and requests a
    correction; three seconds later the re-probe raises when it packs its
    transmit timestamp, the round ends in the [except] branch, and
    [last_success_time] keeps its old value 0. *)
Lemma tick_leaves_success_time_counterexample :
  exists selected w1 w2,
    _choose_server Scenario.one_server true 800 Scenario.rollover_world
      = (Ok (Some selected), w1) /\
    tick Scenario.one_server true true Scenario.install Scenario.rollover_world
      = (Ok TickDone, w2) /\
    requests (log w2) <> [] /\
    last_result (state w2)
      = Some (error_result "'I' format requires 0 <= number <= 4294967295") /\
    last_success_time (state w2) = last_success_time (state Scenario.rollover_world) /\
    ~ (last_success_time (state w2) == wall w2)%Q.
Proof.
  eexists _, _, _. split; [vm_compute; reflexivity|].
  split; [vm_compute; reflexivity|].
  split; [vm_compute; discriminate|].
  split; [vm_compute; reflexivity|].
  split; [vm_compute; reflexivity|].
  vm_compute. discriminate.
Qed.

(** ** The wait between rounds and cancellation *)

Lemma half_lt (j i : Z) : (inject_Z j / 2 < inject_Z i)%Q <-> (j < 2 * i)%Z.
Proof. unfold Qlt, Qdiv, Qmult, Qinv, inject_Z. simpl. lia. Qed.

Lemma half_succ (slept : Q) (j : Z) :
  (slept == inject_Z j / 2)%Q -> (slept + (1 # 2) == inject_Z (j + 1) / 2)%Q.
Proof.
  intros H. rewrite H. unfold Qeq, Qdiv, Qmult, Qinv, Qplus, inject_Z. simpl. lia.
Qed.

(** The wait loop, [j] half-seconds into an interval of [i] seconds. *)
Lemma wait_loop_polls (fuel : nat) (i j : Z) (slept : Q) (w : World) :
  (slept == inject_Z j / 2)%Q ->
  (Z.to_nat (2 * i - j) < fuel)%nat ->
  exists w' seg,
    wait_loop fuel i slept w = Some w' /\
    log w' = log w ++ seg /\ polled_wait seg /\
    stop_at w' = stop_at w /\ state w' = state w /\
    (perf_ns w <= perf_ns w' <= perf_ns w + 500000000 * Z.max 0 (2 * i - j))%Z /\
    (stop_requested_now w = true -> perf_ns w' = perf_ns w) /\
    (forall s, stop_at w = Some s ->
               (perf_ns w' < Z.max s (perf_ns w) + 500000000)%Z) /\
    (stop_requested_now w' = true \/
     perf_ns w' = (perf_ns w + 500000000 * Z.max 0 (2 * i - j))%Z).
Proof.
  revert j slept w. induction fuel as [|fuel IH]; intros j slept w Hs Hfuel; [lia|].
  cbn [wait_loop]. destruct (Py.ltb slept (inject_Z i)) eqn:Hlt.
  - apply ltb_lt in Hlt. rewrite Hs in Hlt. apply half_lt in Hlt.
    unfold poll_stop. destruct (stop_requested_now w) eqn:Hstop.
    + exists (tell (EvStopPolled true) w), [EvStopPolled true].
      split; [reflexivity|]. split; [reflexivity|]. split; [constructor|].
      split; [reflexivity|]. split; [reflexivity|]. simpl.
      split; [lia|]. split; [reflexivity|]. split; [intros s _; lia|].
      left. exact Hstop.
    + set (w1 := tell (EvStopPolled false) w).
      assert (Hsleep : sleep (1 # 2) w1
                       = (Ok tt, advance 500000000 (1 # 2) (tell (EvSleep (1 # 2)) w1)))
        by reflexivity.
      rewrite Hsleep.
      set (w2 := advance 500000000 (1 # 2) (tell (EvSleep (1 # 2)) w1)).
      destruct (IH (j + 1)%Z (slept + (1 # 2))%Q w2 (half_succ _ _ Hs) ltac:(lia))
        as (w' & seg & Hw & Hlog & Hseg & Hsa & Hst & Hperf & Himm & Hlat & Hexit).
      exists w', (EvStopPolled false :: EvSleep (1 # 2) :: seg).
      split; [exact Hw|].
      split; [rewrite Hlog; simpl; rewrite <- !app_assoc; reflexivity|].
      split; [constructor; exact Hseg|].
      split; [rewrite Hsa; reflexivity|].
      split; [rewrite Hst; reflexivity|].
      change (perf_ns w2) with (perf_ns w + 500000000)%Z in *.
      change (stop_at w2) with (stop_at w) in *.
      split; [lia|]. split; [discriminate|]. split.
      * intros s Hsome. specialize (Hlat s Hsome).
        unfold stop_requested_now in Hstop, Himm.
        change (stop_at w2) with (stop_at w) in Himm.
        change (perf_ns w2) with (perf_ns w + 500000000)%Z in Himm.
        rewrite Hsome in Hstop, Himm.
        destruct (Z.leb_spec s (perf_ns w)); [discriminate|].
        destruct (Z.leb_spec s (perf_ns w + 500000000)); [|lia].
        rewrite (Himm eq_refl). lia.
      * destruct Hexit as [Hex | Hex]; [left; exact Hex | right; lia].
  - apply ltb_ge in Hlt. rewrite Hs in Hlt.
    assert (Hge : (2 * i <= j)%Z).
    { destruct (Z.lt_ge_cases j (2 * i)) as [Hc|Hc]; [|exact Hc].
      apply half_lt in Hc. exfalso. apply (Qlt_not_le _ _ Hc Hlt). }
    exists w, []. split; [reflexivity|]. split; [symmetry; apply app_nil_r|].
    split; [constructor|]. split; [reflexivity|]. split; [reflexivity|].
    split; [lia|]. split; [reflexivity|]. split; [intros s _; lia|].
    right. lia.
Qed.

(** C3 (amended): the wait between rounds -- after a round that selected a
    server or ended in the [except] branch -- lasts [max(15,
    check_interval_sec)] seconds at most and is made of sleeps of 0.5 s, the
    stop flag being read before each of them.  When [stop()] is called at
    the instant [s], the wait ends less than 0.5 s after [s] (or after its
    own start, if [s] is earlier), and if [s] is not later than the end of
    the interval the loop then ends at once, without another round.  While
    automatic synchronisation is switched off, the loop instead sleeps a
    whole second between two readings of the flag. *)
Theorem wait_between_rounds_polls_stop
    (settings : Settings) (cb1 cb2 : bool) (inst : Install) (w : World) :
  let interval := Z.max 15 (check_interval_sec settings) in
  (exists w' seg,
     after_tick settings cb1 w = Some w' /\
     log w' = log (snd (notify_status cb1 w)) ++ seg /\ polled_wait seg /\
     (perf_ns w <= perf_ns w' <= perf_ns w + 1000000000 * interval)%Z /\
     (forall s, stop_at w = Some s ->
        (perf_ns w' < Z.max s (perf_ns w) + 500000000)%Z /\
        ((s <= perf_ns w + 1000000000 * interval)%Z ->
         (s <= perf_ns w')%Z /\
         forall fuel,
           rounds settings cb1 cb2 inst (S fuel) w'
           = Some (tell (EvStopPolled true) w')))) /\
  (auto_sync_enabled settings = false -> stop_requested_now w = false ->
   forall fuel,
     rounds settings cb1 cb2 inst (S fuel) w
     = rounds settings cb1 cb2 inst fuel
         (advance 1000000000 1 (tell (EvSleep 1) (tell (EvStopPolled false) w)))).
Proof.
  intros interval. split.
  2: { intros Hoff Hstop fuel. cbn [rounds]. unfold poll_stop.
       rewrite Hstop, Hoff. reflexivity. }
  unfold after_tick. fold interval.
  set (w0 := snd (notify_status cb1 w)).
  assert (Hn : notify_status cb1 w = (Ok tt, w0)).
  { subst w0. unfold notify_status. destruct cb1; reflexivity. }
  assert (Hw0 : perf_ns w0 = perf_ns w /\ stop_at w0 = stop_at w).
  { subst w0. unfold notify_status. destruct cb1; split; reflexivity. }
  destruct Hw0 as [Hp0 Hs0]. rewrite Hn.
  assert (Hi : (15 <= interval)%Z) by (subst interval; lia).
  destruct (wait_loop_polls (S (Z.to_nat (2 * interval))) interval 0 0 w0)
    as (w' & seg & Hw & Hlog & Hseg & Hsa & _ & Hperf & _ & Hlat & Hexit).
  { reflexivity. }
  { lia. }
  rewrite Hp0 in *. rewrite Hs0 in *.
  replace (500000000 * Z.max 0 (2 * interval - 0))%Z
    with (1000000000 * interval)%Z in * by lia.
  exists w', seg. split; [exact Hw|]. split; [exact Hlog|]. split; [exact Hseg|].
  split; [exact Hperf|].
  intros s Hsome. split; [apply Hlat; exact Hsome|].
  intros Hin.
  assert (Hseen : stop_requested_now w' = true).
  { unfold stop_requested_now in *. rewrite Hsa, Hsome in *.
    destruct Hexit as [Hex | Hex]; [exact Hex|].
    apply Z.leb_le. lia. }
  split.
  - unfold stop_requested_now in Hseen. rewrite Hsa, Hsome in Hseen.
    apply Z.leb_le. exact Hseen.
  - intros fuel. cbn [rounds]. unfold poll_stop. rewrite Hseen. reflexivity.
Qed.

Lemma wait_between_rounds_polls_stop_witness :
  exists w',
    after_tick Scenario.default_settings true Scenario.stop_during_wait_world = Some w' /\
    (1200000000 <= perf_ns w' < 1200000000 + 500000000)%Z /\
    rounds Scenario.default_settings true true Scenario.install 1 w'
      = Some (tell (EvStopPolled true) w').
Proof.
  destruct (wait_between_rounds_polls_stop Scenario.default_settings true true
              Scenario.install Scenario.stop_during_wait_world)
    as [(w' & seg & Hw & _ & _ & _ & Hstop) _].
  destruct (Hstop 1200000000%Z eq_refl) as [Hlat Hin].
  destruct Hin as [Hge Hend]; [vm_compute; discriminate|].
  exists w'. split; [exact Hw|]. split; [|apply Hend].
  split; [exact Hge|].
  change (Z.max 1200000000 (perf_ns Scenario.stop_during_wait_world))
    with 1200000000%Z in Hlat.
  exact Hlat.
Defined.

(** In that wait the flag is seen set at the third reading, 1.5 s in. *)
Example wait_ends_at_next_reading :
  exists w',
    after_tick Scenario.default_settings true Scenario.stop_during_wait_world = Some w' /\
    perf_ns w' = 1500000000%Z /\
    log w' = [EvStatusChanged;
              EvStopPolled false; EvSleep (1 # 2);
              EvStopPolled false; EvSleep (1 # 2);
              EvStopPolled false; EvSleep (1 # 2);
              EvStopPolled true].
Proof.
  eexists. split; [vm_compute; reflexivity|].
  split; vm_compute; reflexivity.
Qed.

(** C3 (as stated) fails: with automatic synchronisation switched off the
    loop sleeps a whole second between two readings of the flag; [stop()]
    called one nanosecond after the first reading ends the loop 999 999 999
    ns later, with no probe made at all. *)
Lemma stop_latency_when_disabled_counterexample :
  exists w',
    _run_loop Scenario.sync_disabled true true Scenario.install 2
      Scenario.stop_early_world = Some w' /\
    stop_at Scenario.stop_early_world = Some 1%Z /\
    running (state w') = false /\
    udp_n w' = 0%nat /\ run_n w' = 0%nat /\
    log w' = [EvStopPolled false; EvSleep 1; EvStopPolled true] /\
    perf_ns w' = 1000000000%Z /\
    ~ (perf_ns w' <= 1 + 500000000)%Z.
Proof.
  eexists. split; [vm_compute; reflexivity|].
  do 6 (split; [vm_compute; reflexivity|]).
  vm_compute. intros H. apply H. reflexivity.
Qed.

(** The wait after "No server available" is one sleep of
    [check_interval_sec] seconds: with [stop()] called one nanosecond into
    the round, the loop ends after the three timed-out probes (2.4 s) and
    the 300 s of that sleep. *)
Example no_server_wait_is_one_sleep :
  exists w',
    _run_loop Scenario.one_server true true Scenario.install 2
      Scenario.stop_early_world = Some w' /\
    last_result (state w') = Some none_result /\
    log w' = [EvStopPolled false; EvStatusChanged; EvSleep 300; EvStopPolled true] /\
    perf_ns w' = 302400000000%Z.
Proof.
  eexists. split; [vm_compute; reflexivity|].
  split; [vm_compute; reflexivity|].
  split; vm_compute; reflexivity.
Qed.

(** * Further properties *)

(** ** The wire format of the request *)

Lemma u8_byte_of_Z (z : Z) : Struct.u8 (Struct.byte_of_Z z) = Z.land z 255.
Proof.
  unfold Struct.u8, Struct.byte_of_Z.
  assert (Hb : (0 <= Z.land z 255 < 256)%Z).
  { change 255%Z with (Z.ones 8). rewrite Z.land_ones by lia.
    apply Z.mod_pos_bound. lia. }
  destruct (Byte.of_N (Z.to_N (Z.land z 255))) as [b|] eqn:E.
  - apply Byte.to_of_N in E. rewrite E. lia.
  - apply Byte.of_N_None_iff in E. lia.
Qed.

Lemma u8_range (b : Byte.byte) : (0 <= Struct.u8 b < 256)%Z.
Proof. unfold Struct.u8. pose proof (Byte.to_N_bounded b). lia. Qed.

(** Packing a word and reading it back. *)
Lemma be32_pack (v : Z) :
  (0 <= v < 2 ^ 32)%Z ->
  Struct.be32 (Struct.byte_of_Z (Z.shiftr v 24)) (Struct.byte_of_Z (Z.shiftr v 16))
              (Struct.byte_of_Z (Z.shiftr v 8)) (Struct.byte_of_Z v) = v.
Proof.
  intros Hv. unfold Struct.be32. rewrite !u8_byte_of_Z.
  change 255%Z with (Z.ones 8).
  assert (Hhi : forall n, (32 <= n)%Z -> Z.testbit v n = false).
  { intros n Hn. destruct (Z.eq_dec v 0) as [->|Hnz]; [apply Z.testbit_0_l|].
    apply Z.bits_above_log2; [lia|]. apply Z.log2_lt_pow2; [lia|].
    pose proof (Z.pow_le_mono_r 2 32 n ltac:(lia) Hn). lia. }
  Z.bitblast.
  match goal with |- context [Z.testbit v ?n] => rewrite (Hhi n) by lia end.
  reflexivity.
Qed.

Lemma word_at_pack_into (buf : list Byte.byte) (off : nat) (v : Z) :
  (0 <= v < 2 ^ 32)%Z -> (off + 4 <= length buf)%nat ->
  exists buf', Struct.pack_into_I buf off v = Some buf' /\
               Struct.word_at buf' off = Some v /\
               length buf' = length buf /\
               take off buf' = take off buf /\
               drop (off + 4) buf' = drop (off + 4) buf.
Proof.
  intros Hv Hoff. unfold Struct.pack_into_I, Struct.pack_I.
  destruct (Z.leb_spec 0 v); [|lia]. destruct (Z.ltb_spec v (2 ^ 32)); [|lia].
  simpl andb. cbv iota.
  eexists. split; [reflexivity|].
  assert (Hl : off = length (take off buf)) by (rewrite length_take; lia).
  split; [|split; [|split]].
  - unfold Struct.word_at. rewrite drop_app_length' by exact Hl.
    simpl. rewrite be32_pack by exact Hv. reflexivity.
  - rewrite !length_app, length_take, length_drop. simpl. lia.
  - rewrite take_app_length' by exact Hl. reflexivity.
  - rewrite drop_app_add' by exact Hl. reflexivity.
Qed.

Lemma word_at_take (buf buf' : list Byte.byte) (off n : nat) :
  (off + 4 <= n)%nat -> take n buf' = take n buf ->
  Struct.word_at buf' off = Struct.word_at buf off.
Proof.
  intros Hn Ht. unfold Struct.word_at.
  assert (H : take 4 (drop off buf') = take 4 (drop off buf)).
  { rewrite !take_drop_commute.
    replace (take (off + 4) buf') with (take (off + 4) (take n buf'))
      by (rewrite take_take; f_equal; lia).
    replace (take (off + 4) buf) with (take (off + 4) (take n buf))
      by (rewrite take_take; f_equal; lia).
    rewrite Ht. reflexivity. }
  destruct (drop off buf') as [|a [|b [|c [|d r]]]],
           (drop off buf) as [|a' [|b' [|c' [|d' r']]]];
    simpl in H; try discriminate; try reflexivity.
  injection H as -> -> -> ->. reflexivity.
Qed.

(** [int(x)] on a float that is not negative: the integer part. *)
Lemma int_of_float_nonneg (x : Q) :
  (0 <= x)%Q ->
  (0 <= Py.int_of_float x)%Z /\
  (inject_Z (Py.int_of_float x) <= x)%Q /\ (x < inject_Z (Py.int_of_float x) + 1)%Q.
Proof.
  intros Hx.
  assert (E : Py.int_of_float x = Qfloor x).
  { destruct x as [n d]. unfold Py.int_of_float, Qfloor. simpl.
    apply Z.quot_div_nonneg; [|lia].
    unfold Qle in Hx. simpl in Hx. lia. }
  rewrite E. split; [|split].
  - change 0%Z with (Qfloor 0). apply Qfloor_resp_le. exact Hx.
  - apply Qfloor_le.
  - pose proof (Qlt_floor x) as H. rewrite inject_Z_plus in H. exact H.
Qed.

(** X2: the two 32-bit parts of a timestamp that is not negative are in
    range (the fraction always fits its field), and re-assembled they give
    a value that is not above the timestamp and less than 2^-32 below it. *)
Theorem timestamp_parts_reassemble (ts : Q) :
  (0 <= ts)%Q ->
  exists s f,
    _timestamp_to_parts ts = (s, f) /\
    (0 <= s)%Z /\ (0 <= f < 2 ^ 32)%Z /\
    (inject_Z s <= ts)%Q /\ (ts < inject_Z s + 1)%Q /\
    (_parts_to_timestamp s f <= ts)%Q /\
    (ts < _parts_to_timestamp s f + 1 / inject_Z (2 ^ 32))%Q.
Proof.
  intros Hts. unfold _timestamp_to_parts.
  destruct (int_of_float_nonneg ts Hts) as (Hs0 & Hs1 & Hs2).
  set (s := Py.int_of_float ts) in *.
  set (x := ((ts - inject_Z s) * inject_Z (2 ^ 32))%Q).
  assert (Hx : (0 <= x)%Q).
  { subst x. apply Qmult_le_0_compat; [lra | discriminate]. }
  destruct (int_of_float_nonneg x Hx) as (Hf0 & Hf1 & Hf2).
  set (f := Py.int_of_float x) in *.
  assert (Hx32 : (x < inject_Z (2 ^ 32))%Q).
  { subst x. change (inject_Z (2 ^ 32)) with 4294967296%Q. lra. }
  exists s, f. split; [reflexivity|]. split; [exact Hs0|].
  split.
  { split; [exact Hf0|]. rewrite Zlt_Qlt. eapply Qle_lt_trans; eassumption. }
  split; [exact Hs1|]. split; [exact Hs2|].
  unfold _parts_to_timestamp. subst x.
  change (inject_Z (2 ^ 32)) with 4294967296%Q in *.
  unfold Qdiv. change (/ 4294967296)%Q with (1 # 4294967296)%Q.
  split; lra.
Qed.

Lemma timestamp_parts_reassemble_witness :
  exists s f,
    _timestamp_to_parts (3900000000 + (1 # 4)) = (s, f) /\
    (0 <= s)%Z /\ (0 <= f < 2 ^ 32)%Z /\
    (inject_Z s <= 3900000000 + (1 # 4))%Q /\ (3900000000 + (1 # 4) < inject_Z s + 1)%Q /\
    (_parts_to_timestamp s f <= 3900000000 + (1 # 4))%Q /\
    (3900000000 + (1 # 4) < _parts_to_timestamp s f + 1 / inject_Z (2 ^ 32))%Q.
Proof.
  apply (timestamp_parts_reassemble (3900000000 + (1 # 4))).
  vm_compute. discriminate.
Defined.

(** X1: while the NTP seconds of the wall clock fit in 32 bits, the request
    is built: 48 bytes, the first holding LI = 0, VN = 4 and Mode = 3, bytes
    1 to 39 zero, and the two parts of the transmit timestamp as big-endian
    words at bytes 40 and 44; and of the network the Transactor asks nothing
    but the answer to that packet. *)
Theorem request_packet_layout (w : World) :
  (0 <= wall w + inject_Z NTP_DELTA)%Q ->
  (wall w + inject_Z NTP_DELTA < inject_Z (2 ^ 32))%Q ->
  exists p s f,
    request_packet (wall w) = Some p /\ length p = 48%nat /\
    (exists b0, p !! 0%nat = Some b0 /\
       Z.shiftr (Struct.u8 b0) 6 = 0%Z /\
       Z.land (Z.shiftr (Struct.u8 b0) 3) 7 = 4%Z /\
       Z.land (Struct.u8 b0) 7 = 3%Z) /\
    (forall i, (1 <= i < 40)%nat -> p !! i = Some Byte.x00) /\
    _timestamp_to_parts (_system_to_ntp_time (wall w)) = (s, f) /\
    Struct.word_at p 40 = Some s /\ Struct.word_at p 44 = Some f /\
    (forall srv t net', (0 <= t)%Z ->
       net' (udp_n w) srv t p = udp w (udp_n w) srv t p ->
       fst (query_ntp_once srv t (with_udp net' w)) = fst (query_ntp_once srv t w)).
Proof.
  intros H0 H32.
  destruct (timestamp_parts_reassemble _ H0) as (s & f & Hparts & Hs0 & Hf & Hs1 & _).
  assert (Hs : (0 <= s < 2 ^ 32)%Z).
  { split; [exact Hs0|]. rewrite Zlt_Qlt. eapply Qle_lt_trans; eassumption. }
  set (p0 := Struct.byte_of_Z (Z.lor (Z.shiftl 0 6) (Z.lor (Z.shiftl 4 3) 3))
             :: replicate 47 Byte.x00).
  destruct (word_at_pack_into p0 40 s Hs ltac:(simpl; lia))
    as (p1 & Hp1 & Hw1 & Hl1 & Ht1 & Hd1).
  change (length p0) with 48%nat in Hl1.
  destruct (word_at_pack_into p1 44 f Hf ltac:(lia))
    as (p2 & Hp2 & Hw2 & Hl2 & Ht2 & Hd2).
  rewrite Hl1 in Hl2.
  assert (Hreq : request_packet (wall w) = Some p2).
  { unfold request_packet. unfold _system_to_ntp_time in Hparts |- *.
    rewrite Hparts. fold p0. rewrite Hp1. exact Hp2. }
  assert (Hlow : take 40 p2 = take 40 p0).
  { rewrite <- Ht1.
    replace (take 40 p2) with (take 40 (take 44 p2)) by (rewrite take_take; reflexivity).
    rewrite Ht2, take_take. reflexivity. }
  exists p2, s, f. split; [exact Hreq|]. split; [exact Hl2|].
  split.
  { exists (Struct.byte_of_Z (Z.lor (Z.shiftl 0 6) (Z.lor (Z.shiftl 4 3) 3))).
    split.
    - rewrite <- (lookup_take_lt p2 40 0) by lia.
      rewrite Hlow. reflexivity.
    - repeat split; reflexivity. }
  split.
  { intros i Hi. rewrite <- (lookup_take_lt p2 40 i) by lia. rewrite Hlow.
    rewrite lookup_take_lt by lia. subst p0.
    rewrite lookup_cons_ne_0 by lia. apply lookup_replicate_2. lia. }
  split; [exact Hparts|].
  split; [rewrite (word_at_take p1 p2 40 44 ltac:(lia) Ht2); exact Hw1|].
  split; [exact Hw2|].
  intros srv t net' Ht Hnet.
  unfold request_packet in Hreq. unfold query_ntp_once.
  cbn [wall with_udp perf_ns udp udp_n].
  destruct (_timestamp_to_parts (_system_to_ntp_time (wall w))) as [s' f'].
  fold p0 in Hreq |- *.
  destruct (Struct.pack_into_I p0 40 s') as [q1|]; [|reflexivity].
  rewrite Hreq.
  destruct (Z.ltb_spec t 0); [lia|].
  rewrite Hnet.
  destruct (udp w (udp_n w) srv t p2) as [msg d1 d2 | data d1 d2]; [reflexivity|].
  cbn [advance next_udp wall perf_ns].
  destruct (length (take 48 data) <? 48)%nat; [reflexivity|].
  destruct (reply_timestamps (take 48 data)) as [[t2 t3]|]; reflexivity.
Qed.

Lemma request_packet_layout_witness :
  exists p,
    request_packet (wall Scenario.distinct_world) = Some p /\ length p = 48%nat /\
    Struct.word_at p 40 = Some 3900000000%Z /\ Struct.word_at p 44 = Some 0%Z.
Proof.
  destruct (request_packet_layout Scenario.distinct_world)
    as (p & s & f & Hp & Hl & _ & _ & Hparts & Hs & Hf & _).
  - vm_compute. discriminate.
  - vm_compute. reflexivity.
  - exists p. split; [exact Hp|]. split; [exact Hl|].
    assert (E : (s, f) = (3900000000, 0)%Z) by (rewrite <- Hparts; vm_compute; reflexivity).
    injection E as -> ->. split; assumption.
Defined.

(** ** The Transactor *)

(** X3: once the NTP seconds of the wall clock no longer fit in 32 bits
    (from 7 February 2036, 06:28:16 UTC), the Transactor raises before
    anything is sent, the Aggregator raises with it, and a round of the
    scheduler with a server to probe ends as an "(error)" result, with no
    exchange made and [last_success_time] kept. *)
Theorem no_probe_after_era_rollover
    (settings : Settings) (cb1 cb2 : bool) (inst : Install) (w : World) :
  (inject_Z (2 ^ 32) <= wall w + inject_Z NTP_DELTA)%Q ->
  let e := "'I' format requires 0 <= number <= 4294967295" in
  (forall srv t, query_ntp_once srv t w = (Raise e, w)) /\
  (forall srv t samples, query_ntp srv t samples w = (Raise e, w)) /\
  (ntp_servers settings <> [] ->
   tick settings cb1 cb2 inst w
   = (Ok TickDone, set_state (set_last_result (error_result e) (state w)) w)).
Proof.
  intros H e.
  assert (Honce : forall srv t, query_ntp_once srv t w = (Raise e, w)).
  { intros srv t. unfold query_ntp_once, _timestamp_to_parts, _system_to_ntp_time.
    assert (H0 : (0 <= wall w + inject_Z NTP_DELTA)%Q).
    { eapply Qle_trans; [|exact H]. discriminate. }
    destruct (int_of_float_nonneg _ H0) as (_ & _ & Hlt).
    set (s := Py.int_of_float (wall w + inject_Z NTP_DELTA)) in *.
    assert (Hs : (2 ^ 32 <= s)%Z).
    { assert (Hq : (inject_Z (2 ^ 32) < inject_Z s + 1)%Q)
        by (eapply Qle_lt_trans; eassumption).
      change 1%Q with (inject_Z 1) in Hq.
      rewrite <- inject_Z_plus in Hq. rewrite <- Zlt_Qlt in Hq. lia. }
    unfold Struct.pack_into_I, Struct.pack_I.
    destruct (Z.ltb_spec s (2 ^ 32)); [lia|]. rewrite andb_false_r. reflexivity. }
  assert (Hq : forall srv t samples, query_ntp srv t samples w = (Raise e, w)).
  { intros srv t samples. unfold query_ntp.
    apply bind_raise.
    destruct (Z.to_nat (Z.max 1 samples)) as [|k] eqn:Hk; [lia|].
    cbn [query_ntp_loop]. apply bind_raise. apply Honce. }
  split; [exact Honce|]. split; [exact Hq|].
  intros Hne. unfold tick, try_except, tick_try.
  assert (Hc : _choose_server settings cb2 (ntp_timeout_ms settings) w = (Raise e, w)).
  { unfold _choose_server. destruct (ntp_servers settings) as [|s0 servers]; [contradiction|].
    assert (Hauto : choose_auto settings cb2 (s0 :: servers) (ntp_timeout_ms settings) w
                    = (Raise e, w)).
    { unfold choose_auto. apply bind_raise. cbn [choose_loop]. apply bind_raise. apply Hq. }
    destruct (negb (auto_select_server settings) && _); [|exact Hauto].
    apply bind_raise. apply Hq. }
  rewrite (bind_raise _ _ _ _ _ Hc). reflexivity.
Qed.

Lemma no_probe_after_era_rollover_witness :
  tick Scenario.one_server true true Scenario.install
    (advance 0 2 Scenario.rollover_world)
  = (Ok TickDone,
     set_state (set_last_result
                  (error_result "'I' format requires 0 <= number <= 4294967295")
                  (state (advance 0 2 Scenario.rollover_world)))
               (advance 0 2 Scenario.rollover_world)).
Proof.
  apply (no_probe_after_era_rollover Scenario.one_server true true Scenario.install
           (advance 0 2 Scenario.rollover_world)).
  - vm_compute. discriminate.
  - simpl. discriminate.
Defined.



(** ** What the Aggregator costs and what it returns *)

Lemma query_ntp_once_one_exchange (srv : string) (t : Z) (w w' : World) (r : NtpResult) :
  query_ntp_once srv t w = (Ok r, w') -> udp_n w' = S (udp_n w).
Proof.
  unfold query_ntp_once.
  repeat case_match; intros Hq; try discriminate; injection Hq as <- <-; reflexivity.
Qed.

Lemma probes_exchanges (k : nat) (srv : string) (t : Z) (w w' : World) (rs : list NtpResult) :
  probes k srv t w = (Ok rs, w') -> udp_n w' = (udp_n w + k)%nat.
Proof.
  revert w rs. induction k as [|k IH]; intros w rs; simpl.
  - intros H. injection H as <- <-. lia.
  - unfold bind.
    destruct (query_ntp_once srv t w) as [[r|e] w1] eqn:E1; [|discriminate].
    destruct (probes k srv t w1) as [[rs'|e] w2] eqn:E2; [|discriminate].
    intros H. injection H as <- <-.
    rewrite (IH _ _ E2), (query_ntp_once_one_exchange _ _ _ _ _ E1). lia.
Qed.

Lemma query_ntp_exchanges (srv : string) (t samples : Z) (w w' : World) (r : NtpResult) :
  query_ntp srv t samples w = (Ok r, w') ->
  udp_n w' = (udp_n w + Z.to_nat (Z.max 1 samples))%nat.
Proof.
  unfold query_ntp, bind. rewrite query_ntp_loop_probes.
  destruct (probes _ srv t w) as [[rs|e] w1] eqn:Hp; [|discriminate].
  apply probes_exchanges in Hp.
  change ([] ++ List.filter success rs) with (List.filter success rs).
  destruct (List.filter success rs) as [|g good].
  - intros H. injection H as <- <-. exact Hp.
  - cbv zeta. repeat case_match; intros Hq; try discriminate.
    injection Hq as <- <-. exact Hp.
Qed.

Lemma is_median_between (m : Q) (l : list Q) :
  is_median m l -> exists a b, In a l /\ In b l /\ (a <= m)%Q /\ (m <= b)%Q.
Proof.
  intros (s & Hp & Hs & Hm). cbv zeta in Hm.
  assert (Hin : forall i x, s !! i = Some x -> In x l).
  { intros i x Hx. apply (Permutation_in x (Permutation_sym Hp)).
    rewrite <- list_elem_of_In. eapply list_elem_of_lookup_2. exact Hx. }
  destruct Hm as [[_ Hm] | [[k Hk] (a & b & Ha & Hb & Hm)]].
  - exists m, m. pose proof (Hin _ _ Hm). repeat split; auto; apply Qle_refl.
  - exists a, b. split; [eapply Hin; eauto|]. split; [eapply Hin; eauto|].
    assert (Hab : (a <= b)%Q).
    { eapply (sorted_lookup_le s _ _ a b Hs Ha Hb). lia. }
    rewrite Hm. unfold Qdiv. change (/ 2)%Q with (1 # 2)%Q. split; lra.
Qed.

(** X5: a run of the Aggregator that returns has made exactly
    [max(1, samples)] exchanges, successes and failures alike; and a
    successful result lies, for the round trip and for the offset, between
    two of the successful samples of the run. *)
Theorem aggregate_cost_and_range
    (srv : string) (t samples : Z) (w w' : World) (r : NtpResult) :
  query_ntp srv t samples w = (Ok r, w') ->
  udp_n w' = (udp_n w + Z.to_nat (Z.max 1 samples))%nat /\
  exists rs,
    probes (Z.to_nat (Z.max 1 samples)) srv t w = (Ok rs, w') /\
    (success r = true ->
     exists lo hi lo' hi',
       In lo rs /\ In hi rs /\ In lo' rs /\ In hi' rs /\
       success lo = true /\ success hi = true /\
       success lo' = true /\ success hi' = true /\
       (rtt_ms lo <= rtt_ms r)%Q /\ (rtt_ms r <= rtt_ms hi)%Q /\
       (offset_ms lo' <= offset_ms r)%Q /\ (offset_ms r <= offset_ms hi')%Q).
Proof.
  intros Hq. split; [eapply query_ntp_exchanges; eauto|].
  revert Hq. unfold query_ntp, bind. rewrite query_ntp_loop_probes.
  destruct (probes _ srv t w) as [[rs|e] w1] eqn:Hp; [|discriminate].
  change ([] ++ List.filter success rs) with (List.filter success rs).
  destruct (List.filter success rs) as [|g good] eqn:Hg.
  - intros H. injection H as <- <-. exists rs. split; [reflexivity|]. discriminate.
  - cbv zeta.
    destruct (Statistics.median (map rtt_ms (g :: good))) as [mr|] eqn:Hmr; [|discriminate].
    destruct (Statistics.median (map offset_ms (g :: good))) as [mo|] eqn:Hmo; [|discriminate].
    intros H. injection H as <- <-. exists rs. split; [reflexivity|]. intros _.
    assert (Hgood : forall x, In x (g :: good) -> In x rs /\ success x = true).
    { intros x Hx. rewrite <- Hg in Hx. apply filter_In in Hx. exact Hx. }
    destruct (is_median_between _ _ (median_is_median _ _ Hmr))
      as (a & b & Ha & Hb & Ham & Hmb).
    destruct (is_median_between _ _ (median_is_median _ _ Hmo))
      as (a' & b' & Ha' & Hb' & Ham' & Hmb').
    apply in_map_iff in Ha, Hb, Ha', Hb'.
    destruct Ha as (lo & <- & Hlo), Hb as (hi & <- & Hhi),
             Ha' as (lo' & <- & Hlo'), Hb' as (hi' & <- & Hhi').
    exists lo, hi, lo', hi'. simpl.
    destruct (Hgood _ Hlo), (Hgood _ Hhi), (Hgood _ Hlo'), (Hgood _ Hhi').
    repeat split; assumption.
Qed.

Lemma aggregate_cost_and_range_witness :
  udp_n Scenario.flaky_after = (udp_n Scenario.flaky_world + Z.to_nat (Z.max 1 3))%nat.
Proof.
  destruct (fst (query_ntp "time.example" 800 3 Scenario.flaky_world)) as [r|e] eqn:E.
  - apply (aggregate_cost_and_range "time.example" 800 3 Scenario.flaky_world
             Scenario.flaky_after r).
    rewrite <- E. vm_compute. reflexivity.
  - vm_compute in E. discriminate E.
Defined.

(** ** The ProbePool: progress and what the dialog shows *)

Lemma progress_reports_snoc (done : Z) (m : nat) (total : Z) :
  progress_reports done (S m) total
  = EvProgress (done + 1) total :: progress_reports (done + 1) m total.
Proof.
  unfold progress_reports. cbn [seq map]. f_equal.
  rewrite <- seq_shift, map_map. apply map_ext. intros k. f_equal. lia.
Qed.

Lemma run_thread_progress servers t samples view (p : Pool) (a : nat) :
  let p' := run_thread servers t samples true view p a in
  if completes servers t samples view a
  then done_count p' = (done_count p + 1)%Z /\
       progress p' = progress p
                     ++ [EvProgress (done_count p + 1) (Z.of_nat (length servers))]
  else done_count p' = done_count p /\ progress p' = progress p.
Proof.
  unfold completes, slot_of, run_thread.
  destruct (servers !! a) as [srv|]; [|split; reflexivity].
  destruct (worker srv t samples (view a)) as [[r|e] w']; split; reflexivity.
Qed.

Lemma pool_progress servers t samples view (order : list nat) (p : Pool) :
  let m := length (List.filter (completes servers t samples view) order) in
  let p' := foldl (run_thread servers t samples true view) p order in
  done_count p' = (done_count p + Z.of_nat m)%Z /\
  progress p' = progress p
                ++ progress_reports (done_count p) m (Z.of_nat (length servers)).
Proof.
  revert p. induction order as [|a order IH]; intros p; cbn [foldl List.filter].
  - simpl. split; [lia | symmetry; apply app_nil_r].
  - destruct (IH (run_thread servers t samples true view p a)) as [Hd Hp].
    cbv zeta in Hd, Hp. rewrite Hd, Hp.
    pose proof (run_thread_progress servers t samples view p a) as Hr.
    cbv zeta in Hr.
    destruct (completes servers t samples view a); destruct Hr as [Hr1 Hr2];
      rewrite Hr1, Hr2.
    + cbn [length]. rewrite progress_reports_snoc.
      split; [lia|]. rewrite <- app_assoc. reflexivity.
    + split; reflexivity.
Qed.

(** X6: with a callback and a positive worker limit, [ping_servers] tells
    the callback [(1, n)], [(2, n)], ..., [(m, n)] in that order, [n] being
    the number of servers and [m] the number of threads that ran to their
    end, whatever the order in which they finish; a thread whose worker
    raised is not counted. *)
Theorem progress_counts_completed_threads
    (servers : list string) (t max_workers samples : Z)
    (view : nat -> World) (order : list nat) :
  (0 < max_workers)%Z ->
  exists out,
    ping_servers servers t max_workers samples true view order
    = Returns (out,
               progress_reports 0
                 (length (List.filter (completes servers t samples view) order))
                 (Z.of_nat (length servers))).
Proof.
  intros Hmw. unfold ping_servers.
  destruct (Z.ltb_spec max_workers 0); [lia|].
  destruct (Z.eqb_spec max_workers 0); [lia|]. simpl andb. cbv iota.
  eexists. f_equal. f_equal.
  destruct (pool_progress servers t samples view order
              (mkPool (replicate (length servers) None) 0 [])) as [_ Hp].
  cbv zeta in Hp. rewrite Hp. reflexivity.
Qed.

Lemma progress_counts_completed_threads_witness :
  exists out,
    ping_servers Scenario.pool_servers 800 8 3 true Scenario.pool_view [2; 0; 1]%nat
    = Returns (out,
               progress_reports 0
                 (length (List.filter
                            (completes Scenario.pool_servers 800 3 Scenario.pool_view)
                            [2; 0; 1]%nat))
                 (Z.of_nat (length Scenario.pool_servers))).
Proof.
  apply (progress_counts_completed_threads Scenario.pool_servers 800 8 3
           Scenario.pool_view [2; 0; 1]%nat).
  lia.
Defined.

Lemma worker_stored (srv : string) (t samples : Z) (w w' : World) (r : NtpResult) :
  worker srv t samples w = (Ok r, w') -> stored_by_worker r.
Proof.
  unfold worker, bind, stored_by_worker.
  destruct (query_ntp srv t samples w) as [[n|e] w1] eqn:Hq; [|discriminate].
  destruct (success n) eqn:Hs.
  - intros H. injection H as <- <-. left. exact Hs.
  - unfold _icmp_ping_windows.
    destruct (run w1 (run_n w1) _) as [d|e d|rc so se d];
      try (intros H; injection H as <- <-; right; right; split; reflexivity).
    destruct (parse_ping_output so se) as [q|] eqn:Hpp;
      intros H; injection H as <- <-.
    + right. left. repeat split. simpl. eapply parse_ping_output_nonneg; eauto.
    + right. right. split; reflexivity.
Qed.

(** X7: of the samples that [ping_servers] returns, the dialog shows as
    "NTP" exactly the successes, and as "ICMP" only samples of the ICMP
    fallback with a latency above zero; a fallback that measured 0 ms is
    shown as "fail" with no latency, like the failures and the "Unknown"
    fill-ins. *)
Theorem payload_shows_how_a_server_was_measured
    (servers : list string) (t max_workers samples : Z) (cb : bool)
    (view : nat -> World) (order : list nat) :
  match ping_servers servers t max_workers samples cb view order with
  | Returns (out, _) =>
      Forall (fun r =>
        (payload_method r = "NTP" <-> success r = true) /\
        (payload_method r = "ICMP" ->
         success r = false /\ error r = Some "ICMP fallback" /\ (0 < rtt_ms r)%Q /\
         payload_rtt r = Some (rtt_ms r)) /\
        (success r = false -> (rtt_ms r == 0)%Q ->
         payload_method r = "fail" /\ payload_rtt r = None)) out
  | _ => True
  end.
Proof.
  assert (Hstored : forall r, stored_by_worker r ->
            (payload_method r = "NTP" <-> success r = true) /\
            (payload_method r = "ICMP" ->
             success r = false /\ error r = Some "ICMP fallback" /\ (0 < rtt_ms r)%Q /\
             payload_rtt r = Some (rtt_ms r)) /\
            (success r = false -> (rtt_ms r == 0)%Q ->
             payload_method r = "fail" /\ payload_rtt r = None)).
  { intros r Hr. unfold payload_method, payload_rtt.
    destruct (success r) eqn:Hs.
    - split; [split; reflexivity|]. split; [discriminate|discriminate].
    - destruct (Py.ltb 0 (rtt_ms r)) eqn:Hlt.
      + apply ltb_lt in Hlt.
        split; [split; discriminate|]. split.
        * intros _. split; [reflexivity|]. split; [|split; [exact Hlt|reflexivity]].
          destruct Hr as [Hr | [(_ & He & _) | (_ & H0)]]; [congruence | exact He |].
          rewrite H0 in Hlt. exfalso. apply (Qlt_irrefl 0 Hlt).
        * intros _ H0. rewrite H0 in Hlt. exfalso. apply (Qlt_irrefl 0 Hlt).
      + split; [split; discriminate|]. split; [discriminate|].
        intros _ _. split; reflexivity. }
  assert (Hunknown : forall s, stored_by_worker (unknown s)).
  { intros s. right. right. split; reflexivity. }
  destruct (Z.lt_trichotomy max_workers 0) as [Hneg | [-> | Hpos]].
  - unfold ping_servers. destruct (Z.ltb_spec max_workers 0); [exact I | lia].
  - unfold ping_servers. simpl.
    destruct (Nat.eqb_spec (length servers) 0) as [H0|]; [|exact I]. simpl.
    set (p0 := mkPool (replicate (length servers) None) 0 []).
    assert (Hlen : length (results p0) = length servers) by apply length_replicate.
    destruct (pool_slots servers t samples cb view order p0 0 Hlen) as [Hl _].
    cbv zeta in Hl. rewrite H0 in Hl. apply nil_length_inv in Hl. rewrite Hl.
    constructor.
  - destruct (ping_servers_slots servers t max_workers samples cb view order Hpos)
      as (out & prog & -> & Hlen & Hslots).
    apply Forall_lookup. intros i x Hx. apply Hstored.
    assert (Hi : (i < length servers)%nat) by (rewrite <- Hlen; eapply lookup_lt_Some; eauto).
    destruct (lookup_lt_is_Some_2 servers i Hi) as [s Hs].
    rewrite (Hslots i s Hs) in Hx. injection Hx as <-.
    destruct (decide (i ∈ order)) as [Hin|Hnin]; [|apply Hunknown].
    unfold slot_of. rewrite Hs.
    destruct (worker s t samples (view i)) as [[r|err] w'] eqn:Hw; [|apply Hunknown].
    simpl. eapply worker_stored; eauto.
Qed.

(** ** The SelectionPolicy: what it costs and what it announces *)

Lemma probe_each_exchanges (servers : list string) (t : Z) (w w' : World)
    (rs : list NtpResult) :
  probe_each servers t w = (Ok rs, w') ->
  udp_n w' = (udp_n w + 3 * length servers)%nat.
Proof.
  revert w rs. induction servers as [|host servers IH]; intros w rs; simpl.
  - intros H. injection H as <- <-. lia.
  - unfold bind.
    destruct (query_ntp host t 3 w) as [[r|e] w1] eqn:Hq; [|discriminate].
    destruct (probe_each servers t w1) as [[rs'|e] w2] eqn:Hp; [|discriminate].
    intros H. injection H as <- <-.
    rewrite (IH _ _ Hp), (query_ntp_exchanges _ _ _ _ _ _ Hq).
    change (Z.to_nat (Z.max 1 3)) with 3%nat. lia.
Qed.

(** What the automatic path leaves behind: the exchanges of all the
    servers, and the announcement of a best server that is new. *)
Lemma choose_auto_effects settings cb (servers : list string) (t : Z)
    (w w' : World) (best : option NtpResult) :
  choose_auto settings cb servers t w = (Ok best, w') ->
  udp_n w' = (udp_n w + 3 * length servers)%nat /\
  let announced :=
    match best with
    | Some b => auto_select_server settings
                && negb (String.eqb (server b) (last_best_server (state w)))
    | None => false
    end in
  state w' = (if announced
              then set_last_best_server (from_option server "" best) (state w)
              else state w) /\
  log w' = log w ++
           (if announced && cb
            then match best with
                 | Some b => [EvBestServerChanged (server b) (rtt_ms b)]
                 | None => []
                 end
            else []).
Proof.
  unfold choose_auto, bind. rewrite choose_loop_probe_each.
  pose proof (probe_each_quiet servers t w) as (Hst & Hlog & _).
  destruct (probe_each servers t w) as [[rs|e] w1] eqn:Hp; [|discriminate].
  apply probe_each_exchanges in Hp. cbn [snd] in Hst, Hlog. unfold get.
  destruct (foldl keep_best None rs) as [b|].
  - rewrite Hst.
    destruct (auto_select_server settings
              && negb (String.eqb (server b) (last_best_server (state w)))) eqn:Ha.
    + destruct cb; intros H; injection H as <- <-; cbn; rewrite ?Ha;
        (split; [exact Hp|]); rewrite ?Hst, ?Hlog, ?app_nil_r; split; reflexivity.
    + intros H. injection H as <- <-. split; [exact Hp|]. cbn. rewrite Ha.
      split; [exact Hst|]. rewrite Hlog, app_nil_r. reflexivity.
  - intros H. injection H as <- <-. split; [exact Hp|]. cbn.
    split; [exact Hst|]. rewrite Hlog, app_nil_r. reflexivity.
Qed.

(** X8: the automatic path always makes three exchanges with every
    configured server, also after a good sample has been found; manual mode
    makes three exchanges with the preferred server and stops there when
    they give a success, and otherwise goes through all the servers as
    well. *)
Theorem selection_cost (settings : Settings) (cb : bool) (t : Z)
    (w w' : World) (sel : option NtpResult) :
  _choose_server settings cb t w = (Ok sel, w') ->
  let n := length (ntp_servers settings) in
  let manual := negb (auto_select_server settings)
                && Py.truthy (preferred_server settings) in
  (n = 0%nat -> sel = None /\ w' = w) /\
  (n <> 0%nat -> manual = false -> udp_n w' = (udp_n w + 3 * n)%nat) /\
  (n <> 0%nat -> manual = true ->
   (exists r, sel = Some r /\ success r = true /\
              server r = preferred_server settings /\
              udp_n w' = (udp_n w + 3)%nat) \/
   udp_n w' = (udp_n w + 3 + 3 * n)%nat).
Proof.
  intros Hc n manual. subst n manual. unfold _choose_server in Hc.
  destruct (ntp_servers settings) as [|s0 servers] eqn:Hs.
  - injection Hc as <- <-. split; [auto|]. split; intros H; contradiction.
  - split; [discriminate|].
    destruct (negb (auto_select_server settings) && Py.truthy (preferred_server settings)).
    + split; [discriminate|]. intros _ _. revert Hc. unfold bind.
      destruct (query_ntp (preferred_server settings) t 3 w) as [[r|e] w1] eqn:Hq;
        [|discriminate].
      pose proof (query_ntp_exchanges _ _ _ _ _ _ Hq) as Hn.
      change (Z.to_nat (Z.max 1 3)) with 3%nat in Hn.
      destruct (success r) eqn:Hsr.
      * intros H. injection H as <- <-. left. exists r.
        split; [reflexivity|]. split; [exact Hsr|].
        split; [eapply query_ntp_sample; eauto | exact Hn].
      * intros H. apply choose_auto_effects in H. destruct H as [H _].
        right. rewrite H, Hn. reflexivity.
    + split; [|discriminate]. intros _ _.
      apply choose_auto_effects in Hc. destruct Hc as [H _]. exact H.
Qed.

Lemma selection_cost_witness :
  exists sel w',
    _choose_server Scenario.manual_settings true 800 Scenario.two_server_world
      = (Ok sel, w') /\
    udp_n w' = 9%nat.
Proof.
  destruct (_choose_server Scenario.manual_settings true 800 Scenario.two_server_world)
    as [[sel|e] w'] eqn:E.
  - exists sel, w'. split; [reflexivity|].
    destruct (selection_cost Scenario.manual_settings true 800
                Scenario.two_server_world w' sel E) as (_ & _ & Hm).
    destruct (Hm ltac:(discriminate) eq_refl) as [(r & -> & Hs & Hsrv & _) | Hn].
    + exfalso. vm_compute in E. injection E as E _. rewrite <- E in Hsrv.
      vm_compute in Hsrv. discriminate Hsrv.
    + exact Hn.
  - vm_compute in E. discriminate E.
Defined.

(** X9: a selection announces a best server only in automatic mode and
    only when it differs from the one remembered, which it then replaces;
    when the same server wins again -- and always in manual mode -- nothing
    is announced and the state is left as it was. *)
Theorem best_server_announced_once (settings : Settings) (cb : bool) (t : Z)
    (w w' : World) (sel : option NtpResult) :
  _choose_server settings cb t w = (Ok sel, w') ->
  (auto_select_server settings = false -> state w' = state w /\ log w' = log w) /\
  (forall b, sel = Some b -> server b = last_best_server (state w) ->
             state w' = state w /\ log w' = log w) /\
  (forall b, auto_select_server settings = true -> sel = Some b ->
             server b <> last_best_server (state w) ->
             last_best_server (state w') = server b /\
             log w' = log w ++ (if cb then [EvBestServerChanged (server b) (rtt_ms b)]
                                else [])).
Proof.
  intros Hc.
  assert (Hauto : forall w0 w1 best,
            choose_auto settings cb (ntp_servers settings) t w0 = (Ok best, w1) ->
            (auto_select_server settings = false -> state w1 = state w0 /\ log w1 = log w0) /\
            (forall b, best = Some b -> server b = last_best_server (state w0) ->
                       state w1 = state w0 /\ log w1 = log w0) /\
            (forall b, auto_select_server settings = true -> best = Some b ->
                       server b <> last_best_server (state w0) ->
                       last_best_server (state w1) = server b /\
                       log w1 = log w0 ++ (if cb then [EvBestServerChanged (server b) (rtt_ms b)]
                                           else []))).
  { intros w0 w1 best H. apply choose_auto_effects in H.
    destruct H as (_ & Hst & Hlog). cbv zeta in Hst, Hlog.
    split; [|split].
    - intros Hoff. rewrite Hoff in *. destruct best; simpl in *;
        rewrite Hst, Hlog, ?app_nil_r; split; reflexivity.
    - intros b -> Hb. rewrite Hb, String.eqb_refl, andb_false_r in *. simpl in *.
      rewrite Hst, Hlog, app_nil_r. split; reflexivity.
    - intros b Hon -> Hb. rewrite Hon in *.
      destruct (String.eqb_spec (server b) (last_best_server (state w0))) as [E|_];
        [contradiction|].
      simpl in *. rewrite Hst, Hlog. split; reflexivity. }
  unfold _choose_server in Hc.
  destruct (ntp_servers settings) as [|s0 servers] eqn:Hs.
  { injection Hc as <- <-. split; [auto|]. split; [auto|]. discriminate. }
  destruct (negb (auto_select_server settings) && Py.truthy (preferred_server settings))
    eqn:Hm; [|apply Hauto; exact Hc].
  revert Hc. unfold bind.
  pose proof (query_ntp_quiet (preferred_server settings) t 3 w) as (Hst & Hlog & _).
  destruct (query_ntp (preferred_server settings) t 3 w) as [[r|e] w1]; [|discriminate].
  cbn [snd] in Hst, Hlog.
  destruct (success r).
  - intros H. injection H as <- <-.
    apply andb_true_iff in Hm. destruct Hm as [Hoff _]. apply negb_true_iff in Hoff.
    split; [auto|]. split; [auto|]. intros b Hon. congruence.
  - intros H. apply Hauto in H. rewrite Hst, Hlog in H. exact H.
Qed.

Lemma best_server_announced_once_witness :
  exists sel w',
    _choose_server Scenario.one_server true 800 Scenario.correcting_world = (Ok sel, w') /\
    log w' = [EvBestServerChanged "a.example" (rtt_ms Scenario.correcting_selected)] /\
    last_best_server (state w') = "a.example".
Proof.
  destruct (best_server_announced_once Scenario.one_server true 800
              Scenario.correcting_world Scenario.correcting_world_selected
              (Some Scenario.correcting_selected))
    as (_ & _ & Hnew).
  - vm_compute. reflexivity.
  - destruct (Hnew Scenario.correcting_selected eq_refl eq_refl) as [Hb Hlog].
    + vm_compute. discriminate.
    + exists (Some Scenario.correcting_selected), Scenario.correcting_world_selected.
      split; [vm_compute; reflexivity|]. split; [exact Hlog | exact Hb].
Defined.

(** ** Rounds and the loop around them *)

(** A server that is selected has answered. *)
Lemma choose_server_selects_success settings cb (t : Z) (w w' : World)
    (r : NtpResult) :
  _choose_server settings cb t w = (Ok (Some r), w') -> success r = true.
Proof.
  assert (Hauto : forall w0 w1,
            choose_auto settings cb (ntp_servers settings) t w0 = (Ok (Some r), w1) ->
            success r = true).
  { intros w0 w1 H.
    destruct (probe_each (ntp_servers settings) t w0) as [[rs|e] wp] eqn:Hp.
    - destruct (choose_auto_lowest settings cb _ _ _ _ _ Hp) as (best & w2 & Hc & Hl).
      rewrite Hc in H. injection H as -> _.
      destruct Hl as (i & _ & Hs & _). exact Hs.
    - unfold choose_auto, bind in H. rewrite choose_loop_probe_each, Hp in H.
      discriminate H. }
  unfold _choose_server.
  destruct (ntp_servers settings) as [|s0 servers] eqn:Hs; [discriminate|].
  rewrite <- Hs in Hauto.
  destruct (negb (auto_select_server settings) && Py.truthy (preferred_server settings));
    [|rewrite <- Hs; apply Hauto].
  unfold bind.
  destruct (query_ntp (preferred_server settings) t 3 w) as [[res|e] w1]; [|discriminate].
  destruct (success res) eqn:Hres.
  - intros H. injection H as <- _. exact Hres.
  - rewrite <- Hs. apply Hauto.
Qed.

Lemma ns_of_whole_seconds (i : Z) :
  ns_of_seconds (inject_Z i) = (1000000000 * i)%Z.
Proof.
  unfold ns_of_seconds. rewrite <- inject_Z_mult, Qfloor_Z. lia.
Qed.

(** X10: whatever the network and the helper do, a round ends without an
    exception and leaves a result in [last_result]: the "(none)" result when
    no server was selected, the "(error)" result with the text of the
    exception that was caught, or the selected sample, which is a success
    and comes with [last_success_time] set to the present time. *)
Theorem round_always_publishes (settings : Settings) (cb1 cb2 : bool)
    (inst : Install) (w : World) :
  exists x w' r,
    tick settings cb1 cb2 inst w = (Ok x, w') /\
    last_result (state w') = Some r /\
    ((x = TickContinue /\ r = none_result) \/
     (x = TickDone /\ exists e, r = error_result e) \/
     (x = TickDone /\ success r = true /\ last_success_time (state w') = wall w')).
Proof.
  unfold tick, try_except, tick_try, bind.
  destruct (_choose_server settings cb2 (ntp_timeout_ms settings) w)
    as [[[sel|]|e] w1] eqn:Hc.
  - apply choose_server_selects_success in Hc.
    destruct (on_selected_cases settings cb1 inst sel w1)
      as (changed & msg & wb & _ & Hf & Ht).
    destruct changed.
    + specialize (Ht eq_refl).
      destruct (query_ntp (server sel) (ntp_timeout_ms settings) 2 (snd (sleep 3 wb)))
        as [[recheck|e] wd].
      * destruct Ht as (w2 & -> & Hb1 & Hb2).
        exists TickDone, w2, sel. split; [reflexivity|]. split; [exact Hb2|].
        right. right. auto.
      * destruct Ht as [-> _].
        eexists TickDone, _, (error_result e).
        split; [reflexivity|]. split; [reflexivity|]. right. left. eauto.
    + destruct (Hf eq_refl) as (w2 & -> & Hb1 & Hb2).
      exists TickDone, w2, sel. split; [reflexivity|]. split; [exact Hb2|].
      right. right. auto.
  - unfold on_no_server, bind, update_state, modify, notify_status, sleep.
    destruct cb1; cbn -[Py.ltb];
      destruct (Py.ltb (inject_Z (check_interval_sec settings)) 0);
      (eexists _, _, _; split; [reflexivity|]; split; [reflexivity|]);
      solve [left; auto | right; left; eauto].
  - eexists TickDone, _, (error_result e).
    split; [reflexivity|]. split; [reflexivity|]. right. left. eauto.
Qed.

(** X11: when no server is selected, the round sleeps
    [check_interval_sec] seconds in one piece -- whatever its length, and
    without looking at the stop flag -- and the loop goes on to its next
    round without the polled wait; a negative interval makes that sleep
    raise, and the round ends with the "(error)" result instead. *)
Theorem round_without_server (settings : Settings) (cb1 cb2 : bool)
    (inst : Install) (w w1 : World) :
  _choose_server settings cb2 (ntp_timeout_ms settings) w = (Ok None, w1) ->
  let i := check_interval_sec settings in
  let status := if cb1 then [EvStatusChanged] else [] in
  exists w',
    last_success_time (state w') = last_success_time (state w) /\
    if (i <? 0)%Z
    then tick settings cb1 cb2 inst w = (Ok TickDone, w') /\
         last_result (state w')
           = Some (error_result "sleep length must be non-negative") /\
         log w' = log w1 ++ status /\ perf_ns w' = perf_ns w1
    else tick settings cb1 cb2 inst w = (Ok TickContinue, w') /\
         last_result (state w') = Some none_result /\
         log w' = log w1 ++ status ++ [EvSleep (inject_Z i)] /\
         perf_ns w' = (perf_ns w1 + 1000000000 * i)%Z.
Proof.
  intros Hc i status. subst i status.
  pose proof (choose_server_keeps_success_time settings cb2 (ntp_timeout_ms settings) w)
    as Hk. rewrite Hc in Hk. cbn [snd] in Hk.
  unfold tick, try_except, tick_try, bind. rewrite Hc.
  unfold on_no_server, bind, update_state, modify, notify_status, sleep.
  assert (Hlt : Py.ltb (inject_Z (check_interval_sec settings)) 0
                = (check_interval_sec settings <? 0)%Z).
  { destruct (Z.ltb_spec (check_interval_sec settings) 0) as [Hn|Hn].
    - apply ltb_lt. change 0%Q with (inject_Z 0). rewrite <- Zlt_Qlt. exact Hn.
    - apply ltb_ge. change 0%Q with (inject_Z 0). rewrite <- Zle_Qle. exact Hn. }
  destruct cb1; cbn -[Py.ltb ns_of_seconds]; rewrite Hlt;
    destruct (check_interval_sec settings <? 0)%Z;
    (eexists; split; [|split; [reflexivity|]]);
    cbn -[ns_of_seconds]; rewrite ?ns_of_whole_seconds, ?app_nil_r, <- ?app_assoc;
    try exact Hk; repeat split; reflexivity.
Qed.

Lemma round_without_server_witness :
  exists w',
    tick Scenario.manual_no_servers true true Scenario.install
      Scenario.mute_world = (Ok TickContinue, w') /\
    perf_ns w' = (perf_ns Scenario.mute_world
                  + 1000000000 * check_interval_sec Scenario.manual_no_servers)%Z.
Proof.
  destruct (round_without_server Scenario.manual_no_servers true true Scenario.install
              Scenario.mute_world Scenario.mute_world)
    as (w' & _ & H).
  - vm_compute. reflexivity.
  - change (check_interval_sec Scenario.manual_no_servers <? 0)%Z with false in H.
    destruct H as (Ht & _ & _ & Hp). exists w'. split; [exact Ht | exact Hp].
Defined.

Lemma rounds_end_on_stop settings cb1 cb2 inst (fuel : nat) (w w' : World) :
  rounds settings cb1 cb2 inst fuel w = Some w' ->
  stop_requested_now w' = true /\
  exists before, log w' = before ++ [EvStopPolled true].
Proof.
  revert w. induction fuel as [|fuel IH]; intros w; cbn [rounds]; [discriminate|].
  unfold poll_stop. destruct (stop_requested_now w) eqn:Hstop.
  - intros H. injection H as <-. split; [exact Hstop|]. eexists. reflexivity.
  - destruct (negb (auto_sync_enabled settings)).
    + destruct (sleep 1 _) as [r w1]. apply IH.
    + destruct (tick settings cb1 cb2 inst _) as [[[|]|e] w1]; try apply IH;
        (destruct (after_tick settings cb1 w1) as [w2|]; [apply IH | discriminate]).
Qed.

(** X12: the loop of the engine comes to its end in one way only, by
    reading the stop flag set at the head of a round: that reading is the
    last thing it does, no exception of a round ends it, and it leaves
    [running] cleared.  When [stop()] was called before the loop starts, it
    ends at once, without a probe and without a sleep. *)
Theorem run_loop_ends_on_stop_only (settings : Settings) (cb1 cb2 : bool)
    (inst : Install) (fuel : nat) (w : World) :
  (forall w', _run_loop settings cb1 cb2 inst fuel w = Some w' ->
     running (state w') = false /\ stop_requested_now w' = true /\
     exists before, log w' = before ++ [EvStopPolled true]) /\
  (stop_requested_now w = true ->
   exists w', _run_loop settings cb1 cb2 inst (S fuel) w = Some w' /\
     log w' = log w ++ [EvStopPolled true] /\
     udp_n w' = udp_n w /\ perf_ns w' = perf_ns w /\
     state w' = set_running false (state w)).
Proof.
  split.
  - intros w'. unfold _run_loop.
    destruct (rounds settings cb1 cb2 inst fuel _) as [w2|] eqn:Hr; [|discriminate].
    intros H. injection H as <-.
    apply rounds_end_on_stop in Hr. destruct Hr as [Hs Hl].
    split; [reflexivity|]. split; [exact Hs | exact Hl].
  - intros Hstop. unfold _run_loop. cbn [rounds]. unfold poll_stop.
    change (stop_requested_now (set_state (set_running true (state w)) w))
      with (stop_requested_now w).
    rewrite Hstop. eexists. split; [reflexivity|].
    repeat split; reflexivity.
Qed.

(** X13: when [stop()] is not called before it is over, the wait after a
    round lasts [max 15 check_interval_sec] seconds to the nanosecond: an
    interval configured below 15 s is raised to 15 s. *)
Theorem wait_lasts_the_floored_interval (settings : Settings) (cb1 : bool)
    (w : World) :
  let interval := Z.max 15 (check_interval_sec settings) in
  (forall s, stop_at w = Some s -> (perf_ns w + 1000000000 * interval <= s)%Z) ->
  exists w',
    after_tick settings cb1 w = Some w' /\
    perf_ns w' = (perf_ns w + 1000000000 * interval)%Z /\
    state w' = state w.
Proof.
  intros interval Hlate. unfold after_tick.
  set (w1 := snd (notify_status cb1 w)).
  assert (Hw1 : notify_status cb1 w = (fst (notify_status cb1 w), w1))
    by (subst w1; destruct (notify_status cb1 w); reflexivity).
  rewrite Hw1.
  assert (Hsame : perf_ns w1 = perf_ns w /\ stop_at w1 = stop_at w /\ state w1 = state w)
    by (subst w1; unfold notify_status; destruct cb1; repeat split; reflexivity).
  destruct Hsame as (Hp & Hsa & Hst).
  fold interval.
  destruct (wait_loop_polls (S (Z.to_nat (2 * interval))) interval 0 0 w1)
    as (w' & seg & Hw & _ & _ & Hsa' & Hst' & Hperf & _ & _ & Hexit).
  { reflexivity. }
  { lia. }
  exists w'. split; [exact Hw|]. split; [|congruence].
  assert (Hi : (15 <= interval)%Z) by (subst interval; lia).
  destruct Hexit as [Hstop | Hfull]; [|lia].
  unfold stop_requested_now in Hstop. rewrite Hsa', Hsa in Hstop.
  destruct (stop_at w) as [s|] eqn:Hs; [|discriminate].
  specialize (Hlate s eq_refl). apply Z.leb_le in Hstop. lia.
Qed.

Lemma wait_lasts_the_floored_interval_witness :
  exists w',
    after_tick (mkSettings true 5 200 [] 800 true "") true Scenario.mute_world = Some w' /\
    perf_ns w' = 15000000000%Z.
Proof.
  destruct (wait_lasts_the_floored_interval (mkSettings true 5 200 [] 800 true "") true
              Scenario.mute_world) as (w' & Hw & Hp & _).
  - intros s Hs. vm_compute in Hs. discriminate Hs.
  - exists w'. split; [exact Hw | exact Hp].
Defined.

(** ** "Sync now" *)

(** Deciding on the drift sends nothing to a server. *)
Lemma verify_and_apply_no_exchange settings inst (selected : NtpResult) (w : World) :
  udp_n (snd (_verify_and_apply_time settings inst selected w)) = udp_n w.
Proof.
  unfold _verify_and_apply_time.
  destruct (Py.ltb _ _); [reflexivity|].
  unfold bind, get, set_system_time_utc_via_helper.
  repeat case_match; simplify_eq; reflexivity.
Qed.

(** X14: "Sync now" never raises.  When a server is selected it publishes
    the sample, books the success at the present time and hands the message
    of the drift decision to the notification -- whatever became of the
    correction, and without probing the server again; the tray then shows
    "connected".  When no server is selected it publishes "All servers
    failed" and notifies nothing, and an exception raised by the probes is
    published as "(error)" and notified as a failure; in both cases
    [last_success_time] stays as it was. *)
Theorem sync_now_outcome (settings : Settings) (inst : Install) (ttl : Z) (w : World) :
  match _choose_server settings true (ntp_timeout_ms settings) w with
  | (Ok (Some res), w1) =>
      exists msg w',
        sync_now settings inst w = (Ok (NoticeApplied msg), w') /\
        success_booked res w' /\ udp_n w' = udp_n w1 /\
        ((0 < wall w')%Q -> (0 < ttl)%Z -> _is_connected ttl w' = true)
  | (Ok None, w1) =>
      exists w',
        sync_now settings inst w = (Ok NoNotice, w') /\
        last_result (state w')
          = Some (mkNtpResult "(none)" 0 0 false (Some "All servers failed")) /\
        last_success_time (state w') = last_success_time (state w) /\
        log w' = log w1 ++ [EvStatusChanged] /\ perf_ns w' = perf_ns w1
  | (Raise e, w1) =>
      exists w',
        sync_now settings inst w = (Ok (NoticeFailed e), w') /\
        last_result (state w') = Some (error_result e) /\
        last_success_time (state w') = last_success_time (state w)
  end.
Proof.
  pose proof (choose_server_keeps_success_time settings true (ntp_timeout_ms settings) w)
    as Hk.
  unfold sync_now, try_except, bind.
  destruct (_choose_server settings true (ntp_timeout_ms settings) w)
    as [[[res|]|e] w1]; cbn [snd] in Hk.
  - unfold update_state, modify.
    set (wa := tell EvStatusChanged (set_state (set_last_result res (state w1)) w1)).
    pose proof (verify_and_apply_no_exchange settings inst res wa) as Hn.
    destruct (verify_and_apply_returns settings inst res wa)
      as (changed & msg & wb & Hv & Hst).
    rewrite Hv in Hn |- *. cbn [snd] in Hn.
    assert (Hbook : forall wc, state wc = state wb -> udp_n wc = udp_n wb ->
              exists w',
                (let (y, w2) := mark_success wc in
                 match y with
                 | Ok _ => (Ok (NoticeApplied msg), tell EvStatusChanged w2)
                 | Raise e => (Raise e, w2)
                 end) = (Ok (NoticeApplied msg), w') /\
                success_booked res w' /\ udp_n w' = udp_n w1 /\
                ((0 < wall w')%Q -> (0 < ttl)%Z -> _is_connected ttl w' = true)).
    { intros wc Hc Hu. eexists. split; [reflexivity|].
      split; [split; cbn; [reflexivity | rewrite Hc, Hst; reflexivity]|].
      split; [cbn; rewrite Hu, Hn; reflexivity|].
      intros Hw Ht. unfold _is_connected. cbn.
      assert (H0 : Py.ltb 0 (wall wc) = true) by (apply ltb_lt; exact Hw).
      rewrite H0. cbn. apply ltb_lt.
      assert (wall wc - wall wc == 0)%Q as -> by ring.
      change 0%Q with (inject_Z 0). rewrite <- Zlt_Qlt. exact Ht. }
    exists msg. destruct changed.
    + destruct (Hbook (snd (sleep 2 wb)) eq_refl eq_refl) as (w' & Hw' & Hrest).
      exists w'. split; [|exact Hrest].
      change (sleep 2 wb) with (Ok tt, snd (sleep 2 wb)). cbv iota beta.
      exact Hw'.
    + destruct (Hbook wb eq_refl eq_refl) as (w' & Hw' & Hrest).
      exists w'. split; [|exact Hrest]. exact Hw'.
  - eexists. split; [reflexivity|]. cbn.
    split; [reflexivity|]. split; [exact Hk|]. split; reflexivity.
  - eexists. split; [reflexivity|]. cbn. split; [reflexivity | exact Hk].
Qed.

(** ** UTC offsets: labels written and read back *)

Lemma all_chars_app (p : ascii -> bool) (s t : string) :
  all_chars p (s ++ t)%string = all_chars p s && all_chars p t.
Proof. induction s as [|a s IH]; simpl; [reflexivity|]. rewrite IH, andb_assoc. reflexivity. Qed.

Lemma all_chars_impl (p q : ascii -> bool) (s : string) :
  (forall a, p a = true -> q a = true) -> all_chars p s = true -> all_chars q s = true.
Proof.
  intros Hpq. induction s as [|a s IH]; simpl; [reflexivity|].
  intros H. apply andb_true_iff in H. destruct H as [Ha Hs].
  rewrite (Hpq _ Ha), (IH Hs). reflexivity.
Qed.

Lemma pretty_N_char_digit (x : N) :
  (x < 10)%N ->
  Re.is_digit (pretty_N_char x) = true /\
  Z.of_nat (nat_of_ascii (pretty_N_char x) - 48) = Z.of_N x.
Proof.
  intros H.
  assert (x = 0 \/ x = 1 \/ x = 2 \/ x = 3 \/ x = 4 \/ x = 5 \/ x = 6 \/ x = 7
          \/ x = 8 \/ x = 9)%N as Hx by lia.
  repeat (destruct Hx as [-> | Hx]; [split; reflexivity|]). subst x. split; reflexivity.
Qed.

Lemma pretty_N_go_digits (x : N) (s : string) :
  all_chars Re.is_digit (pretty_N_go x s) = all_chars Re.is_digit s.
Proof.
  revert s. induction (N.lt_wf_0 x) as [x _ IH]; intros s.
  destruct (N.eq_dec x 0) as [->|Hx]; [reflexivity|].
  rewrite pretty_N_go_step by lia.
  rewrite IH by (apply N.div_lt; [lia | reflexivity]).
  simpl. destruct (pretty_N_char_digit (x mod 10)) as [-> _]; [|reflexivity].
  apply N.mod_lt. discriminate.
Qed.

Lemma int_digits_pretty_N_go (x : N) (b : bool) (s : string) :
  (0 < x)%N ->
  Str.int_digits 0 b (pretty_N_go x s) = Str.int_digits (Z.of_N x) true s.
Proof.
  revert b s. induction (N.lt_wf_0 x) as [x _ IH]; intros b s Hx.
  rewrite pretty_N_go_step by exact Hx.
  destruct (pretty_N_char_digit (x mod 10)) as [Hd Hv]; [apply N.mod_lt; discriminate|].
  destruct (N.eq_dec (x / 10) 0) as [H0|H0].
  - rewrite H0, pretty_N_go_0. simpl. rewrite Hd, Hv.
    f_equal. pose proof (N.div_mod x 10 ltac:(discriminate)) as H.
    rewrite H0, N.mul_0_r, N.add_0_l in H. rewrite <- H. reflexivity.
  - assert (Hlt : (x / 10 < x)%N) by (apply N.div_lt; [exact Hx | reflexivity]).
    assert (Hpos : (0 < x / 10)%N) by (apply N.neq_0_lt_0; exact H0).
    rewrite (IH _ Hlt _ _ Hpos).
    simpl. rewrite Hd, Hv. f_equal.
    pose proof (N.div_mod x 10 ltac:(discriminate)) as H.
    apply (f_equal Z.of_N) in H. rewrite N2Z.inj_add, N2Z.inj_mul in H.
    clear - H. lia.
Qed.

Lemma str_of_int_digits (n : Z) :
  (0 <= n)%Z ->
  all_chars Re.is_digit (str_of_int n) = true /\
  str_of_int n <> EmptyString /\
  forall b, Str.int_digits 0 b (str_of_int n) = Some n.
Proof.
  intros Hn. unfold str_of_int, pretty, pretty_Z.
  destruct n as [|p|p];
    [split; [reflexivity | split; [discriminate | reflexivity]] | | lia].
  unfold pretty, pretty_positive, pretty, pretty_N.
  destruct (decide (N.pos p = 0%N)) as [H|_]; [discriminate H|].
  split; [rewrite pretty_N_go_digits; reflexivity|]. split.
  - intros H. pose proof (int_digits_pretty_N_go (N.pos p) false "" ltac:(lia)) as Hi.
    rewrite H in Hi. discriminate Hi.
  - intros b. rewrite int_digits_pretty_N_go by lia. reflexivity.
Qed.

Lemma format_02d_digits (n : Z) :
  (0 <= n)%Z ->
  all_chars Re.is_digit (Str.format_02d n) = true /\
  Str.format_02d n <> EmptyString /\
  Str.int_digits 0 false (Str.format_02d n) = Some n.
Proof.
  intros Hn. destruct (str_of_int_digits n Hn) as (Hd & Hne & Hi).
  unfold Str.format_02d. destruct (String.length (str_of_int n) <? 2)%nat.
  - simpl. split; [exact Hd|]. split; [discriminate|]. apply Hi.
  - split; [exact Hd|]. split; [exact Hne | apply Hi].
Qed.

Lemma lstrip_head (p : ascii -> bool) (a : ascii) (s : string) :
  p a = false -> Str.lstrip p (String a s) = String a s.
Proof. intros H. simpl. rewrite H. reflexivity. Qed.

Lemma rstrip_none (p : ascii -> bool) (s : string) :
  all_chars (fun a => negb (p a)) s = true -> Str.rstrip p s = s.
Proof.
  induction s as [|a s IH]; simpl; [reflexivity|].
  intros H. apply andb_true_iff in H. destruct H as [Ha Hs].
  rewrite (IH Hs). apply negb_true_iff in Ha. rewrite Ha.
  destruct s; reflexivity.
Qed.

Lemma digit_facts (a : ascii) :
  Re.is_digit a = true ->
  Re.is_space a = false /\ Str.is_int_space a = false /\
  a <> "+"%char /\ a <> "-"%char /\ a <> ":"%char /\ a <> ")"%char.
Proof.
  destruct a as [[] [] [] [] [] [] [] []]; vm_compute; intros H;
    try discriminate H; repeat split; discriminate.
Qed.

Lemma digits_not (q : ascii -> bool) (s : string) :
  (forall a, Re.is_digit a = true -> q a = true) ->
  all_chars Re.is_digit s = true -> all_chars q s = true.
Proof. apply all_chars_impl. Qed.

(** [int()] of a string of digits reads its digits. *)
Lemma int_of_digits (s : string) :
  all_chars Re.is_digit s = true -> Str.int s = Str.int_digits 0 false s.
Proof.
  intros Hd. unfold Str.int.
  destruct s as [|a s]; [reflexivity|].
  pose proof Hd as Hd'. simpl in Hd'. apply andb_true_iff in Hd'. destruct Hd' as [Ha _].
  destruct (digit_facts a Ha) as (_ & Hsp & Hplus & Hminus & _).
  rewrite (lstrip_head _ _ _ Hsp).
  rewrite rstrip_none.
  - destruct a as [[] [] [] [] [] [] [] []]; try reflexivity; congruence.
  - revert Hd. apply all_chars_impl. intros c Hc.
    destruct (digit_facts c Hc) as (_ & -> & _). reflexivity.
Qed.

Lemma int_format_02d (n : Z) : (0 <= n)%Z -> Str.int (Str.format_02d n) = Some n.
Proof.
  intros Hn. destruct (format_02d_digits n Hn) as (Hd & _ & Hi).
  rewrite int_of_digits by exact Hd. exact Hi.
Qed.

Lemma split_without (c : ascii) (s : string) :
  all_chars (fun a => negb (Ascii.eqb a c)) s = true -> Str.split c s = [s].
Proof.
  induction s as [|a s IH]; simpl; [reflexivity|].
  intros H. apply andb_true_iff in H. destruct H as [Ha Hs].
  apply negb_true_iff in Ha. rewrite Ha, (IH Hs). reflexivity.
Qed.

Lemma split_at_first (c : ascii) (s t : string) :
  all_chars (fun a => negb (Ascii.eqb a c)) s = true ->
  Str.split c (s ++ String c t)%string = s :: Str.split c t /\
  Str.split_once c (s ++ String c t)%string = Some (s, t) /\
  Str.index c (s ++ String c t)%string = Some (String.length s).
Proof.
  induction s as [|a s IH]; simpl.
  - rewrite Ascii.eqb_refl. auto.
  - intros H. apply andb_true_iff in H. destruct H as [Ha Hs].
    apply negb_true_iff in Ha. rewrite Ha.
    destruct (IH Hs) as (-> & -> & ->). auto.
Qed.

Lemma take_app_exact (s t : string) : Str.take (String.length s) (s ++ t)%string = s.
Proof. induction s as [|a s IH]; simpl; [destruct t; reflexivity|]. rewrite IH. reflexivity. Qed.

Lemma digits_without (c : ascii) (s : string) :
  Re.is_digit c = false ->
  all_chars Re.is_digit s = true ->
  all_chars (fun a => negb (Ascii.eqb a c)) s = true.
Proof.
  intros Hc. apply all_chars_impl. intros a Ha.
  destruct (Ascii.eqb_spec a c) as [->|_]; [congruence | reflexivity].
Qed.

Lemma append_cons (a : ascii) (s t : string) :
  (String a s ++ t)%string = String a (s ++ t)%string.
Proof. reflexivity. Qed.

Lemma append_nil (t : string) : (EmptyString ++ t)%string = t.
Proof. reflexivity. Qed.

Lemma append_assoc (s t u : string) : ((s ++ t) ++ u = s ++ (t ++ u))%string.
Proof. induction s as [|a s IH]; [reflexivity|]. rewrite !append_cons, IH. reflexivity. Qed.

Ltac norm_append := repeat (rewrite append_cons || rewrite append_nil).

Lemma minutes_reassemble (minutes : Z) :
  ((if (0 <=? minutes)%Z then 1 else -1)
   * (Z.abs minutes / 60 * 60 + Z.abs minutes mod 60) = minutes)%Z.
Proof.
  pose proof (Z.div_mod (Z.abs minutes) 60 ltac:(lia)).
  destruct (Z.leb_spec 0 minutes); lia.
Qed.

(** X15: a label written by [_format_utc_offset], with or without its
    space, is read back by [set_timezone_by_utc_label] as the minutes it was
    written from, whatever their sign and size: the label is never refused
    as invalid, and the zone asked for is the best zone of these minutes. *)
Theorem utc_label_round_trip (zones : list Zone) (minutes : Z) (with_space : bool) :
  let label := _format_utc_offset minutes with_space in
  label_minutes label = Some minutes /\
  set_timezone_by_utc_label zones label
  = match _best_zone_for_offset zones minutes with
    | Some key =>
        if Py.truthy key then SetZone key
        else Refused ("No timezone found for UTC" ++ Str.drop 3 label ++ ".")
    | None => Refused ("No timezone found for UTC" ++ Str.drop 3 label ++ ".")
    end.
Proof.
  intros label.
  assert (Hh : (0 <= Z.abs minutes / 60)%Z) by (apply Z.div_pos; lia).
  assert (Hm : (0 <= Z.abs minutes mod 60)%Z) by (apply Z.mod_pos_bound; lia).
  destruct (format_02d_digits _ Hh) as (Hhd & _ & _).
  destruct (format_02d_digits _ Hm) as (Hmd & _ & _).
  assert (Hlabel : label_minutes label = Some minutes).
  { subst label. unfold label_minutes, _format_utc_offset.
    set (H := Str.format_02d (Z.abs minutes / 60)) in *.
    set (M := Str.format_02d (Z.abs minutes mod 60)) in *.
    assert (Hstrip : forall c : ascii, Re.is_space c = false ->
              Re.is_digit c = false -> c <> ":"%char ->
              Str.strip (String c (H ++ String ":" M)) = String c (H ++ String ":" M)).
    { intros c Hc _ _. unfold Str.strip. rewrite (lstrip_head _ _ _ Hc).
      apply rstrip_none. simpl. rewrite Hc, all_chars_app. simpl.
      rewrite (all_chars_impl Re.is_digit _ H), (all_chars_impl Re.is_digit _ M); auto;
        intros a Ha; destruct (digit_facts a Ha) as (-> & _); reflexivity. }
    assert (Hsplit : Str.split ":" (H ++ String ":" M) = [H; M]).
    { destruct (split_at_first ":" H M) as (-> & _).
      - apply digits_without; [reflexivity | exact Hhd].
      - rewrite split_without; [reflexivity|].
        apply digits_without; [reflexivity | exact Hmd]. }
    pose proof (minutes_reassemble minutes) as Hre.
    destruct with_space, (0 <=? minutes)%Z;
      norm_append; cbn [Str.drop];
      try change (Str.strip (String " " ?s)) with (Str.strip s);
      (rewrite Hstrip by (reflexivity || discriminate));
      cbn [Ascii.eqb Bool.eqb]; rewrite Hsplit;
      subst H M; rewrite !int_format_02d by assumption;
      f_equal; exact Hre. }
  split; [exact Hlabel|].
  unfold set_timezone_by_utc_label. rewrite Hlabel.
  assert (Hup : Str.startswith (Str.upper label) "UTC" = true)
    by (subst label; unfold _format_utc_offset;
        destruct with_space, (0 <=? minutes)%Z; reflexivity).
  rewrite Hup. reflexivity.
Qed.

(** X16: the display name of a zone that begins with an offset written by
    [_format_utc_offset] without its space, in brackets, is read back by
    [_parse_display_utc_prefix] as the minutes of that offset, whatever
    follows the closing bracket; a display that begins with "(UTC)", which
    has no offset, gives [None]. *)
Theorem display_prefix_round_trip (minutes : Z) (rest : string) :
  _parse_display_utc_prefix ("(" ++ _format_utc_offset minutes false ++ ")" ++ rest)
    = Some minutes /\
  _parse_display_utc_prefix ("(UTC)" ++ rest) = None.
Proof.
  split; [|reflexivity].
  assert (Hh : (0 <= Z.abs minutes / 60)%Z) by (apply Z.div_pos; lia).
  assert (Hm : (0 <= Z.abs minutes mod 60)%Z) by (apply Z.mod_pos_bound; lia).
  destruct (format_02d_digits _ Hh) as (Hhd & _ & _).
  destruct (format_02d_digits _ Hm) as (Hmd & _ & _).
  unfold _format_utc_offset.
  set (H := Str.format_02d (Z.abs minutes / 60)) in *.
  set (M := Str.format_02d (Z.abs minutes mod 60)) in *.
  set (sign := if (0 <=? minutes)%Z then "+"%char else "-"%char).
  set (body := String "(" (String "U" (String "T" (String "C"
                 (String sign (H ++ String ":" M)))))).
  assert (Hd : ("(" ++ ("UTC" ++ (if (0 <=? minutes)%Z then "+" else "-")
                        ++ H ++ ":" ++ M) ++ ")" ++ rest)%string
               = (body ++ String ")" rest)%string).
  { subst body sign. destruct (0 <=? minutes)%Z; norm_append;
      rewrite !append_assoc; norm_append; reflexivity. }
  rewrite Hd. clear Hd.
  assert (Hbody : all_chars (fun a => negb (Ascii.eqb a ")")) body = true).
  { subst body. cbn [all_chars]. rewrite all_chars_app. cbn [all_chars].
    rewrite (digits_without ")" H eq_refl Hhd), (digits_without ")" M eq_refl Hmd).
    subst sign. destruct (0 <=? minutes)%Z; reflexivity. }
  destruct (split_at_first ")" body rest Hbody) as (_ & _ & Hidx).
  unfold _parse_display_utc_prefix, Str.contains. rewrite Hidx.
  assert (Hstart : Str.startswith (body ++ String ")" rest) "(UTC" = true) by reflexivity.
  rewrite Hstart. cbn [negb orb].
  assert (Hslice : Str.slice 1 (String.length body) (body ++ String ")" rest)
                   = String "U" (String "T" (String "C" (String sign (H ++ String ":" M))))).
  { unfold Str.slice. subst body. norm_append. cbn [String.length Str.drop].
    rewrite Nat.sub_1_r. cbn [Nat.pred].
    rewrite <- !append_cons.
    change (S (S (S (S (String.length (H ++ String ":" M))))))
      with (String.length (String "U" (String "T" (String "C" (String sign (H ++ String ":" M)))))).
    apply take_app_exact. }
  rewrite Hslice. cbn [Str.startswith String.prefix Str.drop].
  assert (Hp : (if ascii_dec "U" "U" then if ascii_dec "T" "T"
                then if ascii_dec "C" "C" then true else false else false else false) = true)
    by reflexivity.
  destruct (split_at_first ":" H M (digits_without ":" H eq_refl Hhd)) as (_ & Hso & _).
  rewrite Hso. subst H M. rewrite !int_format_02d by assumption.
  pose proof (minutes_reassemble minutes) as Hre.
  subst sign. destruct (0 <=? minutes)%Z; cbn; f_equal; exact Hre.
Qed.

(** ** The zone chosen for an offset *)

Lemma string_leb_trans (s1 s2 s3 : string) :
  String.leb s1 s2 = true -> String.leb s2 s3 = true -> String.leb s1 s3 = true.
Proof.
  unfold String.leb. revert s2 s3.
  induction s1 as [|a s1 IH]; intros [|b s2] [|c s3]; simpl;
    try reflexivity; try discriminate.
  unfold Ascii.compare.
  destruct (N.compare_spec (N_of_ascii a) (N_of_ascii b)) as [Hab|Hab|Hab];
    destruct (N.compare_spec (N_of_ascii b) (N_of_ascii c)) as [Hbc|Hbc|Hbc];
    destruct (N.compare_spec (N_of_ascii a) (N_of_ascii c)) as [Hac|Hac|Hac];
    try (intros; reflexivity); try (intros; discriminate); try (exfalso; lia).
  apply IH.
Qed.

Lemma string_leb_refl (s : string) : String.leb s s = true.
Proof. destruct (String.leb_total s s); assumption. Qed.

Lemma least_spec (keys : list string) :
  match Str.least keys with
  | Some k => In k keys /\ forall k', In k' keys -> String.leb k k' = true
  | None => keys = []
  end.
Proof.
  induction keys as [|k keys IH]; [reflexivity|].
  unfold Str.least in *. cbn [foldr].
  destruct (foldr _ None keys) as [m|].
  - destruct IH as [Hin Hle].
    destruct (String.leb k m) eqn:Hkm.
    + split; [left; reflexivity|]. intros k' [<-|Hk']; [apply string_leb_refl|].
      eapply string_leb_trans; [exact Hkm | apply Hle, Hk'].
    + split; [right; exact Hin|]. intros k' [<-|Hk']; [|apply Hle, Hk'].
      destruct (String.leb_total k m) as [H|H]; [congruence | exact H].
  - subst keys. split; [left; reflexivity|].
    intros k' [<-|[]]. apply string_leb_refl.
Qed.

(** The least key of the zones that pass a filter. *)
Lemma least_filtered (f : Zone -> bool) (zones : list Zone) :
  match Str.least (map key (List.filter f zones)) with
  | Some k =>
      exists z, In z zones /\ f z = true /\ key z = k /\
        forall z', In z' zones -> f z' = true -> String.leb (key z) (key z') = true
  | None => forall z, In z zones -> f z = false
  end.
Proof.
  pose proof (least_spec (map key (List.filter f zones))) as H.
  destruct (Str.least _) as [k|].
  - destruct H as [Hin Hle]. apply in_map_iff in Hin.
    destruct Hin as (z & Hk & Hz). apply filter_In in Hz. destruct Hz as [Hz Hf].
    exists z. split; [exact Hz|]. split; [exact Hf|]. split; [exact Hk|].
    intros z' Hz' Hf'. rewrite Hk. apply Hle, in_map, filter_In. auto.
  - intros z Hz. destruct (f z) eqn:Hf; [|reflexivity].
    assert (Hin : In (key z) (map key (List.filter f zones)))
      by (apply in_map, filter_In; auto).
    rewrite H in Hin. destruct Hin.
Qed.

(** X17: [_best_zone_for_offset] finds a zone exactly when some zone has
    the offset asked for.  The key it returns is that of a zone with this
    offset which is of the best class present -- first the zones without
    daylight saving whose key begins with "UTC", then the others without
    daylight saving, then those with it -- and, within that class, the
    first key in the order of strings. *)
Theorem best_zone_choice (zones : list Zone) (offset : Z) :
  match _best_zone_for_offset zones offset with
  | Some k =>
      exists z, In z zones /\ key z = k /\ offset_minutes z = offset /\
        forall z', In z' zones -> offset_minutes z' = offset ->
          (zone_rank z <= zone_rank z')%nat /\
          (zone_rank z' = zone_rank z -> String.leb (key z) (key z') = true)
  | None => forall z, In z zones -> offset_minutes z <> offset
  end.
Proof.
  unfold _best_zone_for_offset.
  set (f0 := fun z => negb (has_dst z) && (offset_minutes z =? offset)%Z
                      && Str.startswith (Str.upper (key z)) "UTC").
  set (f1 := fun z => negb (has_dst z) && (offset_minutes z =? offset)%Z).
  set (f2 := fun z : Zone => (offset_minutes z =? offset)%Z).
  pose proof (least_filtered f0 zones) as H0.
  pose proof (least_filtered f1 zones) as H1.
  pose proof (least_filtered f2 zones) as H2.
  assert (Hnil : forall f, List.filter f zones = [] ->
                           forall z, In z zones -> f z = false).
  { intros f Hf z Hz. destruct (f z) eqn:E; [|reflexivity].
    assert (Hin : In z (List.filter f zones)) by (apply filter_In; auto).
    rewrite Hf in Hin. destruct Hin. }
  assert (Hsome : forall f a l, List.filter f zones = a :: l ->
                                Str.least (map key (List.filter f zones)) <> None).
  { intros f a l Hf Hn. pose proof (least_spec (map key (List.filter f zones))) as Hl.
    rewrite Hn, Hf in Hl. discriminate Hl. }
  destruct (List.filter f0 zones) as [|a0 l0] eqn:E0.
  - pose proof (Hnil f0 E0) as N0. clear H0.
    destruct (List.filter f1 zones) as [|a1 l1] eqn:E1.
    + pose proof (Hnil f1 E1) as N1. clear H1.
      destruct (List.filter f2 zones) as [|a2 l2] eqn:E2.
      * intros z Hz. pose proof (Hnil f2 E2 z Hz) as N2. unfold f2 in N2.
        apply Z.eqb_neq. exact N2.
      * rewrite <- E2 in H2 |- *. pose proof (Hsome f2 a2 l2 E2) as Hs.
        destruct (Str.least (map key (List.filter f2 zones))) as [k|]; [|congruence].
        destruct H2 as (z & Hz & Hf & Hk & Hle).
        exists z. split; [exact Hz|]. split; [exact Hk|].
        unfold f2 in Hf. apply Z.eqb_eq in Hf. split; [exact Hf|].
        assert (Hr : forall y, In y zones -> offset_minutes y = offset -> zone_rank y = 2%nat).
        { intros y Hy Ho. pose proof (N1 y Hy) as Ny. unfold f1 in Ny.
          apply Z.eqb_eq in Ho. rewrite Ho, andb_true_r in Ny.
          apply negb_false_iff in Ny. unfold zone_rank. rewrite Ny. reflexivity. }
        intros z' Hz' Ho'. rewrite (Hr z Hz Hf), (Hr z' Hz' Ho').
        split; [lia|]. intros _. apply Hle; [exact Hz'|]. unfold f2.
        apply Z.eqb_eq. exact Ho'.
    + rewrite <- E1 in H1 |- *. pose proof (Hsome f1 a1 l1 E1) as Hs.
      destruct (Str.least (map key (List.filter f1 zones))) as [k|]; [|congruence].
      destruct H1 as (z & Hz & Hf & Hk & Hle).
      exists z. split; [exact Hz|]. split; [exact Hk|].
      unfold f1 in Hf. apply andb_true_iff in Hf. destruct Hf as [Hd Ho].
      apply negb_true_iff in Hd. apply Z.eqb_eq in Ho. split; [exact Ho|].
      assert (Hr : zone_rank z = 1%nat).
      { pose proof (N0 z Hz) as Nz. unfold f0 in Nz.
        rewrite Hd in Nz. apply Z.eqb_eq in Ho. rewrite Ho in Nz. simpl in Nz.
        unfold zone_rank. rewrite Hd, Nz. reflexivity. }
      intros z' Hz' Ho'. rewrite Hr.
      pose proof (N0 z' Hz') as Nz'. unfold f0 in Nz'.
      apply Z.eqb_eq in Ho'. rewrite Ho' in Nz'.
      unfold zone_rank. destruct (has_dst z') eqn:Hd'; [split; [lia | discriminate]|].
      simpl in Nz'. rewrite Nz'. split; [lia|]. intros _.
      apply Hle; [exact Hz'|]. unfold f1. rewrite Hd', Ho'. reflexivity.
  - rewrite <- E0 in H0 |- *. pose proof (Hsome f0 a0 l0 E0) as Hs.
    destruct (Str.least (map key (List.filter f0 zones))) as [k|]; [|congruence].
    destruct H0 as (z & Hz & Hf & Hk & Hle).
    exists z. split; [exact Hz|]. split; [exact Hk|].
    unfold f0 in Hf. apply andb_true_iff in Hf. destruct Hf as [Hf Hu].
    apply andb_true_iff in Hf. destruct Hf as [Hd Ho].
    apply negb_true_iff in Hd. apply Z.eqb_eq in Ho. split; [exact Ho|].
    assert (Hr : zone_rank z = 0%nat) by (unfold zone_rank; rewrite Hd, Hu; reflexivity).
    intros z' Hz' Ho'. rewrite Hr. split; [lia|].
    unfold zone_rank. destruct (has_dst z') eqn:Hd'; [discriminate|].
    destruct (Str.startswith (Str.upper (key z')) "UTC") eqn:Hu'; [|discriminate].
    intros _. apply Hle; [exact Hz'|]. unfold f0.
    apply Z.eqb_eq in Ho'. rewrite Hd', Ho', Hu'. reflexivity.
Qed.

(** ** The zones read from the registry *)

Lemma u8_zero (b : Byte.byte) : Struct.u8 b = 0%Z -> b = Byte.x00.
Proof. destruct b; vm_compute; congruence. Qed.

Lemma le16_zero (b0 b1 : Byte.byte) :
  StructLE.le16 b0 b1 = 0%Z <-> b0 = Byte.x00 /\ b1 = Byte.x00.
Proof.
  split.
  - unfold StructLE.le16. intros H. apply Z.lor_eq_0_iff in H. destruct H as [H0 H1].
    apply Z.shiftl_eq_0_iff in H1; [|lia].
    split; apply u8_zero; assumption.
  - intros [-> ->]. reflexivity.
Qed.

(** X18: a "TZI" value of 44 bytes gives a zone whose offset is the
    opposite of the little-endian signed word in bytes 0 to 3, and which
    counts as having daylight saving exactly when one of the bytes 12, 13,
    28 and 29 -- the year fields of the two transition dates -- is not
    zero: no other byte, and in particular no month of a transition, has a
    part in it.  With a "TZI" of another length, or without one, the zone
    counts as having no daylight saving and takes the offset written at the
    head of its display name, or 0 when none can be read. *)
Theorem zone_entry_fields (key_name : string) (k : ZoneKey) :
  let z := zone_entry key_name k in
  key z = key_name /\
  match TZI k with
  | Some tzi =>
      if (length tzi =? 44)%nat
      then exists b0 b1 b2 b3 b12 b13 b28 b29,
             tzi !! 0%nat = Some b0 /\ tzi !! 1%nat = Some b1 /\
             tzi !! 2%nat = Some b2 /\ tzi !! 3%nat = Some b3 /\
             tzi !! 12%nat = Some b12 /\ tzi !! 13%nat = Some b13 /\
             tzi !! 28%nat = Some b28 /\ tzi !! 29%nat = Some b29 /\
             offset_minutes z = (- StructLE.le32s b0 b1 b2 b3)%Z /\
             (has_dst z = false <->
              b12 = Byte.x00 /\ b13 = Byte.x00 /\ b28 = Byte.x00 /\ b29 = Byte.x00)
      else has_dst z = false /\
           offset_minutes z = default 0%Z (_parse_display_utc_prefix (display z))
  | None => has_dst z = false /\
            offset_minutes z = default 0%Z (_parse_display_utc_prefix (display z))
  end.
Proof.
  intros z. split; [subst z; unfold zone_entry; repeat case_match; reflexivity|].
  assert (Hfallback : forall d,
            (match _parse_display_utc_prefix d with
             | Some m => if (m =? 0)%Z then 0%Z else m
             | None => 0%Z
             end) = default 0%Z (_parse_display_utc_prefix d)).
  { intros d. destruct (_parse_display_utc_prefix d) as [m|]; [|reflexivity].
    simpl. destruct (Z.eqb_spec m 0); congruence. }
  subst z. unfold zone_entry. destruct (TZI k) as [tzi|].
  - destruct (Nat.eqb_spec (length tzi) 44) as [Hlen|Hlen].
    + do 44 (destruct tzi as [|? tzi]; [discriminate Hlen|]).
      destruct tzi; [|discriminate Hlen].
      cbn [StructLE.unpack_3l8H8H StructLE.unpack_l StructLE.unpack_H app nth
           offset_minutes has_dst].
      eexists _, _, _, _, _, _, _, _.
      do 8 (split; [reflexivity|]). split; [reflexivity|].
      rewrite orb_false_iff, !negb_false_iff, !Z.eqb_eq, !le16_zero. tauto.
    + assert (Hun : StructLE.unpack_3l8H8H tzi = None).
      { unfold StructLE.unpack_3l8H8H.
        do 44 (destruct tzi as [|? tzi]; [reflexivity|]).
        destruct tzi; [contradiction Hlen; reflexivity | reflexivity]. }
      rewrite Hun. simpl. split; [reflexivity | apply Hfallback].
  - simpl. split; [reflexivity | apply Hfallback].
Qed.

(** ** The zones offered in the time-zone dialog *)

Lemma insert_by_perm {A} (le : A -> A -> bool) (x : A) (l : list A) :
  Permutation (insert_by le x l) (x :: l).
Proof.
  induction l as [|y l IH]; simpl; [reflexivity|].
  destruct (le x y); [reflexivity|].
  rewrite IH. apply perm_swap.
Qed.

Lemma sort_by_perm {A} (le : A -> A -> bool) (l : list A) :
  Permutation (sort_by le l) l.
Proof.
  induction l as [|x l IH]; simpl; [reflexivity|].
  rewrite insert_by_perm, IH. reflexivity.
Qed.

Lemma sort_by_sorted {A} (le : A -> A -> bool) (l : list A) :
  (forall a b, le a b = true \/ le b a = true) ->
  (forall a b c, le a b = true -> le b c = true -> le a c = true) ->
  StronglySorted (fun a b => le a b = true) (sort_by le l).
Proof.
  intros Htotal Htrans.
  assert (Hins : forall x s, StronglySorted (fun a b => le a b = true) s ->
                             StronglySorted (fun a b => le a b = true) (insert_by le x s)).
  { intros x s Hs. induction Hs as [|y s Hs IH Hy]; simpl.
    - constructor; constructor.
    - destruct (le x y) eqn:Hxy.
      + constructor; [constructor; assumption|].
        constructor; [exact Hxy|].
        eapply List.Forall_impl; [|exact Hy]. intros b Hb. eapply Htrans; eauto.
      + constructor; [exact IH|].
        eapply Permutation_Forall; [symmetry; apply insert_by_perm|].
        constructor; [|exact Hy].
        destruct (Htotal x y) as [H|H]; [congruence | exact H]. }
  induction l as [|x l IH]; simpl; [constructor | apply Hins, IH].
Qed.

Lemma choice_le_total (zones : list Zone) (a b : string * string) :
  choice_le zones a b = true \/ choice_le zones b a = true.
Proof.
  unfold choice_le.
  destruct (Z.ltb_spec (offset_for_key zones (snd a)) (offset_for_key zones (snd b)));
    [left; reflexivity|].
  destruct (Z.ltb_spec (offset_for_key zones (snd b)) (offset_for_key zones (snd a)));
    [right; reflexivity|].
  assert (E : offset_for_key zones (snd a) = offset_for_key zones (snd b)) by lia.
  rewrite E, Z.eqb_refl. simpl. apply String.leb_total.
Qed.

Lemma choice_le_trans (zones : list Zone) (a b c : string * string) :
  choice_le zones a b = true -> choice_le zones b c = true ->
  choice_le zones a c = true.
Proof.
  unfold choice_le.
  set (oa := offset_for_key zones (snd a)).
  set (ob := offset_for_key zones (snd b)).
  set (oc := offset_for_key zones (snd c)).
  intros Hab Hbc.
  apply orb_true_iff in Hab. apply orb_true_iff in Hbc. apply orb_true_iff.
  rewrite andb_true_iff, Z.ltb_lt, Z.eqb_eq in *.
  destruct Hab as [Hab|[Hab Lab]], Hbc as [Hbc|[Hbc Lbc]];
    try (left; lia).
  right. split; [lia|]. eapply string_leb_trans; eauto.
Qed.

Lemma offset_for_key_first (pre : list Zone) (z : Zone) (rest : list Zone) :
  ~ In (key z) (map key pre) ->
  offset_for_key (pre ++ z :: rest) (key z) = offset_minutes z.
Proof.
  induction pre as [|y pre IH]; simpl.
  - rewrite String.eqb_refl. reflexivity.
  - intros Hn. destruct (String.eqb_spec (key y) (key z)) as [E|_].
    + exfalso. apply Hn. left. exact E.
    + apply IH. intros H. apply Hn. right. exact H.
Qed.

Lemma offset_for_key_skip (pre : list Zone) (z : Zone) (rest : list Zone) (k : string) :
  In (key z) (map key pre) ->
  offset_for_key (pre ++ z :: rest) k = offset_for_key (pre ++ rest) k.
Proof.
  intros Hin.
  assert (Hother : forall l, key z <> k ->
            offset_for_key (l ++ z :: rest) k = offset_for_key (l ++ rest) k).
  { intros l Hne. induction l as [|p l IHl]; simpl.
    - destruct (String.eqb_spec (key z) k); [contradiction | reflexivity].
    - rewrite IHl. reflexivity. }
  destruct (String.eqb_spec (key z) k) as [<-|Hne]; [|apply Hother, Hne].
  induction pre as [|p pre IHp]; [destruct Hin|].
  simpl. destruct (String.eqb_spec (key p) (key z)) as [_|Hp]; [reflexivity|].
  apply IHp. destruct Hin as [E|H]; [contradiction | exact H].
Qed.

(** What the loop over the zones that follow [pre] collects, [seen] being
    the keys of [pre]. *)
Lemma choice_items_spec (pre zones : list Zone) (seen : gset string) :
  (forall k, k ∈ seen <-> In k (map key pre)) ->
  let items := choice_items zones seen in
  List.NoDup (map snd items) /\
  (forall k, In k (map snd items) <-> In k (map key zones) /\ ~ In k (map key pre)) /\
  Forall (fun it => exists z, In z zones /\ snd it = key z /\ fst it = choice_label z /\
                              offset_for_key (pre ++ zones) (key z) = offset_minutes z)
         items.
Proof.
  revert pre seen. induction zones as [|z zones IH]; intros pre seen Hseen; simpl.
  - split; [constructor|]. split; [intros k; simpl; tauto | constructor].
  - assert (Hnext : forall k, k ∈ ({[key z]} ∪ seen : gset string)
                              <-> In k (map key (pre ++ [z]))).
    { intros k. rewrite elem_of_union, elem_of_singleton, Hseen, map_app, in_app_iff.
      simpl. intuition congruence. }
    assert (Hshift : (pre ++ [z]) ++ zones = pre ++ z :: zones)
      by (rewrite <- app_assoc; reflexivity).
    destruct (decide (key z ∈ seen)) as [Hin|Hnot].
    + destruct (IH pre seen Hseen) as (Hnd & Hmem & Hall).
      split; [exact Hnd|]. split.
      * intros k. rewrite Hmem. split; [intros [H1 H2]; auto|].
        intros [[<-|H1] H2]; [|auto]. exfalso. apply H2, Hseen, Hin.
      * eapply List.Forall_impl; [|exact Hall].
        intros it (y & Hy & Hk & Hl & Ho). exists y.
        split; [right; exact Hy|]. split; [exact Hk|]. split; [exact Hl|].
        rewrite offset_for_key_skip; [exact Ho | apply Hseen, Hin].
    + destruct (IH (pre ++ [z]) _ Hnext) as (Hnd & Hmem & Hall).
      assert (Hpre : ~ In (key z) (map key pre)) by (rewrite <- Hseen; exact Hnot).
      split; [|split].
      * simpl. constructor; [|exact Hnd].
        intros H. apply Hmem in H. destruct H as [_ H]. apply H.
        rewrite map_app, in_app_iff. right. left. reflexivity.
      * intros k. simpl. rewrite Hmem, map_app, in_app_iff. simpl.
        destruct (String.eqb_spec (key z) k) as [<-|Hne]; tauto.
      * constructor.
        -- exists z. split; [left; reflexivity|]. split; [reflexivity|].
           split; [reflexivity|]. apply offset_for_key_first, Hpre.
        -- eapply List.Forall_impl; [|exact Hall].
           intros it (y & Hy & Hk & Hl & Ho). exists y.
           split; [right; exact Hy|]. split; [exact Hk|]. split; [exact Hl|].
           rewrite <- Hshift. exact Ho.
Qed.

(** X19: the list offered in the time-zone dialog holds every key of the
    registry's zones exactly once; each item carries the label and, for its
    place in the list, the offset of the first zone that has its key; and
    the items come in ascending order of that offset, items of one offset in
    the order of their labels. *)
Theorem timezone_choices_listed_once_in_order (zones : list Zone) :
  let items := list_timezone_choices_labels zones in
  List.NoDup (map snd items) /\
  (forall k, In k (map snd items) <-> In k (map key zones)) /\
  Forall (fun it => exists z, In z zones /\ snd it = key z /\ fst it = choice_label z /\
                              offset_for_key zones (key z) = offset_minutes z) items /\
  StronglySorted (fun a b => choice_le zones a b = true) items.
Proof.
  intros items. subst items. unfold list_timezone_choices_labels.
  destruct (choice_items_spec [] zones ∅) as (Hnd & Hmem & Hall).
  { intros k. rewrite elem_of_empty. simpl. tauto. }
  pose proof (sort_by_perm (choice_le zones) (choice_items zones ∅)) as Hp.
  split; [|split; [|split]].
  - eapply Permutation_NoDup; [|exact Hnd]. apply Permutation_map. symmetry. exact Hp.
  - intros k. rewrite <- (and_True (In k (map key zones))).
    transitivity (In k (map snd (choice_items zones ∅))).
    + split; apply Permutation_in, Permutation_map; [exact Hp | symmetry; exact Hp].
    + rewrite Hmem. simpl. tauto.
  - eapply Permutation_Forall; [symmetry; exact Hp | exact Hall].
  - apply sort_by_sorted; [apply choice_le_total | apply choice_le_trans].
Qed.

(** ** Launch at startup *)

(** X20: on Windows with the "Run" key opened, enabling the launch at
    startup leaves under the application's name the quoted path followed by
    [--startup], whatever was there before, and disabling it leaves nothing
    under that name and succeeds also when there was nothing; either way the
    values under other names stay as they were, so that disabling after
    enabling restores a key that had no value for the application. *)
Theorem startup_entry_set_and_removed (values : gmap string string)
    (app_name exe_path : string) :
  let on := register_startup true true (inr values) app_name exe_path true in
  let off := register_startup true true (inr values) app_name exe_path false in
  (exists v1, on = ((true, "Startup enabled."), inr v1) /\
     v1 !! app_name = Some (startup_value exe_path) /\
     (forall other, other <> app_name -> v1 !! other = values !! other) /\
     register_startup true true (inr v1) app_name exe_path true = on /\
     (values !! app_name = None ->
      register_startup true true (inr v1) app_name exe_path false
      = ((true, "Startup disabled."), inr values))) /\
  (exists v0, off = ((true, "Startup disabled."), inr v0) /\
     v0 !! app_name = None /\
     (forall other, other <> app_name -> v0 !! other = values !! other) /\
     (values !! app_name = None -> v0 = values)).
Proof.
  intros on off. subst on off. unfold register_startup. cbn [negb]. split.
  - eexists. split; [reflexivity|].
    split; [apply lookup_insert_eq|].
    split; [intros other Hne; apply lookup_insert_ne; congruence|].
    split; [rewrite insert_insert_eq; reflexivity|].
    intros Hnone. rewrite delete_insert_id by exact Hnone. reflexivity.
  - eexists. split; [reflexivity|].
    split; [apply lookup_delete_eq|].
    split; [intros other Hne; apply lookup_delete_ne; congruence|].
    intros Hnone. apply delete_id. exact Hnone.
Qed.

(** ** The configuration file *)

(** X21: a configuration file whose keys are all fields of the settings is
    merged over the defaults: a field takes the value of the file when the
    file has it and keeps its default otherwise.  A file with one key that
    is not a field is ignored as a whole, and the settings stay as they
    were.  Settings that were saved are loaded back as they were. *)
Theorem config_load_merges_or_ignores (Json : Type)
    (defaults settings : gmap string Json) :
  dom defaults = list_to_set SETTINGS_FIELDS ->
  (forall data, dom data ⊆ dom defaults ->
     forall k, load Json defaults settings (Some (Some data)) !! k
               = match data !! k with Some v => Some v | None => defaults !! k end) /\
  (forall data k, is_Some (data !! k) -> k ∉ SETTINGS_FIELDS ->
     load Json defaults settings (Some (Some data)) = settings) /\
  (forall saved before, dom saved = dom defaults ->
     load Json defaults settings (save Json saved true before) = saved).
Proof.
  intros Hdom. unfold load, save. split; [|split].
  - intros data Hsub k.
    destruct (decide (dom (data ∪ defaults) ⊆ list_to_set SETTINGS_FIELDS)) as [_|Hn].
    + rewrite lookup_union. destruct (data !! k), (defaults !! k); reflexivity.
    + exfalso. apply Hn. rewrite dom_union_L, <- Hdom.
      apply union_least; [exact Hsub | reflexivity].
  - intros data k Hk Hnot.
    destruct (decide (dom (data ∪ defaults) ⊆ list_to_set SETTINGS_FIELDS)) as [Hs|_];
      [|reflexivity].
    exfalso. apply Hnot.
    assert (Hin : k ∈ dom (data ∪ defaults))
      by (rewrite dom_union_L, elem_of_union; left; apply elem_of_dom; exact Hk).
    apply Hs in Hin. apply elem_of_list_to_set in Hin. exact Hin.
  - intros saved before Hsaved.
    destruct (decide (dom (saved ∪ defaults) ⊆ list_to_set SETTINGS_FIELDS)) as [_|Hn].
    + apply map_eq. intros k. rewrite lookup_union.
      destruct (saved !! k) eqn:Hk; [destruct (defaults !! k); reflexivity|].
      assert (Hd : defaults !! k = None).
      { apply not_elem_of_dom. rewrite <- Hsaved. apply not_elem_of_dom. exact Hk. }
      rewrite Hd. reflexivity.
    + exfalso. apply Hn. rewrite dom_union_L, Hsaved, Hdom.
      apply union_least; reflexivity.
Qed.

Lemma config_load_merges_or_ignores_witness :
  let defaults : gmap string Z :=
    list_to_map (map (fun f => (f, 0%Z)) SETTINGS_FIELDS) in
  load Z defaults ∅ (Some (Some {["log_level" := 7%Z]})) !! "log_level" = Some 7%Z /\
  load Z defaults ∅ (Some (Some {["log_level" := 7%Z]})) !! "ntp_timeout_ms" = Some 0%Z.
Proof.
  intros defaults.
  assert (Hdom : dom defaults = list_to_set SETTINGS_FIELDS)
    by (vm_compute; reflexivity).
  destruct (config_load_merges_or_ignores Z defaults ∅ Hdom) as (Hmerge & _ & _).
  assert (Hsub : dom ({["log_level" := 7%Z]} : gmap string Z) ⊆ dom defaults).
  { rewrite Hdom, dom_singleton_L. apply singleton_subseteq_l.
    apply elem_of_list_to_set. unfold SETTINGS_FIELDS.
    do 12 apply list_elem_of_further. apply list_elem_of_here. }
  split; rewrite (Hmerge _ Hsub); vm_compute; reflexivity.
Defined.

(** X22: the ping of the settings dialog always comes back with a payload:
    its worker limit lies between 1 and 8, so that [ping_servers] neither
    refuses the limit nor waits for ever, and the payload has one entry for
    each server of the list, in the order of the list and under its name. *)
Theorem dialog_ping_always_answers (servers : list string) (view : nat -> World)
    (order : list nat) :
  exists prog payload,
    _ping_servers servers view order = Returns (prog, payload) /\
    length payload = length servers /\
    forall i s, servers !! i = Some s ->
      exists r, payload !! i = Some (s, payload_rtt r, payload_method r) /\
                sample_ok r.
Proof.
  unfold _ping_servers. destruct servers as [|s0 tl] eqn:Hs.
  - exists [], []. split; [reflexivity|]. split; [reflexivity|].
    intros i s Hi. rewrite lookup_nil in Hi. discriminate Hi.
  - rewrite <- Hs. clear Hs s0 tl.
    set (max_workers := Z.min 8 (Z.max 1 (Z.of_nat (length servers)))).
    assert (Hpos : (0 < max_workers)%Z) by (subst max_workers; lia).
    destruct (ping_servers_slots servers 1000 max_workers 5 true view order Hpos)
      as (out & prog & Hp & Hlen & Hslot).
    pose proof (ping_servers_samples_ok servers 1000 max_workers 5 true view order) as Hok.
    rewrite Hp in Hok |- *.
    exists prog, (map payload_entry out). split; [reflexivity|].
    split; [rewrite length_map; exact Hlen|].
    intros i s Hi. specialize (Hslot i s Hi).
    rewrite list_lookup_fmap, Hslot. cbn [fmap option_fmap option_map].
    set (r := if decide (i ∈ order)
              then default (unknown s) (slot_of servers 1000 5 view i)
              else unknown s) in *.
    exists r. split.
    + assert (Hsrv : server r = s).
      { subst r. destruct (decide (i ∈ order)); [|reflexivity].
        destruct (slot_of servers 1000 5 view i) as [r'|] eqn:Hr'; [|reflexivity].
        destruct (slot_of_sample _ _ _ _ _ _ _ Hi Hr') as [Hsrv _]. exact Hsrv. }
      unfold payload_entry. rewrite Hsrv. reflexivity.
    + rewrite Forall_lookup in Hok. exact (Hok i r Hslot).
Qed.
